(** * Social media content analyzer: the analysis pipeline

    A shallow embedding of [src/config.py], [src/services/claude_service.py]
    and [src/services/evaluation_service.py], and the properties of the
    specification proved or refuted on it.

    Conventions of the embedding.
    - A value the model's reply can hold is a [pyval]: what [json.loads]
      builds.  A Python float is a double: it is modelled by its exact
      value, a rational, or one of the three special values.  The one float
      that the code computes, [1.0 / len(labels)], is rounded as the
      hardware rounds it, to the nearest double.  The thresholds 0.3 and
      0.7 are kept as the decimals that [config.py] writes: no double lies
      between such a decimal and the double nearest to it, so a double is
      greater than the one exactly when it is greater than the other.
    - An exception is an [exn]; a computation that may raise returns a
      [result].  Code that talks to the vendor API runs in the monad [M],
      which threads the [World]: the replies the API will give, the requests
      sent so far, the seconds slept and the clock.  The world survives an
      exception, as the effects of a Python call do.
    - The text of an exception ([str(e)]) and the ordering of two lists
      are the interpreter's; they are parameters ([str], [list_gt]). *)

From Stdlib Require Import String Ascii List ZArith QArith Bool Lia.
From Stdlib Require Import DecimalString.
Import ListNotations.

Set Warnings "-register-all".
Local Open Scope string_scope.

(** ** Python values and exceptions *)

Module Py.

Inductive float : Type :=
| Finite (q : Q)
| Infinity
| NegInfinity
| NaN.

Inductive pyval : Type :=
| PyNone
| PyBool (b : bool)
| PyInt (z : Z)
| PyFloat (f : float)
| PyStr (s : string)
| PyList (l : list pyval)
| PyDict (entries : list (string * pyval)).

(** [PyDict entries] is the dict built by inserting [entries] in order, as
    [json.loads] and a dict comprehension do: a key keeps the position of
    its first entry and the value of its last one. *)

Inductive exn : Type :=
| VendorError (what : string)
| JSONDecodeError
| KeyError
| TypeError
| AttributeError
| ValueError
| IndexError
| ZeroDivisionError
| OverflowError
| ValidationError.

Inductive result (A : Type) : Type :=
| Ok (a : A)
| Raise (e : exn).

Arguments Ok {A} a.
Arguments Raise {A} e.

Definition rbind {A B} (r : result A) (k : A -> result B) : result B :=
  match r with
  | Ok a => k a
  | Raise e => Raise e
  end.

(** [try: body / except classes: handler]. *)
Definition try_except {A} (body : result A) (caught : exn -> bool)
    (handler : exn -> result A) : result A :=
  match body with
  | Ok a => Ok a
  | Raise e => if caught e then handler e else Raise e
  end.

Definition is_ok {A} (r : result A) : bool :=
  match r with Ok _ => true | Raise _ => false end.

(** *** Numbers *)

Inductive num : Type :=
| Int (z : Z)
| Flt (f : float).

(** [bool] is a subclass of [int]: [True] counts as 1. *)
Definition as_num (v : pyval) : option num :=
  match v with
  | PyBool b => Some (Int (if b then 1 else 0)%Z)
  | PyInt z => Some (Int z)
  | PyFloat f => Some (Flt f)
  | _ => None
  end.

Definition to_float (n : num) : float :=
  match n with
  | Int z => Finite (inject_Z z)
  | Flt f => f
  end.

(** [a > b] on floats; every comparison with NaN is false. *)
Definition float_gt (a b : float) : bool :=
  match a, b with
  | NaN, _ => false
  | _, NaN => false
  | Infinity, Infinity => false
  | Infinity, _ => true
  | _, Infinity => false
  | NegInfinity, _ => false
  | Finite _, NegInfinity => true
  | Finite x, Finite y => negb (Qle_bool x y)
  end.

(** An int and a float compare by exact value. *)
Definition num_gt (a b : num) : bool := float_gt (to_float a) (to_float b).

(** [round(v, 4)] on a number: an int is returned unchanged, a finite float
    is rounded to the nearest multiple of 1/10000, ties to even. *)
Definition round_half_even (q : Q) : Z :=
  let n := Qnum q in
  let d := Zpos (Qden q) in
  let below := (n / d)%Z in
  let twice_rest := (2 * (n - below * d))%Z in
  if (twice_rest <? d)%Z then below
  else if (d <? twice_rest)%Z then (below + 1)%Z
  else if Z.even below then below else (below + 1)%Z.

Definition round4 (n : num) : num :=
  match n with
  | Int z => Int z
  | Flt (Finite q) => Flt (Finite (Qred (inject_Z (round_half_even (q * 10000)) / 10000)))
  | Flt f => Flt f
  end.

(** *** Doubles *)

(** The double nearest to [q], ties to even, as an exact rational: 53
    significant bits, and exponents down to that of the subnormals.  (The
    quotients of this program are at most 1: no overflow is modelled.) *)
Definition binary64 (q : Q) : Q :=
  if (Qnum q =? 0)%Z then 0
  else
    let a := Z.abs (Qnum q) # Qden q in
    let estimate := (Z.log2 (Qnum a) - Z.log2 (Zpos (Qden a)))%Z in
    let exponent := if Qle_bool (2 ^ estimate) a then estimate else (estimate - 1)%Z in
    let unit := 2 ^ Z.max (exponent - 52) (-1074) in
    Qred (inject_Z (Z.sgn (Qnum q) * round_half_even (a / unit)) * unit).

(** [1.0 / n] for an int [n] other than 0: the int is converted to a
    double, and the quotient of the two doubles is rounded to a double. *)
Definition one_over (n : Z) : Q := binary64 (1 / binary64 (inject_Z n)).

Arguments binary64 : simpl never.
Arguments one_over : simpl never.

(** *** Strings *)

Fixpoint substring_in (sub s : string) : bool :=
  if String.prefix sub s then true
  else match s with
       | EmptyString => false
       | String _ rest => substring_in sub rest
       end.

(** *** Dicts *)

Definition entries := list (string * pyval).

Fixpoint put (d : entries) (k : string) (v : pyval) : entries :=
  match d with
  | [] => [(k, v)]
  | (k', v') :: rest =>
      if String.eqb k' k then (k', v) :: rest else (k', v') :: put rest k v
  end.

(** The items of the dict in iteration order. *)
Definition items (d : entries) : entries :=
  fold_left (fun acc kv => put acc (fst kv) (snd kv)) d [].

Definition keys (d : entries) : list string := map fst (items d).

Definition has_key (d : entries) (k : string) : bool :=
  existsb (fun kv => String.eqb (fst kv) k) d.

Definition lookup (d : entries) (k : string) : option pyval :=
  option_map snd (find (fun kv => String.eqb (fst kv) k) (rev d)).

(** The bound method [data.get]: only a dict has it. *)
Definition getattr_get (data : pyval) : result (string -> pyval -> pyval) :=
  match data with
  | PyDict d =>
      Ok (fun k default => match lookup d k with Some v => v | None => default end)
  | _ => Raise AttributeError
  end.

(** The bound method [scores.items]. *)
Definition getattr_items (scores : pyval) : result entries :=
  match scores with
  | PyDict d => Ok (items d)
  | _ => Raise AttributeError
  end.

(** [x == label] for a decoded value [x] and a str [label]. *)
Definition eq_str (x : pyval) (label : string) : bool :=
  match x with
  | PyStr s => String.eqb s label
  | _ => false
  end.

(** [label in container] for a str [label]: key of a dict, element of a
    list, substring of a str; nothing else is a container. *)
Definition contains (container : pyval) (label : string) : result bool :=
  match container with
  | PyDict d => Ok (has_key d label)
  | PyList l => Ok (existsb (fun x => eq_str x label) l)
  | PyStr s => Ok (substring_in label s)
  | _ => Raise TypeError
  end.

(** [container[label] = v] for a str [label]. *)
Definition setitem (container : pyval) (label : string) (v : pyval) : result pyval :=
  match container with
  | PyDict d => Ok (PyDict (d ++ [(label, v)]))
  | _ => Raise TypeError
  end.

(** [labels[0]]. *)
Definition index0 (labels : list string) : result string :=
  match labels with
  | [] => Raise IndexError
  | l :: _ => Ok l
  end.

(** [1.0 / len(labels)]. *)
Definition one_over_len (labels : list string) : result float :=
  match labels with
  | [] => Raise ZeroDivisionError
  | _ => Ok (Finite (one_over (Z.of_nat (length labels))))
  end.

(** [{label: 1.0 / len(labels) for label in labels}]: with no label the
    division is never evaluated. *)
Definition uniform (labels : list string) : pyval :=
  PyDict (map (fun label =>
                 (label, PyFloat (Finite (one_over (Z.of_nat (length labels))))))
              labels).

(** [mapping.get(key, default)] on a dict with str keys: the key is hashed
    first, and a list or a dict is unhashable. *)
Definition mapping_get {A} (mapping : list (string * A)) (key : pyval) (default : A)
  : result A :=
  match key with
  | PyList _ | PyDict _ => Raise TypeError
  | PyStr s =>
      Ok (match find (fun kv => String.eqb (fst kv) s) mapping with
          | Some kv => snd kv
          | None => default
          end)
  | _ => Ok default
  end.

(** [f"{v:.2f}"]: an int is converted to a float first, which overflows
    from [2^1024 - 2^970] on.  Only the failure matters to the caller. *)
Definition format_2f (v : pyval) : result unit :=
  match v with
  | PyFloat _ => Ok tt
  | PyBool _ => Ok tt
  | PyInt z =>
      if (Z.abs z <? 2 ^ 1024 - 2 ^ 970)%Z then Ok tt else Raise OverflowError
  | PyStr _ => Raise ValueError
  | _ => Raise TypeError
  end.

Section Ordering.

(** The order of two lists is the interpreter's own. *)
Variable list_gt : list pyval -> list pyval -> result bool.

(** [a > b]. *)
Definition gt (a b : pyval) : result bool :=
  match as_num a, as_num b with
  | Some x, Some y => Ok (num_gt x y)
  | _, _ =>
      match a, b with
      | PyStr s, PyStr t => Ok (String.ltb t s)
      | PyList l, PyList m => list_gt l m
      | _, _ => Raise TypeError
      end
  end.

End Ordering.

End Py.

Import Py.

Declare Scope py_scope.
Delimit Scope py_scope with py.
Notation "x <- r ;; k" := (rbind r (fun x => k))
  (at level 61, r at next level, right associativity) : py_scope.

(** ** Configuration ([src/config.py]) *)

Record Settings : Type := {
  ANTHROPIC_API_KEY : string;
  CLAUDE_MODEL : string;
  ENABLE_VERACITY_CHECK : bool;
  ENABLE_NUANCE_ANALYSIS : bool;
  EN_POST_TYPES : list string;
  DE_POST_TYPES : list string;
  EN_POLITICAL_LABELS : list string;
  DE_POLITICAL_LABELS : list string;
  EN_INTENT_LABELS : list string;
  DE_INTENT_LABELS : list string;
  INTENT_CONFIDENCE_THRESHOLD : Q;
  SPAM_CONFIDENCE_THRESHOLD : Q
}.

(** The settings of [config.py] with the three fields a deployment sets:
    the API key and the two feature flags the pipeline reads. *)
Definition configure (api_key : string) (veracity nuance : bool) : Settings := {|
  ANTHROPIC_API_KEY := api_key;
  CLAUDE_MODEL := "claude-3-5-sonnet-20241022";
  ENABLE_VERACITY_CHECK := veracity;
  ENABLE_NUANCE_ANALYSIS := nuance;
  EN_POST_TYPES :=
    ["Factual Claim"; "Opinion"; "Question"; "Personal Update"; "Promotion"];
  DE_POST_TYPES :=
    ["Faktische Behauptung"; "Meinungsäußerung"; "Frage";
     "Persönliche Mitteilung"; "Werbung / Spam"];
  EN_POLITICAL_LABELS :=
    ["Left"; "Center-Left"; "Center"; "Center-Right"; "Right"; "Neutral"];
  DE_POLITICAL_LABELS :=
    ["Politisch Links"; "Politisch Mitte-Links"; "Politisch Mitte";
     "Politisch Mitte-Rechts"; "Politisch Rechts"; "Politisch Neutral"];
  EN_INTENT_LABELS :=
    ["Informative"; "Persuasive"; "Satirical";
     "Provocative"; "Commercial"; "Entertaining"];
  DE_INTENT_LABELS :=
    ["Informativ"; "Überzeugend"; "Satirisch";
     "Provozierend"; "Kommerziell"; "Unterhaltend"];
  INTENT_CONFIDENCE_THRESHOLD := 3 # 10;
  SPAM_CONFIDENCE_THRESHOLD := 7 # 10
|}.

(** The defaults of [config.py]: no API key, both flags on. *)
Definition default_settings : Settings := configure EmptyString true true.

(** ** The world outside: vendor API, sleep and clock *)

(** The text of a reply, seen through [json.loads]: text that it rejects
    with a JSONDecodeError, or text that decodes to a value. *)
Inductive response_text : Type :=
| Malformed (raw : string)
| Json (value : pyval).

(** One call of [client.messages.create] followed by [.content[0].text]. *)
Inductive attempt : Type :=
| Fails (e : exn)
| Returns (text : response_text).

(** A prompt is a fixed template filled with its arguments; it is kept as
    the template and the arguments. *)
Inductive prompt : Type :=
| ClassificationPrompt (text : string) (labels : list string) (language : string)
| PoliticalPrompt (text : string) (labels : list string) (language : string)
| IntentPrompt (text : string) (labels : list string) (language : string)
| VeracityPrompt (claim : string) (language : string).

(** [datetime.now(timezone.utc)]. *)
Record datetime : Type := {
  year : nat; month : nat; day : nat;
  hour : nat; minute : nat; second : nat; microsecond : nat
}.

Record World : Type := {
  api : nat -> attempt;        (* the outcome of the n-th API call *)
  requests : list prompt;      (* the prompts sent, oldest first *)
  sleeps : list Z;             (* the seconds slept, oldest first *)
  utcnow : datetime            (* the reading of the clock *)
}.

Definition M (A : Type) : Type := World -> result A * World.

Definition ret {A} (a : A) : M A := fun w => (Ok a, w).

Definition bind {A B} (m : M A) (k : A -> M B) : M B :=
  fun w => match m w with
           | (Ok a, w') => k a w'
           | (Raise e, w') => (Raise e, w')
           end.

Definition lift {A} (r : result A) : M A := fun w => (r, w).

(** [try: body / except Exception as e: handler]. *)
Definition try_except_Exception {A} (body : M A) (handler : exn -> M A) : M A :=
  fun w => match body w with
           | (Ok a, w') => (Ok a, w')
           | (Raise e, w') => handler e w'
           end.

Declare Scope m_scope.
Delimit Scope m_scope with m.
Notation "x <- m ;; k" := (bind m (fun x => k))
  (at level 61, m at next level, right associativity) : m_scope.
Notation "' pat <- m ;; k" := (bind m (fun x => match x with pat => k end))
  (at level 61, pat pattern, m at next level, right associativity) : m_scope.

(** [self.client.messages.create(...)] and [response.content[0].text]. *)
Definition messages_create (p : prompt) : M response_text :=
  fun w =>
    let w' := {| api := api w; requests := requests w ++ [p];
                 sleeps := sleeps w; utcnow := utcnow w |} in
    match api w (length (requests w)) with
    | Fails e => (Raise e, w')
    | Returns text => (Ok text, w')
    end.

(** [time.sleep(seconds)]. *)
Definition time_sleep (seconds : Z) : M unit :=
  fun w => (Ok tt, {| api := api w; requests := requests w;
                      sleeps := sleeps w ++ [seconds]; utcnow := utcnow w |}).

(** ** The gateway ([src/services/claude_service.py]) *)

Module ClaudeService.

(** What [classify_post_type] returns: primary_label, confidence, scores. *)
Definition classification : Type := (pyval * pyval * pyval)%type.

(** What [analyze_veracity] returns: status, justification,
    verification_method. *)
Definition veracity : Type := (pyval * pyval * pyval)%type.

Section Service.

Variable settings : Settings.

(** [__init__]: the service is enabled when the key is a non-empty str. *)
Definition enabled : bool :=
  negb (String.eqb (ANTHROPIC_API_KEY settings) EmptyString).

Definition _get_post_type_labels (language : string) : list string :=
  if String.eqb language "de" then DE_POST_TYPES settings else EN_POST_TYPES settings.

Definition _get_political_labels (language : string) : list string :=
  if String.eqb language "de" then DE_POLITICAL_LABELS settings
  else EN_POLITICAL_LABELS settings.

Definition _get_intent_labels (language : string) : list string :=
  if String.eqb language "de" then DE_INTENT_LABELS settings
  else EN_INTENT_LABELS settings.

Definition _get_default_classification (language : string) : result classification :=
  let labels := _get_post_type_labels language in
  let scores := uniform labels in
  (l0 <- index0 labels ;;
   c <- one_over_len labels ;;
   Ok (PyStr l0, PyFloat c, scores))%py.

Definition _get_default_political_analysis (language : string) : result pyval :=
  Ok (uniform (_get_political_labels language)).

Definition _get_default_intent_analysis (language : string) : result pyval :=
  Ok (uniform (_get_intent_labels language)).

Definition _get_default_veracity_analysis (claim language : string) : result veracity :=
  Ok (PyStr "Unverifiable", PyStr "Analysis not available", PyStr "Default method used").

(** [json.loads(response_text)]; a response that is not a str is a
    TypeError. *)
Definition json_loads (response : option response_text) : result pyval :=
  match response with
  | None => Raise TypeError
  | Some (Malformed _) => Raise JSONDecodeError
  | Some (Json v) => Ok v
  end.

(** [except (json.JSONDecodeError, KeyError)]. *)
Definition parse_errors (e : exn) : bool :=
  match e with
  | JSONDecodeError | KeyError => true
  | _ => false
  end.

(** [for label in labels: if label not in scores: scores[label] = 0.0]. *)
Fixpoint fill_missing (labels : list string) (scores : pyval) : result pyval :=
  match labels with
  | [] => Ok scores
  | label :: rest =>
      (present <- contains scores label ;;
       scores' <- (if present then Ok scores
                   else setitem scores label (PyFloat (Finite 0))) ;;
       fill_missing rest scores')%py
  end.

Definition _parse_classification_response
    (response : option response_text) (labels : list string) : result classification :=
  try_except
    (data <- json_loads response ;;
     get <- getattr_get data ;;
     l0 <- index0 labels ;;
     let primary_label := get "primary_label" (PyStr l0) in
     get <- getattr_get data ;;
     let confidence := get "confidence" (PyFloat (Finite (1 # 2))) in
     get <- getattr_get data ;;
     let scores := get "scores" (PyDict []) in
     scores <- fill_missing labels scores ;;
     Ok (primary_label, confidence, scores))%py
    parse_errors
    (fun _ =>
       (l0 <- index0 labels ;;
        Ok (PyStr l0, PyFloat (Finite (1 # 2)), uniform labels))%py).

Definition _parse_political_response
    (response : option response_text) (labels : list string) : result pyval :=
  try_except
    (data <- json_loads response ;;
     get <- getattr_get data ;;
     let scores := get "scores" (PyDict []) in
     fill_missing labels scores)%py
    parse_errors
    (fun _ => Ok (uniform labels)).

Definition _parse_intent_response
    (response : option response_text) (labels : list string) : result pyval :=
  try_except
    (data <- json_loads response ;;
     get <- getattr_get data ;;
     let scores := get "scores" (PyDict []) in
     fill_missing labels scores)%py
    parse_errors
    (fun _ => Ok (uniform labels)).

Definition _parse_veracity_response (response : option response_text) : result veracity :=
  try_except
    (data <- json_loads response ;;
     get <- getattr_get data ;;
     let status := get "status" (PyStr "Unverifiable") in
     get <- getattr_get data ;;
     let justification := get "justification" (PyStr "No analysis available") in
     get <- getattr_get data ;;
     let verification_method := get "verification_method" (PyStr "No method specified") in
     Ok (status, justification, verification_method))%py
    parse_errors
    (fun _ =>
       Ok (PyStr "Unverifiable", PyStr "Error in analysis", PyStr "No method available")).

(** The body of [for attempt in range(max_retries)], over the attempts that
    remain.  A loop that runs out returns None, as a Python function that
    reaches its end does. *)
Fixpoint retry_loop (p : prompt) (max_retries : nat) (attempts : list nat)
  : M (option response_text) :=
  match attempts with
  | [] => ret None
  | attempt :: rest =>
      try_except_Exception
        (text <- messages_create p ;; ret (Some text))%m
        (fun e =>
           if (attempt <? max_retries - 1)%nat
           then (_ <- time_sleep (2 ^ Z.of_nat attempt) ;;
                 retry_loop p max_retries rest)%m
           else lift (Raise e))
  end.

Definition _make_api_call_with (p : prompt) (max_retries : nat)
  : M (option response_text) :=
  retry_loop p max_retries (seq 0 max_retries).

(** Every caller leaves [max_retries] at its default. *)
Definition _make_api_call (p : prompt) : M (option response_text) :=
  _make_api_call_with p 3.

Definition classify_post_type (text language : string) : M classification :=
  if negb enabled then lift (_get_default_classification language)
  else
    let labels := _get_post_type_labels language in
    try_except_Exception
      (let p := ClassificationPrompt text labels language in
       response <- _make_api_call p ;;
       lift (_parse_classification_response response labels))%m
      (fun _ => lift (_get_default_classification language)).

Definition analyze_political_tendency (text language : string) : M pyval :=
  if negb enabled then lift (_get_default_political_analysis language)
  else
    let labels := _get_political_labels language in
    try_except_Exception
      (let p := PoliticalPrompt text labels language in
       response <- _make_api_call p ;;
       lift (_parse_political_response response labels))%m
      (fun _ => lift (_get_default_political_analysis language)).

Definition analyze_intents (text language : string) : M pyval :=
  if negb enabled then lift (_get_default_intent_analysis language)
  else
    let labels := _get_intent_labels language in
    try_except_Exception
      (let p := IntentPrompt text labels language in
       response <- _make_api_call p ;;
       lift (_parse_intent_response response labels))%m
      (fun _ => lift (_get_default_intent_analysis language)).

Definition analyze_veracity (claim language : string) : M veracity :=
  if negb enabled then lift (_get_default_veracity_analysis claim language)
  else
    try_except_Exception
      (let p := VeracityPrompt claim language in
       response <- _make_api_call p ;;
       lift (_parse_veracity_response response))%m
      (fun _ => lift (_get_default_veracity_analysis claim language)).

End Service.

End ClaudeService.

(** ** The response models ([src/models/api_models.py]) *)

(** Modelled from the spec: the enumerations and records of
    [src/models/api_models.py], which is not among the sources.  The spec
    gives the closed enumerations PostType, VeracityStatus,
    PoliticalTendency and Intent and the records PostAnalysis,
    VeracityAnalysis, PoliticalTendencyAnalysis and NuanceAnalysis with the
    fields below. *)
Inductive PostType : Type :=
| FACTUAL_CLAIM | OPINION | QUESTION | PERSONAL_UPDATE | PROMOTION.

Inductive VeracityStatus : Type :=
| FACTUALLY_CORRECT | UNTRUTH | MISLEADING | UNVERIFIABLE.

Inductive PoliticalTendency : Type :=
| LEFT | CENTER_LEFT | CENTER | CENTER_RIGHT | RIGHT | NEUTRAL.

Inductive Intent : Type :=
| INFORMATIVE | PERSUASIVE | SATIRICAL | PROVOCATIVE | COMMERCIAL | ENTERTAINING.

Record PostAnalysis : Type := {
  post_type : PostType;
  is_spam : bool
}.

Record VeracityAnalysis : Type := {
  status : VeracityStatus;
  justification : string;
  verification_method : string;
  sources : list string
}.

Record PoliticalTendencyAnalysis : Type := {
  primary : PoliticalTendency;
  scores : list (string * num)
}.

Record NuanceAnalysis : Type := {
  political_tendency : PoliticalTendencyAnalysis;
  detected_intents : list Intent
}.

(** Modelled from the spec: a string field of a record holds a str; the
    constructor of the record rejects any other value. *)
Definition validate_str (v : pyval) : result string :=
  match v with
  | PyStr s => Ok s
  | _ => Raise ValidationError
  end.

Definition VeracityAnalysis_init (st : VeracityStatus) (justification verification_method : pyval)
    (sources : list string) : result VeracityAnalysis :=
  (j <- validate_str justification ;;
   m <- validate_str verification_method ;;
   Ok {| status := st; justification := j; verification_method := m;
         sources := sources |})%py.

Definition PostType_eqb (a b : PostType) : bool :=
  match a, b with
  | FACTUAL_CLAIM, FACTUAL_CLAIM | OPINION, OPINION | QUESTION, QUESTION
  | PERSONAL_UPDATE, PERSONAL_UPDATE | PROMOTION, PROMOTION => true
  | _, _ => false
  end.

(** ** The clock: [datetime.isoformat] *)

Definition pad (width : nat) (n : nat) : string :=
  let s := NilZero.string_of_uint (Nat.to_uint n) in
  String.concat EmptyString (repeat "0" (width - String.length s)) ++ s.

(** [isoformat()] of a datetime whose tzinfo is [timezone.utc]: the
    microseconds are left out when they are zero, the offset never is. *)
Definition isoformat (t : datetime) : string :=
  pad 4 (year t) ++ "-" ++ pad 2 (month t) ++ "-" ++ pad 2 (day t) ++ "T" ++
  pad 2 (hour t) ++ ":" ++ pad 2 (minute t) ++ ":" ++ pad 2 (second t) ++
  (if Nat.eqb (microsecond t) 0 then EmptyString else "." ++ pad 6 (microsecond t)) ++
  "+00:00".

(** ** The orchestrator ([src/services/evaluation_service.py]) *)

Module AdvancedEvaluationService.

Definition SPAM_LABELS : list string := ["Werbung / Spam"; "Promotion"].

(** The value of [perform_full_analysis]: a dict with these keys. *)
Record AnalysisResult : Type := {
  post_id : string;
  analysis_timestamp : string;
  language : string;
  post_analysis : PostAnalysis;
  veracity_analysis : option VeracityAnalysis;
  nuance_analysis : option NuanceAnalysis;
  processing_error : option string
}.

Section Service.

Variable settings : Settings.

(** [str(e)], the text of an exception. *)
Variable str : exn -> string.

Variable list_gt : list pyval -> list pyval -> result bool.

Definition _map_veracity_status (st : pyval) : result VeracityStatus :=
  mapping_get
    [("Factually Correct", FACTUALLY_CORRECT);
     ("Untruth", UNTRUTH);
     ("Misleading", MISLEADING);
     ("Unverifiable", UNVERIFIABLE)]
    st UNVERIFIABLE.

Definition _map_to_post_type (label : pyval) (language : string) : result PostType :=
  mapping_get
    [("Factual Claim", FACTUAL_CLAIM);
     ("Faktische Behauptung", FACTUAL_CLAIM);
     ("Opinion", OPINION);
     ("Meinungsäußerung", OPINION);
     ("Question", QUESTION);
     ("Frage", QUESTION);
     ("Personal Update", PERSONAL_UPDATE);
     ("Persönliche Mitteilung", PERSONAL_UPDATE);
     ("Promotion", PROMOTION);
     ("Werbung / Spam", PROMOTION)]
    label OPINION.

Definition _map_to_political_tendency (label : pyval) (language : string)
  : result PoliticalTendency :=
  mapping_get
    [("Left", LEFT);
     ("Politisch Links", LEFT);
     ("Center-Left", CENTER_LEFT);
     ("Politisch Mitte-Links", CENTER_LEFT);
     ("Center", CENTER);
     ("Politisch Mitte", CENTER);
     ("Center-Right", CENTER_RIGHT);
     ("Politisch Mitte-Rechts", CENTER_RIGHT);
     ("Right", RIGHT);
     ("Politisch Rechts", RIGHT);
     ("Neutral", NEUTRAL);
     ("Politisch Neutral", NEUTRAL)]
    label NEUTRAL.

Definition _map_to_intent (label : pyval) (language : string) : result Intent :=
  mapping_get
    [("Informative", INFORMATIVE);
     ("Informativ", INFORMATIVE);
     ("Persuasive", PERSUASIVE);
     ("Überzeugend", PERSUASIVE);
     ("Satirical", SATIRICAL);
     ("Satirisch", SATIRICAL);
     ("Provocative", PROVOCATIVE);
     ("Provozierend", PROVOCATIVE);
     ("Commercial", COMMERCIAL);
     ("Kommerziell", COMMERCIAL);
     ("Entertaining", ENTERTAINING);
     ("Unterhaltend", ENTERTAINING)]
    label INFORMATIVE.

Definition _should_perform_veracity_check (pt : PostType) (spam : bool) : bool :=
  PostType_eqb pt FACTUAL_CLAIM && negb spam && ENABLE_VERACITY_CHECK settings.

Definition _detect_spam (primary_label confidence : pyval) : result bool :=
  let is_promotion_label := existsb (eq_str primary_label) SPAM_LABELS in
  (high_promotion_score <-
     gt list_gt confidence (PyFloat (Finite (SPAM_CONFIDENCE_THRESHOLD settings))) ;;
   Ok (is_promotion_label && high_promotion_score))%py.

(** [max(scores, key=scores.get)]: the first key whose value no later
    value exceeds. *)
Fixpoint max_loop (rest : entries) (maxitem : string) (maxval : pyval) : result string :=
  match rest with
  | [] => Ok maxitem
  | (item, val) :: rest' =>
      (greater <- gt list_gt val maxval ;;
       if greater then max_loop rest' item val else max_loop rest' maxitem maxval)%py
  end.

Definition max_by_value (scores : pyval) : result string :=
  match scores with
  | PyDict d =>
      match items d with
      | [] => Raise ValueError
      | (item, val) :: rest => max_loop rest item val
      end
  | _ => Raise AttributeError
  end.

(** [round(v, 4)]: only a number has [__round__]. *)
Definition round_4 (v : pyval) : result num :=
  match as_num v with
  | Some n => Ok (round4 n)
  | None => Raise TypeError
  end.

(** [{k: round(v, 4) for k, v in items}]. *)
Fixpoint round_scores (its : entries) : result (list (string * num)) :=
  match its with
  | [] => Ok []
  | (k, v) :: rest =>
      (r <- round_4 v ;;
       rs <- round_scores rest ;;
       Ok ((k, r) :: rs))%py
  end.

Definition _build_political_analysis (scores : pyval) (language : string)
  : result PoliticalTendencyAnalysis :=
  (primary_label <- max_by_value scores ;;
   p <- _map_to_political_tendency (PyStr primary_label) language ;;
   its <- getattr_items scores ;;
   rounded <- round_scores its ;;
   Ok {| primary := p; scores := rounded |})%py.

(** [[intent for intent, score in items if score > threshold]]. *)
Fixpoint above_threshold (its : entries) : result (list string) :=
  match its with
  | [] => Ok []
  | (intent, score) :: rest =>
      (keep <- gt list_gt score
                  (PyFloat (Finite (INTENT_CONFIDENCE_THRESHOLD settings))) ;;
       kept <- above_threshold rest ;;
       Ok (if keep then intent :: kept else kept))%py
  end.

(** [[self._map_to_intent(intent, language) for intent in detected]]. *)
Fixpoint map_intents (detected : list string) (language : string) : result (list Intent) :=
  match detected with
  | [] => Ok []
  | intent :: rest =>
      (i <- _map_to_intent (PyStr intent) language ;;
       mapped <- map_intents rest language ;;
       Ok (i :: mapped))%py
  end.

Definition _build_intent_list (scores : pyval) (language : string) : result (list Intent) :=
  (its <- getattr_items scores ;;
   detected_intents <- above_threshold its ;;
   map_intents detected_intents language)%py.

Definition _run_triage (text language : string) : M (PostType * bool) :=
  ('(primary_label, confidence, _) <- ClaudeService.classify_post_type settings text language ;;
   spam <- lift (_detect_spam primary_label confidence) ;;
   pt <- lift (_map_to_post_type primary_label language) ;;
   _ <- lift (format_2f confidence) ;;
   ret (pt, spam))%m.

Definition _get_veracity_analysis (pt : PostType) (spam : bool) (post_text language : string)
  : M (option VeracityAnalysis) :=
  if negb (_should_perform_veracity_check pt spam) then ret None
  else
    ('(st, justification, verification_method) <-
        ClaudeService.analyze_veracity settings post_text language ;;
     s <- lift (_map_veracity_status st) ;;
     va <- lift (VeracityAnalysis_init s justification verification_method []) ;;
     ret (Some va))%m.

Definition _get_nuance_analysis (spam : bool) (post_text language : string)
  : M (option NuanceAnalysis) :=
  if spam || negb (ENABLE_NUANCE_ANALYSIS settings) then ret None
  else
    (political_scores <- ClaudeService.analyze_political_tendency settings post_text language ;;
     intent_scores <- ClaudeService.analyze_intents settings post_text language ;;
     political_analysis <- lift (_build_political_analysis political_scores language) ;;
     detected <- lift (_build_intent_list intent_scores language) ;;
     ret (Some {| political_tendency := political_analysis;
                  detected_intents := detected |}))%m.

Definition timestamp (w : World) : string := isoformat (utcnow w) ++ "Z".

Definition _build_analysis_response (id lang : string) (pt : PostType) (spam : bool)
    (va : option VeracityAnalysis) (na : option NuanceAnalysis)
    (error : option string) (w : World) : AnalysisResult :=
  {| post_id := id;
     analysis_timestamp := timestamp w;
     language := lang;
     post_analysis := {| post_type := pt; is_spam := spam |};
     veracity_analysis := va;
     nuance_analysis := na;
     processing_error := error |}.

(** The [try] block of [perform_full_analysis]. *)
Definition stages (post_text lang : string)
  : M (PostType * bool * option VeracityAnalysis * option NuanceAnalysis) :=
  ('(pt, spam) <- _run_triage post_text lang ;;
   va <- _get_veracity_analysis pt spam post_text lang ;;
   na <- _get_nuance_analysis spam post_text lang ;;
   ret (pt, spam, va, na))%m.

(** The dict returned by the [except Exception] block. *)
Definition failure_response (id lang : string) (e : exn) (w : World) : AnalysisResult :=
  {| post_id := id;
     analysis_timestamp := timestamp w;
     language := lang;
     post_analysis := {| post_type := OPINION; is_spam := false |};
     veracity_analysis := None;
     nuance_analysis :=
       Some {| political_tendency :=
                 {| primary := NEUTRAL; scores := [("Neutral", Flt (Finite 1))] |};
               detected_intents := [INFORMATIVE] |};
     processing_error := Some ("Analysis failed: " ++ str e) |}.

Definition perform_full_analysis (id post_text lang : string) (w : World)
  : AnalysisResult * World :=
  match stages post_text lang w with
  | (Ok (pt, spam, va, na), w') =>
      (_build_analysis_response id lang pt spam va na None w', w')
  | (Raise e, w') => (failure_response id lang e w', w')
  end.

End Service.

End AdvancedEvaluationService.

(** * Properties *)

Import ClaudeService AdvancedEvaluationService.

(** ** Vocabulary of the properties *)

(** A computation leaves the replies to come and the clock as they are. *)
Definition frames {A} (m : M A) : Prop :=
  forall w, api (snd (m w)) = api w /\ utcnow (snd (m w)) = utcnow w.

(** Every API call this world will answer fails. *)
Definition all_fail (w : World) : Prop :=
  forall n, exists e, api w n = Fails e.

(** The world after three failed attempts at [p]: three requests, and a
    sleep of 1 and of 2 seconds between them. *)
Definition after_three_failures (p : prompt) (w : World) : World :=
  {| api := api w;
     requests := ((requests w ++ [p]) ++ [p]) ++ [p];
     sleeps := (sleeps w ++ [1%Z]) ++ [2%Z];
     utcnow := utcnow w |}.

(** For the concrete runs: a text for each exception and an order for
    lists (no run below compares two lists), a clock and a world. *)
Definition example_str (e : exn) : string :=
  match e with
  | VendorError what => what
  | JSONDecodeError => "Expecting value"
  | KeyError => "key"
  | TypeError => "unsupported operand"
  | AttributeError => "no such attribute"
  | ValueError => "invalid value"
  | IndexError => "list index out of range"
  | ZeroDivisionError => "float division by zero"
  | OverflowError => "int too large to convert to float"
  | ValidationError => "validation error"
  end.

Definition no_list_order (l m : list pyval) : result bool := Raise TypeError.

Definition noon : datetime :=
  {| year := 2024; month := 1; day := 15;
     hour := 12; minute := 0; second := 0; microsecond := 0 |}.

(** A world that has sent nothing yet and will answer with [replies]. *)
Definition fresh (replies : nat -> attempt) : World :=
  {| api := replies; requests := []; sleeps := []; utcnow := noon |}.

(** The veracity analysis built from [_get_default_veracity_analysis]. *)
Definition default_veracity_analysis : VeracityAnalysis :=
  {| status := UNVERIFIABLE;
     justification := "Analysis not available";
     verification_method := "Default method used";
     sources := [] |}.

(** The gateway falls back in a world when it is not enabled or when every
    API call fails there. *)
Definition falls_back (settings : Settings) (w : World) : Prop :=
  enabled settings = false \/ (enabled settings = true /\ all_fail w).

(** The score held by a value, for summing a distribution. *)
Definition score_of (v : pyval) : Q :=
  match v with
  | PyFloat (Finite q) => q
  | _ => 0
  end.

(** The sum of the scores of a dict. *)
Definition total (d : entries) : Q :=
  fold_right Qplus 0 (map (fun kv => score_of (snd kv)) (items d)).

(** [scores] is a dict over exactly the labels [L], in their order, that
    gives each label the score [c]; the scores then sum to [|L| * c]. *)
Definition uniform_over (L : list string) (c : Q) (scores : pyval) : Prop :=
  exists d,
    scores = PyDict d /\
    keys d = L /\
    (forall label, In label L -> lookup d label = Some (PyFloat (Finite c))) /\
    total d == inject_Z (Z.of_nat (length L)) * c.

(** The safe default of the failure path, in the words of the
    specification: a processing error that is not empty, post type
    Opinion, not spam, no veracity analysis, and the one intent
    Informative. *)
Definition safe_default (r : AnalysisResult) : Prop :=
  (exists message, processing_error r = Some message /\ message <> EmptyString) /\
  post_type (post_analysis r) = OPINION /\
  is_spam (post_analysis r) = false /\
  veracity_analysis r = None /\
  (exists na, nuance_analysis r = Some na /\ detected_intents na = [INFORMATIVE]).

(** The labels of the active language that stand for a promotion. *)
Definition promotion_labels (settings : Settings) (lang : string) : list string :=
  filter (fun label =>
            match _map_to_post_type (PyStr label) lang with
            | Ok PROMOTION => true
            | _ => false
            end)
         (_get_post_type_labels settings lang).

(** The reply {"primary_label": label, "confidence": confidence}. *)
Definition classified (label : string) (confidence : Q) : attempt :=
  Returns (Json (PyDict [("primary_label", PyStr label);
                         ("confidence", PyFloat (Finite confidence))])).

(** The world after one request. *)
Definition after_request (p : prompt) (w : World) : World :=
  {| api := api w; requests := requests w ++ [p];
     sleeps := sleeps w; utcnow := utcnow w |}.

(** The scores [0.0] for every label, in the order of the labels. *)
Definition zero_scores (labels : list string) : pyval :=
  PyDict (map (fun label => (label, PyFloat (Finite 0))) labels).

(** [v > threshold] holds: [v] is a number strictly above it. *)
Definition exceeds (threshold : Q) (v : pyval) : bool :=
  match as_num v with
  | Some number => num_gt number (Flt (Finite threshold))
  | None => false
  end.

(** The Intent a label stands for. *)
Definition intent_of (label : string) : Intent :=
  match _map_to_intent (PyStr label) EmptyString with
  | Ok i => i
  | Raise _ => INFORMATIVE
  end.

(** A reply {"scores": {label: score, ...}}. *)
Definition scored (scores : list (string * Q)) : attempt :=
  Returns (Json (PyDict
    [("scores",
      PyDict (map (fun kv => (fst kv, PyFloat (Finite (snd kv)))) scores))])).

(** A decimal digit, "0" to "9". *)
Definition is_digit (c : ascii) : bool :=
  (48 <=? nat_of_ascii c)%nat && (nat_of_ascii c <=? 57)%nat.

(** [s] begins with text of the shape [pattern], in which [d] stands for a
    digit and any other character for itself; what follows is returned. *)
Fixpoint shaped (pattern s : string) : option string :=
  match pattern with
  | EmptyString => Some s
  | String p pattern' =>
      match s with
      | EmptyString => None
      | String c s' =>
          if (if Ascii.eqb p "d" then is_digit c else Ascii.eqb p c)
          then shaped pattern' s'
          else None
      end
  end.

(** One digit or more, then the letter Z. *)
Fixpoint fraction_then_Z (s : string) : bool :=
  match s with
  | EmptyString => false
  | String c rest => is_digit c && (String.eqb rest "Z" || fraction_then_Z rest)
  end.

(** A well-formed ISO-8601 timestamp in UTC with the suffix Z, as the
    specification asks for: a date, the letter T, a time, an optional
    fraction of a second, and Z as the only time-zone designator. *)
Definition iso8601_utc_z (s : string) : bool :=
  match shaped "dddd-dd-ddTdd:dd:dd" s with
  | None => false
  | Some rest =>
      String.eqb rest "Z" ||
      match rest with
      | String c fraction => Ascii.eqb c "." && fraction_then_Z fraction
      | EmptyString => false
      end
  end.

(** The string holds the character "+". *)
Fixpoint has_plus (s : string) : bool :=
  match s with
  | EmptyString => false
  | String c rest => Ascii.eqb c "+" || has_plus rest
  end.

(** *** Vocabulary of the further properties *)

(** The world after a sleep. *)
Definition after_sleep (seconds : Z) (w : World) : World :=
  {| api := api w; requests := requests w;
     sleeps := sleeps w ++ [seconds]; utcnow := utcnow w |}.

(** The world after [n] attempts at [p], the first of them numbered
    [first]: [n] requests, and between them the sleeps of [2 ^ attempt]
    seconds. *)
Definition after_attempts (p : prompt) (first n : nat) (w : World) : World :=
  {| api := api w;
     requests := requests w ++ repeat p n;
     sleeps := sleeps w ++ map (fun k => 2 ^ Z.of_nat k)%Z (seq first (n - 1));
     utcnow := utcnow w |}.

(** The value of [data.get(key, default)]. *)
Definition get_or (data : entries) (key : string) (default : pyval) : pyval :=
  match lookup data key with
  | Some v => v
  | None => default
  end.

(** A value that is not a JSON object. *)
Definition not_an_object (v : pyval) : bool :=
  match v with
  | PyDict _ => false
  | _ => true
  end.

(** A value in which nothing can be looked for with [in]: null, a boolean
    or a number. *)
Definition not_a_container (v : pyval) : bool :=
  match v with
  | PyNone | PyBool _ | PyInt _ | PyFloat _ => true
  | _ => false
  end.

(** [v] is a number: a float, an int or a boolean. *)
Definition is_number (v : pyval) : bool :=
  match as_num v with
  | Some _ => true
  | None => false
  end.

(** [v] is a number other than NaN. *)
Definition is_ordered (v : pyval) : bool :=
  match as_num v with
  | Some (Flt NaN) => false
  | Some _ => true
  | None => false
  end.

(** [a > b] holds between two numbers. *)
Definition greater (a b : pyval) : bool :=
  match as_num a, as_num b with
  | Some x, Some y => num_gt x y
  | _, _ => false
  end.

(** A rounded entry: the same key, and the value rounded to 4 places. *)
Definition rounded_from (x : string * pyval) (y : string * num) : Prop :=
  fst y = fst x /\ exists n, as_num (snd x) = Some n /\ snd y = round4 n.

(** The seconds slept so far. *)
Definition slept (w : World) : Z := fold_right Z.add 0%Z (sleeps w).

(** A computation sends at most [n] requests and sleeps at most [s]
    seconds; it takes nothing back. *)
Definition costs {A} (n : nat) (s : Z) (m : M A) : Prop :=
  forall w,
    (length (requests w) <= length (requests (snd (m w))) <=
     length (requests w) + n)%nat /\
    (slept w <= slept (snd (m w)) <= slept w + s)%Z.

(** A computation returns the world as it found it, and a value that
    does not depend on the world. *)
Definition constant {A} (m : M A) : Prop := exists r, forall w, m w = (r, w).

(** The nuance analysis built from the uniform scores over six labels:
    the first label wins the tie, and no intent reaches the threshold. *)
Definition fallback_nuance_analysis (settings : Settings) (lang : string)
  : NuanceAnalysis :=
  {| political_tendency :=
       {| primary := LEFT;
          scores := map (fun label => (label, Flt (Finite (1667 # 10000))))
                        (_get_political_labels settings lang) |};
     detected_intents := [] |}.

(** Two worlds that will answer alike: the same replies to come, as many
    requests sent, the same sleeps and the same clock. *)
Definition alike (w1 w2 : World) : Prop :=
  api w1 = api w2 /\
  length (requests w1) = length (requests w2) /\
  sleeps w1 = sleeps w2 /\
  utcnow w1 = utcnow w2.

(** Two computations that return the same value and worlds alike when
    started in worlds alike. *)
Definition agree {A} (m1 m2 : M A) : Prop :=
  forall w1 w2, alike w1 w2 ->
                fst (m1 w1) = fst (m2 w2) /\ alike (snd (m1 w1)) (snd (m2 w2)).

(** A value that can be the key of a dict: anything but a list or a
    dict. *)
Definition hashable (v : pyval) : bool :=
  match v with
  | PyList _ | PyDict _ => false
  | _ => true
  end.

(** A number that [float()] accepts: an int below [2^1024 - 2^970] in
    absolute value, or any float or boolean. *)
Definition fits_float (v : pyval) : bool :=
  match v with
  | PyInt z => (Z.abs z <? 2 ^ 1024 - 2 ^ 970)%Z
  | _ => true
  end.

(** Every API call this world will answer returns text that is not JSON. *)
Definition all_malformed (w : World) : Prop :=
  forall n, exists raw, api w n = Returns (Malformed raw).

(** The veracity analysis built from the fallback of
    [_parse_veracity_response]. *)
Definition unparsed_veracity_analysis : VeracityAnalysis :=
  {| status := UNVERIFIABLE;
     justification := "Error in analysis";
     verification_method := "No method available";
     sources := [] |}.

(** One more request has been sent, and nothing else has changed. *)
Definition one_request_later (w w' : World) : Prop :=
  all_malformed w' /\
  length (requests w') = S (length (requests w)) /\
  sleeps w' = sleeps w.

(** ** What no operation touches: the replies to come and the clock *)

Lemma frames_ret {A} (a : A) : frames (ret a).
Proof. intros w. split; reflexivity. Qed.

Lemma frames_lift {A} (r : result A) : frames (lift r).
Proof. intros w. split; reflexivity. Qed.

Lemma frames_bind {A B} (m : M A) (k : A -> M B) :
  frames m -> (forall a, frames (k a)) -> frames (bind m k).
Proof.
  intros Hm Hk w. unfold bind.
  destruct (Hm w) as [Ha Hc].
  destruct (m w) as [[a | e] w1]; simpl in *.
  - destruct (Hk a w1) as [Ha' Hc']. split; congruence.
  - split; assumption.
Qed.

Lemma frames_try {A} (body : M A) (handler : exn -> M A) :
  frames body -> (forall e, frames (handler e)) ->
  frames (try_except_Exception body handler).
Proof.
  intros Hb Hh w. unfold try_except_Exception.
  destruct (Hb w) as [Ha Hc].
  destruct (body w) as [[a | e] w1]; simpl in *.
  - split; assumption.
  - destruct (Hh e w1) as [Ha' Hc']. split; congruence.
Qed.

Lemma frames_messages_create (p : prompt) : frames (messages_create p).
Proof.
  intros w. unfold messages_create.
  destruct (api w (length (requests w))); split; reflexivity.
Qed.

Lemma frames_time_sleep (s : Z) : frames (time_sleep s).
Proof. intros w. split; reflexivity. Qed.

Create HintDb frames.

#[local] Hint Resolve frames_ret frames_lift frames_messages_create
  frames_time_sleep : frames.

Lemma frames_retry_loop (p : prompt) (max_retries : nat) (attempts : list nat) :
  frames (retry_loop p max_retries attempts).
Proof.
  induction attempts as [| attempt rest IH]; simpl.
  - apply frames_ret.
  - apply frames_try.
    + apply frames_bind; auto with frames.
    + intros e. destruct (attempt <? max_retries - 1)%nat.
      * apply frames_bind; auto with frames.
      * apply frames_lift.
Qed.

Lemma frames_make_api_call (p : prompt) : frames (_make_api_call p).
Proof. apply frames_retry_loop. Qed.

#[local] Hint Resolve frames_make_api_call : frames.

Section Frames.

Variable settings : Settings.
Variable str : exn -> string.
Variable list_gt : list pyval -> list pyval -> result bool.

Lemma frames_classify_post_type (text lang : string) :
  frames (classify_post_type settings text lang).
Proof.
  unfold classify_post_type. destruct (negb (enabled settings)).
  - apply frames_lift.
  - apply frames_try; [apply frames_bind |]; auto with frames.
Qed.

Lemma frames_analyze_political_tendency (text lang : string) :
  frames (analyze_political_tendency settings text lang).
Proof.
  unfold analyze_political_tendency. destruct (negb (enabled settings)).
  - apply frames_lift.
  - apply frames_try; [apply frames_bind |]; auto with frames.
Qed.

Lemma frames_analyze_intents (text lang : string) :
  frames (analyze_intents settings text lang).
Proof.
  unfold analyze_intents. destruct (negb (enabled settings)).
  - apply frames_lift.
  - apply frames_try; [apply frames_bind |]; auto with frames.
Qed.

Lemma frames_analyze_veracity (text lang : string) :
  frames (analyze_veracity settings text lang).
Proof.
  unfold analyze_veracity. destruct (negb (enabled settings)).
  - apply frames_lift.
  - apply frames_try; [apply frames_bind |]; auto with frames.
Qed.

#[local] Hint Resolve frames_classify_post_type frames_analyze_political_tendency
  frames_analyze_intents frames_analyze_veracity : frames.

Lemma frames_run_triage (text lang : string) :
  frames (_run_triage settings list_gt text lang).
Proof.
  unfold _run_triage.
  apply frames_bind; [auto with frames |].
  intros [[primary_label confidence] scores].
  repeat (apply frames_bind; [auto with frames | intros ?]).
  apply frames_ret.
Qed.

Lemma frames_get_veracity_analysis (pt : PostType) (spam : bool) (text lang : string) :
  frames (_get_veracity_analysis settings pt spam text lang).
Proof.
  unfold _get_veracity_analysis.
  destruct (negb (_should_perform_veracity_check settings pt spam)).
  - apply frames_ret.
  - apply frames_bind; [auto with frames |].
    intros [[st j] m].
    repeat (apply frames_bind; [auto with frames | intros ?]).
    apply frames_ret.
Qed.

Lemma frames_get_nuance_analysis (spam : bool) (text lang : string) :
  frames (_get_nuance_analysis settings list_gt spam text lang).
Proof.
  unfold _get_nuance_analysis.
  destruct (spam || negb (ENABLE_NUANCE_ANALYSIS settings)).
  - apply frames_ret.
  - repeat (apply frames_bind; [auto with frames | intros ?]).
    apply frames_ret.
Qed.

Lemma frames_stages (text lang : string) :
  frames (stages settings list_gt text lang).
Proof.
  unfold stages.
  apply frames_bind; [apply frames_run_triage |].
  intros [pt spam].
  apply frames_bind; [apply frames_get_veracity_analysis | intros va].
  apply frames_bind; [apply frames_get_nuance_analysis | intros na].
  apply frames_ret.
Qed.

(** The two exits of [perform_full_analysis]. *)
Lemma perform_full_analysis_cases (id text lang : string) (w : World) :
  let '(r, w') := perform_full_analysis settings str list_gt id text lang w in
  (exists pt spam va na,
      stages settings list_gt text lang w = (Ok (pt, spam, va, na), w') /\
      r = _build_analysis_response id lang pt spam va na None w') \/
  (exists e,
      stages settings list_gt text lang w = (Raise e, w') /\
      r = failure_response str id lang e w').
Proof.
  unfold perform_full_analysis.
  destruct (stages settings list_gt text lang w) as [[[[[pt spam] va] na] | e] w'].
  - left. exists pt, spam, va, na. split; reflexivity.
  - right. exists e. split; reflexivity.
Qed.

End Frames.

(** ** Runs of the model

    The three end-to-end scenarios of the specification, and a call that
    succeeds at its second attempt. *)

Example round4_of_a_sixth :
  round4 (Flt (Finite (one_over 6))) = Flt (Finite (1667 # 10000)) /\
  round4 (Flt (Finite (25 # 100000))) = Flt (Finite (1 # 5000)) /\
  round4 (Int 3) = Int 3.
Proof. repeat split; vm_compute; reflexivity. Qed.

Example second_attempt_succeeds :
  let w := fresh (fun n => match n with
                           | O => Fails (VendorError "rate limit")
                           | _ => Returns (Malformed "ok")
                           end) in
  let p := VeracityPrompt "A claim." "en" in
  _make_api_call p w =
  (Ok (Some (Malformed "ok")),
   {| api := api w; requests := [p; p]; sleeps := [1%Z]; utcnow := noon |}).
Proof. reflexivity. Qed.

Example scenario_factual_claim :
  let w := fresh (fun n => match n with
                           | O => classified "Factual Claim" (9 # 10)
                           | _ => Returns (Json (PyDict [("status", PyStr "Untruth");
                                                         ("justification", PyStr "No.")]))
                           end) in
  let r := fst (perform_full_analysis (configure "sk-key" true false)
                  example_str no_list_order "a" "The earth is flat." "en" w) in
  post_analysis r = {| post_type := FACTUAL_CLAIM; is_spam := false |} /\
  veracity_analysis r =
    Some {| status := UNTRUTH; justification := "No.";
            verification_method := "No method specified"; sources := [] |} /\
  nuance_analysis r = None /\
  processing_error r = None.
Proof. repeat split. Qed.

Example scenario_promotion :
  let w := fresh (fun _ => classified "Promotion" (85 # 100)) in
  let r := perform_full_analysis (configure "sk-key" true true)
             example_str no_list_order "b" "Buy now!" "en" w in
  post_analysis (fst r) = {| post_type := PROMOTION; is_spam := true |} /\
  veracity_analysis (fst r) = None /\
  nuance_analysis (fst r) = None /\
  processing_error (fst r) = None /\
  length (requests (snd r)) = 1%nat.
Proof. repeat split. Qed.

Example scenario_stage_raises :
  let w := fresh (fun _ => Returns (Json (PyDict [("confidence", PyNone)]))) in
  let r := fst (perform_full_analysis (configure "sk-key" true true)
                  example_str no_list_order "c" "Hello." "de" w) in
  post_analysis r = {| post_type := OPINION; is_spam := false |} /\
  veracity_analysis r = None /\
  processing_error r = Some "Analysis failed: unsupported operand" /\
  analysis_timestamp r = "2024-01-15T12:00:00+00:00Z".
Proof. repeat split. Qed.

(** ** The gateway when every API call fails *)

Lemma after_three_failures_all_fail (p : prompt) (w : World) :
  all_fail w -> all_fail (after_three_failures p w).
Proof. intros H n. exact (H n). Qed.

(** After the third failure [_make_api_call] raises the exception of the
    third attempt. *)
Lemma make_api_call_all_fail (p : prompt) (w : World) :
  all_fail w ->
  exists e, _make_api_call p w = (Raise e, after_three_failures p w).
Proof.
  intros H.
  destruct (H (length (requests w))) as [e1 H1].
  destruct (H (length (requests w ++ [p]))) as [e2 H2].
  destruct (H (length ((requests w ++ [p]) ++ [p]))) as [e3 H3].
  exists e3.
  unfold _make_api_call, _make_api_call_with. simpl.
  unfold try_except_Exception, bind, messages_create, time_sleep, lift. simpl.
  rewrite H1. simpl. rewrite H2. simpl. rewrite H3. reflexivity.
Qed.

Section FailingGateway.

Variable settings : Settings.
Hypothesis Henabled : enabled settings = true.

Lemma classify_post_type_all_fail (text lang : string) (w : World) :
  all_fail w ->
  classify_post_type settings text lang w =
  (_get_default_classification settings lang,
   after_three_failures
     (ClassificationPrompt text (_get_post_type_labels settings lang) lang) w).
Proof.
  intros H. unfold classify_post_type. rewrite Henabled. simpl.
  unfold try_except_Exception, bind.
  destruct (make_api_call_all_fail
              (ClassificationPrompt text (_get_post_type_labels settings lang) lang)
              w H) as [e He].
  rewrite He. reflexivity.
Qed.

Lemma analyze_political_tendency_all_fail (text lang : string) (w : World) :
  all_fail w ->
  analyze_political_tendency settings text lang w =
  (_get_default_political_analysis settings lang,
   after_three_failures
     (PoliticalPrompt text (_get_political_labels settings lang) lang) w).
Proof.
  intros H. unfold analyze_political_tendency. rewrite Henabled. simpl.
  unfold try_except_Exception, bind.
  destruct (make_api_call_all_fail
              (PoliticalPrompt text (_get_political_labels settings lang) lang)
              w H) as [e He].
  rewrite He. reflexivity.
Qed.

Lemma analyze_intents_all_fail (text lang : string) (w : World) :
  all_fail w ->
  analyze_intents settings text lang w =
  (_get_default_intent_analysis settings lang,
   after_three_failures
     (IntentPrompt text (_get_intent_labels settings lang) lang) w).
Proof.
  intros H. unfold analyze_intents. rewrite Henabled. simpl.
  unfold try_except_Exception, bind.
  destruct (make_api_call_all_fail
              (IntentPrompt text (_get_intent_labels settings lang) lang)
              w H) as [e He].
  rewrite He. reflexivity.
Qed.

Lemma analyze_veracity_all_fail (claim lang : string) (w : World) :
  all_fail w ->
  analyze_veracity settings claim lang w =
  (_get_default_veracity_analysis claim lang,
   after_three_failures (VeracityPrompt claim lang) w).
Proof.
  intros H. unfold analyze_veracity. rewrite Henabled. simpl.
  unfold try_except_Exception, bind.
  destruct (make_api_call_all_fail (VeracityPrompt claim lang) w H) as [e He].
  rewrite He. reflexivity.
Qed.

End FailingGateway.

Lemma enabled_configure (api_key : string) (veracity nuance : bool) :
  api_key <> EmptyString ->
  enabled (configure api_key veracity nuance) = true.
Proof.
  intros H. unfold enabled. simpl.
  destruct (String.eqb api_key EmptyString) eqn:E; [| reflexivity].
  apply String.eqb_eq in E. contradiction.
Qed.

(** ** The result when the gateway falls back at every step *)

Section FallingBack.

Variable settings : Settings.

Lemma classify_post_type_falls_back (text lang : string) (w : World) :
  falls_back settings w ->
  exists w',
    classify_post_type settings text lang w =
    (_get_default_classification settings lang, w') /\ falls_back settings w'.
Proof.
  intros [Hoff | [Hon Hfail]].
  - exists w. unfold classify_post_type. rewrite Hoff. split; [reflexivity | now left].
  - eexists. rewrite (classify_post_type_all_fail _ Hon text lang w Hfail).
    split; [reflexivity |]. right. split; [exact Hon |].
    apply after_three_failures_all_fail. exact Hfail.
Qed.

Lemma analyze_political_tendency_falls_back (text lang : string) (w : World) :
  falls_back settings w ->
  exists w',
    analyze_political_tendency settings text lang w =
    (_get_default_political_analysis settings lang, w') /\ falls_back settings w'.
Proof.
  intros [Hoff | [Hon Hfail]].
  - exists w. unfold analyze_political_tendency. rewrite Hoff.
    split; [reflexivity | now left].
  - eexists. rewrite (analyze_political_tendency_all_fail _ Hon text lang w Hfail).
    split; [reflexivity |]. right. split; [exact Hon |].
    apply after_three_failures_all_fail. exact Hfail.
Qed.

Lemma analyze_intents_falls_back (text lang : string) (w : World) :
  falls_back settings w ->
  exists w',
    analyze_intents settings text lang w =
    (_get_default_intent_analysis settings lang, w') /\ falls_back settings w'.
Proof.
  intros [Hoff | [Hon Hfail]].
  - exists w. unfold analyze_intents. rewrite Hoff.
    split; [reflexivity | now left].
  - eexists. rewrite (analyze_intents_all_fail _ Hon text lang w Hfail).
    split; [reflexivity |]. right. split; [exact Hon |].
    apply after_three_failures_all_fail. exact Hfail.
Qed.

Lemma analyze_veracity_falls_back (claim lang : string) (w : World) :
  falls_back settings w ->
  exists w',
    analyze_veracity settings claim lang w =
    (_get_default_veracity_analysis claim lang, w') /\ falls_back settings w'.
Proof.
  intros [Hoff | [Hon Hfail]].
  - exists w. unfold analyze_veracity. rewrite Hoff.
    split; [reflexivity | now left].
  - eexists. rewrite (analyze_veracity_all_fail _ Hon claim lang w Hfail).
    split; [reflexivity |]. right. split; [exact Hon |].
    apply after_three_failures_all_fail. exact Hfail.
Qed.

End FallingBack.

Lemma run_triage_falls_back (api_key : string) (veracity nuance : bool)
    (list_gt : list pyval -> list pyval -> result bool)
    (text lang : string) (w : World) :
  let settings := configure api_key veracity nuance in
  falls_back settings w ->
  exists w',
    _run_triage settings list_gt text lang w = (Ok (FACTUAL_CLAIM, false), w') /\
    falls_back settings w'.
Proof.
  intros settings H.
  destruct (classify_post_type_falls_back settings text lang w H) as [w' [E H']].
  exists w'. split; [| exact H'].
  unfold _run_triage, bind. rewrite E.
  unfold _get_default_classification, _get_post_type_labels.
  destruct (String.eqb lang "de"); reflexivity.
Qed.

Lemma get_veracity_analysis_falls_back (api_key : string) (veracity nuance : bool)
    (text lang : string) (w : World) :
  let settings := configure api_key veracity nuance in
  falls_back settings w ->
  exists w',
    _get_veracity_analysis settings FACTUAL_CLAIM false text lang w =
    (Ok (if veracity then Some default_veracity_analysis else None), w') /\
    falls_back settings w'.
Proof.
  intros settings H. unfold _get_veracity_analysis, _should_perform_veracity_check.
  destruct veracity; simpl.
  - destruct (analyze_veracity_falls_back settings text lang w H) as [w' [E H']].
    exists w'. split; [| exact H'].
    unfold bind. fold settings. rewrite E. reflexivity.
  - exists w. split; [reflexivity | exact H].
Qed.

Lemma get_nuance_analysis_falls_back (api_key : string) (veracity nuance : bool)
    (list_gt : list pyval -> list pyval -> result bool)
    (text lang : string) (w : World) :
  let settings := configure api_key veracity nuance in
  falls_back settings w ->
  exists pa w',
    _get_nuance_analysis settings list_gt false text lang w =
    (Ok (if nuance
         then Some {| political_tendency := pa; detected_intents := [] |}
         else None), w') /\
    falls_back settings w'.
Proof.
  intros settings H. unfold _get_nuance_analysis.
  destruct nuance; simpl.
  - destruct (analyze_political_tendency_falls_back settings text lang w H)
      as [w1 [E1 H1]].
    destruct (analyze_intents_falls_back settings text lang w1 H1) as [w2 [E2 H2]].
    unfold bind. fold settings. rewrite E1. simpl. rewrite E2.
    unfold _get_default_political_analysis, _get_political_labels,
      _get_default_intent_analysis, _get_intent_labels.
    destruct (String.eqb lang "de"); eexists; exists w2;
      (split; [lazy; reflexivity | exact H2]).
  - exists {| primary := NEUTRAL; scores := [] |}, w.
    split; [reflexivity | exact H].
Qed.

Lemma stages_falls_back (api_key : string) (veracity nuance : bool)
    (list_gt : list pyval -> list pyval -> result bool)
    (text lang : string) (w : World) :
  let settings := configure api_key veracity nuance in
  falls_back settings w ->
  exists pa w',
    stages settings list_gt text lang w =
    (Ok (FACTUAL_CLAIM, false,
         (if veracity then Some default_veracity_analysis else None),
         (if nuance
          then Some {| political_tendency := pa; detected_intents := [] |}
          else None)),
     w').
Proof.
  intros settings H.
  destruct (run_triage_falls_back api_key veracity nuance list_gt text lang w H)
    as [w1 [E1 H1]].
  destruct (get_veracity_analysis_falls_back api_key veracity nuance text lang w1 H1)
    as [w2 [E2 H2]].
  destruct (get_nuance_analysis_falls_back api_key veracity nuance list_gt text lang w2 H2)
    as [pa [w3 [E3 H3]]].
  exists pa, w3. subst settings. cbv zeta in E1, E2, E3.
  unfold stages, bind. rewrite E1, E2, E3. reflexivity.
Qed.

(** ** Dicts: keys are unique, and a comprehension over distinct labels
       keeps its order *)

Lemma put_keys (d : entries) (k : string) (v : pyval) :
  map fst (put d k v) =
  if existsb (String.eqb k) (map fst d) then map fst d else (map fst d ++ [k])%list.
Proof.
  induction d as [| [k' v'] rest IH]; simpl.
  - reflexivity.
  - rewrite (String.eqb_sym k k').
    destruct (String.eqb k' k) eqn:E; simpl.
    + reflexivity.
    + rewrite IH. destruct (existsb (String.eqb k) (map fst rest)); reflexivity.
Qed.

Lemma existsb_eqb_In (k : string) (l : list string) :
  existsb (String.eqb k) l = true <-> In k l.
Proof.
  rewrite existsb_exists. split.
  - intros [x [Hin Heq]]. apply String.eqb_eq in Heq. subst. exact Hin.
  - intros Hin. exists k. split; [exact Hin | apply String.eqb_refl].
Qed.

Lemma put_keys_NoDup (d : entries) (k : string) (v : pyval) :
  NoDup (map fst d) -> NoDup (map fst (put d k v)).
Proof.
  intros H. rewrite put_keys.
  destruct (existsb (String.eqb k) (map fst d)) eqn:E.
  - exact H.
  - apply NoDup_app.
    + exact H.
    + constructor; [intros [] | constructor].
    + intros x Hx [Hk | []]. subst x.
      apply existsb_eqb_In in Hx. congruence.
Qed.

Lemma fold_put_keys_NoDup (d acc : entries) :
  NoDup (map fst acc) ->
  NoDup (map fst (fold_left (fun a kv => put a (fst kv) (snd kv)) d acc)).
Proof.
  revert acc. induction d as [| [k v] rest IH]; intros acc H; simpl.
  - exact H.
  - apply IH. apply put_keys_NoDup. exact H.
Qed.

(** No key comes twice when a dict is iterated. *)
Lemma keys_NoDup (d : entries) : NoDup (keys d).
Proof. unfold keys, items. apply fold_put_keys_NoDup. constructor. Qed.

Lemma put_fresh (d : entries) (k : string) (v : pyval) :
  ~ In k (map fst d) -> put d k v = (d ++ [(k, v)])%list.
Proof.
  induction d as [| [k' v'] rest IH]; simpl; intros H.
  - reflexivity.
  - destruct (String.eqb k' k) eqn:E.
    + apply String.eqb_eq in E. exfalso. apply H. left. exact E.
    + rewrite IH; [reflexivity |]. intros Hin. apply H. right. exact Hin.
Qed.

Lemma fold_put_distinct (d acc : entries) :
  NoDup (map fst (acc ++ d)%list) ->
  fold_left (fun a kv => put a (fst kv) (snd kv)) d acc = (acc ++ d)%list.
Proof.
  revert acc. induction d as [| [k v] rest IH]; intros acc H; simpl.
  - symmetry. apply app_nil_r.
  - assert (Hk : ~ In k (map fst acc)).
    { rewrite map_app in H. simpl in H.
      apply NoDup_remove_2 in H. intros Hin. apply H.
      apply in_or_app. left. exact Hin. }
    rewrite (put_fresh acc k v Hk).
    rewrite IH.
    + rewrite <- app_assoc. reflexivity.
    + rewrite <- app_assoc. exact H.
Qed.

(** Entries with distinct keys are iterated as they were inserted. *)
Lemma items_distinct (d : entries) : NoDup (map fst d) -> items d = d.
Proof. intros H. unfold items. apply (fold_put_distinct d []). exact H. Qed.

(** ** The uniform distribution over a label set *)

Lemma find_constant_value (c : pyval) (label : string) (l : entries) :
  Forall (fun kv => snd kv = c) l ->
  In label (map fst l) ->
  option_map snd (find (fun kv => String.eqb (fst kv) label) l) = Some c.
Proof.
  induction l as [| [k v] rest IH]; simpl; intros Hall Hin.
  - contradiction.
  - pose proof (Forall_inv Hall) as Hv. pose proof (Forall_inv_tail Hall) as Hrest.
    simpl in Hv.
    destruct (String.eqb k label) eqn:E; simpl.
    + congruence.
    + apply IH; [exact Hrest |].
      destruct Hin as [Hk | Hin]; [| exact Hin].
      subst k. rewrite String.eqb_refl in E. discriminate.
Qed.

Lemma sum_constant (q : Q) (l : entries) :
  Forall (fun kv => score_of (snd kv) = q) l ->
  fold_right Qplus 0 (map (fun kv => score_of (snd kv)) l) ==
  inject_Z (Z.of_nat (length l)) * q.
Proof.
  induction l as [| kv rest IH]; intros Hall.
  - simpl. ring.
  - pose proof (Forall_inv Hall) as Hq. pose proof (Forall_inv_tail Hall) as Hrest.
    change (length (kv :: rest)) with (S (length rest)).
    rewrite Nat2Z.inj_succ. unfold Z.succ. rewrite inject_Z_plus.
    simpl fold_right. rewrite (IH Hrest). rewrite Hq. simpl inject_Z. ring.
Qed.

(** The dict comprehension of the defaults gives every label of a set of
    distinct labels the double [1.0 / len(labels)]. *)
Lemma uniform_is_uniform_over (L : list string) :
  NoDup L -> uniform_over L (one_over (Z.of_nat (length L))) (uniform L).
Proof.
  intros Hnd. unfold uniform.
  set (c := PyFloat (Finite (one_over (Z.of_nat (length L))))).
  set (d := map (fun label => (label, c)) L).
  assert (Hkeys : map fst d = L).
  { unfold d. rewrite map_map. simpl. apply map_id. }
  assert (Hitems : items d = d).
  { apply items_distinct. rewrite Hkeys. exact Hnd. }
  assert (Hall : Forall (fun kv => snd kv = c) d).
  { unfold d. apply Forall_forall. intros kv Hin.
    apply in_map_iff in Hin. destruct Hin as [l [Hl _]]. subst kv. reflexivity. }
  exists d. split; [reflexivity |]. split; [| split].
  - unfold keys. rewrite Hitems. exact Hkeys.
  - intros label Hin. unfold lookup.
    apply find_constant_value.
    + apply Forall_rev. exact Hall.
    + rewrite map_rev. apply -> in_rev. rewrite Hkeys. exact Hin.
  - unfold total. rewrite Hitems.
    rewrite (sum_constant (one_over (Z.of_nat (length L)))).
    + assert (Hlen : length d = length L) by (unfold d; apply length_map).
      rewrite Hlen. reflexivity.
    + apply Forall_forall. intros kv Hin.
      rewrite Forall_forall in Hall. rewrite (Hall kv Hin). reflexivity.
Qed.

Ltac distinct_labels :=
  repeat (constructor; [simpl; intuition discriminate |]); constructor.

(** The two doubles of the defaults: [1.0 / 5] and [1.0 / 6], 0.2 and
    0.16666666666666666 as Python prints them.  Neither is the fraction:
    five of the first sum to a little more than 1, six of the second to a
    little less. *)
Lemma doubles_of_the_defaults :
  one_over 5 = 3602879701896397 # 18014398509481984 /\
  one_over 6 = 6004799503160661 # 36028797018963968 /\
  5 * one_over 5 == 1 + (1 # 18014398509481984) /\
  6 * one_over 6 == 1 - (1 # 18014398509481984).
Proof.
  assert (H5 : one_over 5 = 3602879701896397 # 18014398509481984)
    by (vm_compute; reflexivity).
  assert (H6 : one_over 6 = 6004799503160661 # 36028797018963968)
    by (vm_compute; reflexivity).
  split; [exact H5 |]. split; [exact H6 |].
  rewrite H5, H6. split; reflexivity.
Qed.

Ltac uniform_labels :=
  match goal with
  | |- uniform_over ?L _ _ => apply (uniform_is_uniform_over L); distinct_labels
  end.

(** ** C6: the gateway without credentials *)

(** C6 as stated fails: a score is a float, and no float is 1/6.  Without
    credentials [analyze_political_tendency] gives "Left" the double
    [1.0 / 6], which is not the fraction 1/6, and the six scores sum to
    [1 - 2^-54], not to 1. *)
Lemma uniform_defaults_are_not_exact_counterexample :
  let settings := configure EmptyString true true in
  let w := fresh (fun _ => Fails (VendorError "unreachable")) in
  exists d score,
    analyze_political_tendency settings "A post." "en" w = (Ok (PyDict d), w) /\
    lookup d "Left" = Some (PyFloat (Finite score)) /\
    ~ score == 1 # 6 /\
    total d == 1 - (1 # 18014398509481984) /\
    ~ total d == 1.
Proof.
  intros settings w.
  exists (map (fun label => (label, PyFloat (Finite (one_over 6))))
              (EN_POLITICAL_LABELS settings)),
         (one_over 6).
  split; [reflexivity |]. split; [reflexivity |].
  assert (Ht : total (map (fun label => (label, PyFloat (Finite (one_over 6))))
                          (EN_POLITICAL_LABELS settings)) ==
               1 - (1 # 18014398509481984)) by (vm_compute; reflexivity).
  split; [| split; [exact Ht |]].
  - vm_compute. discriminate.
  - rewrite Ht. vm_compute. discriminate.
Qed.

(** C6, amended.  With no API key the gateway is not enabled.  Then, for
    every text and every language, [classify_post_type],
    [analyze_political_tendency] and [analyze_intents] return a dict over
    exactly the labels of the active label set L, the German set for "de"
    and the English set for every other language, that gives each label
    the double [1.0 / |L|]: 0.2 for the five post types, and
    0.16666666666666666 for the six political labels and the six intents.
    The scores sum to [|L|] times that double, which is 1 up to the
    rounding of the division: [1 + 2^-54] for five labels and [1 - 2^-54]
    for six.  [classify_post_type] returns with the dict the first label
    and the confidence [1.0 / 5]; [analyze_veracity] returns
    "Unverifiable" with its two fixed strings.  No request is sent: the
    world is returned as it was. *)
Theorem unconfigured_gateway_returns_uniform_defaults
    (veracity nuance : bool) (text lang : string) (w : World) :
  let settings := configure EmptyString veracity nuance in
  let de := String.eqb lang "de" in
  let post_types :=
    if de
    then ["Faktische Behauptung"; "Meinungsäußerung"; "Frage";
          "Persönliche Mitteilung"; "Werbung / Spam"]
    else ["Factual Claim"; "Opinion"; "Question"; "Personal Update"; "Promotion"] in
  let political :=
    if de
    then ["Politisch Links"; "Politisch Mitte-Links"; "Politisch Mitte";
          "Politisch Mitte-Rechts"; "Politisch Rechts"; "Politisch Neutral"]
    else ["Left"; "Center-Left"; "Center"; "Center-Right"; "Right"; "Neutral"] in
  let intents :=
    if de
    then ["Informativ"; "Überzeugend"; "Satirisch";
          "Provozierend"; "Kommerziell"; "Unterhaltend"]
    else ["Informative"; "Persuasive"; "Satirical";
          "Provocative"; "Commercial"; "Entertaining"] in
  enabled settings = false /\
  (exists scores,
      classify_post_type settings text lang w =
      (Ok (PyStr (if de then "Faktische Behauptung" else "Factual Claim"),
           PyFloat (Finite (one_over 5)), scores), w) /\
      uniform_over post_types (one_over 5) scores) /\
  (exists scores,
      analyze_political_tendency settings text lang w = (Ok scores, w) /\
      uniform_over political (one_over 6) scores) /\
  (exists scores,
      analyze_intents settings text lang w = (Ok scores, w) /\
      uniform_over intents (one_over 6) scores) /\
  analyze_veracity settings text lang w =
  (Ok (PyStr "Unverifiable", PyStr "Analysis not available",
       PyStr "Default method used"), w) /\
  one_over 5 = 3602879701896397 # 18014398509481984 /\
  one_over 6 = 6004799503160661 # 36028797018963968 /\
  5 * one_over 5 == 1 + (1 # 18014398509481984) /\
  6 * one_over 6 == 1 - (1 # 18014398509481984).
Proof.
  intros settings de post_types political intents.
  split; [reflexivity |].
  split; [| split; [| split; [| split; [reflexivity | exact doubles_of_the_defaults]]]].
  - exists (uniform post_types). split.
    + subst post_types de. unfold classify_post_type, _get_default_classification,
        _get_post_type_labels.
      destruct (String.eqb lang "de"); reflexivity.
    + subst post_types. destruct de; cbv iota; uniform_labels.
  - exists (uniform political). split.
    + subst political de. unfold analyze_political_tendency,
        _get_default_political_analysis, _get_political_labels.
      destruct (String.eqb lang "de"); reflexivity.
    + subst political. destruct de; cbv iota; uniform_labels.
  - exists (uniform intents). split.
    + subst intents de. unfold analyze_intents,
        _get_default_intent_analysis, _get_intent_labels.
      destruct (String.eqb lang "de"); reflexivity.
    + subst intents. destruct de; cbv iota; uniform_labels.
Qed.

(** ** C10: the result without credentials, for English *)


(** ** C1: every attempt of the API call fails *)

(** Whenever an exception reaches the handler of [perform_full_analysis],
    the safe default is returned. *)
Lemma handler_returns_safe_default (settings : Settings) (str : exn -> string)
    (list_gt : list pyval -> list pyval -> result bool)
    (id text lang : string) (w w' : World) (e : exn) :
  stages settings list_gt text lang w = (Raise e, w') ->
  safe_default (fst (perform_full_analysis settings str list_gt id text lang w)).
Proof.
  intros H. unfold perform_full_analysis. rewrite H. simpl.
  unfold safe_default. simpl. repeat split.
  - eexists. split; [reflexivity | discriminate].
  - eexists. split; reflexivity.
Qed.

(** C1 as stated fails: with a key configured and an API that fails at
    every attempt, the result for an English post carries no processing
    error, so it is not the safe default. *)
Lemma api_failure_safe_default_counterexample :
  let w := fresh (fun _ => Fails (VendorError "overloaded")) in
  let r := fst (perform_full_analysis (configure "sk-key" true true)
                  example_str no_list_order "p1" "The sky is green." "en" w) in
  all_fail w /\
  enabled (configure "sk-key" true true) = true /\
  processing_error r = None /\
  post_type (post_analysis r) = FACTUAL_CLAIM /\
  veracity_analysis r = Some default_veracity_analysis /\
  ~ safe_default r.
Proof.
  split; [intros n; eexists; reflexivity |].
  split; [reflexivity |].
  split; [reflexivity |].
  split; [reflexivity |].
  split; [reflexivity |].
  intros [[message [H _]] _]. vm_compute in H. discriminate H.
Qed.

(** C1, amended.  When every attempt of the API call fails,
    [_make_api_call] raises after the third attempt, and the gateway
    operation that called it catches the exception and returns its default,
    the one of the gateway without credentials.  No exception reaches
    [perform_full_analysis]: its result has no processing error, the post
    type FactualClaim, not spam, a veracity analysis exactly when the
    veracity flag is on (status Unverifiable), and a nuance analysis exactly
    when the nuance flag is on, with no detected intent.  The safe default
    (processing error, Opinion, not spam, no veracity analysis, the intent
    Informative) is what is returned when an exception does reach
    [perform_full_analysis]. *)
Theorem api_failure_is_absorbed_by_the_gateway
    (api_key : string) (veracity nuance : bool) (str : exn -> string)
    (list_gt : list pyval -> list pyval -> result bool)
    (id text lang : string) (w : World) :
  api_key <> EmptyString ->
  all_fail w ->
  let settings := configure api_key veracity nuance in
  let r := fst (perform_full_analysis settings str list_gt id text lang w) in
  (forall p, exists e,
      _make_api_call p w = (Raise e, after_three_failures p w)) /\
  (exists c, fst (classify_post_type settings text lang w) = Ok c /\
             _get_default_classification settings lang = Ok c) /\
  fst (analyze_political_tendency settings text lang w) =
    _get_default_political_analysis settings lang /\
  fst (analyze_intents settings text lang w) =
    _get_default_intent_analysis settings lang /\
  fst (analyze_veracity settings text lang w) =
    _get_default_veracity_analysis text lang /\
  processing_error r = None /\
  post_type (post_analysis r) = FACTUAL_CLAIM /\
  is_spam (post_analysis r) = false /\
  veracity_analysis r =
    (if veracity then Some default_veracity_analysis else None) /\
  (exists pa,
      nuance_analysis r =
      if nuance
      then Some {| political_tendency := pa; detected_intents := [] |}
      else None) /\
  (forall w0 w1 e,
      stages settings list_gt text lang w0 = (Raise e, w1) ->
      safe_default (fst (perform_full_analysis settings str list_gt id text lang w0))).
Proof.
  intros Hkey Hfail settings r.
  pose proof (enabled_configure api_key veracity nuance Hkey) as Hen.
  fold settings in Hen.
  assert (Hfb : falls_back settings w) by (right; split; assumption).
  split; [intros p; apply make_api_call_all_fail; exact Hfail |].
  split.
  { rewrite (classify_post_type_all_fail settings Hen text lang w Hfail). simpl.
    unfold _get_default_classification, _get_post_type_labels.
    destruct (String.eqb lang "de"); eexists; split; reflexivity. }
  split; [rewrite (analyze_political_tendency_all_fail settings Hen text lang w Hfail);
          reflexivity |].
  split; [rewrite (analyze_intents_all_fail settings Hen text lang w Hfail);
          reflexivity |].
  split; [rewrite (analyze_veracity_all_fail settings Hen text lang w Hfail);
          reflexivity |].
  destruct (stages_falls_back api_key veracity nuance list_gt text lang w Hfb)
    as [pa [w' E]].
  assert (Hr : r = _build_analysis_response id lang FACTUAL_CLAIM false
                     (if veracity then Some default_veracity_analysis else None)
                     (if nuance
                      then Some {| political_tendency := pa; detected_intents := [] |}
                      else None)
                     None w').
  { subst r. unfold perform_full_analysis. fold settings in E. rewrite E. reflexivity. }
  rewrite Hr. simpl.
  repeat (split; [reflexivity |]).
  split; [exists pa; reflexivity |].
  intros w0 w1 e H.
  apply (handler_returns_safe_default settings str list_gt id text lang w0 w1 e H).
Qed.

(** C1, a run: a key is configured and the API is overloaded at every
    attempt. *)
Lemma api_failure_is_absorbed_by_the_gateway_witness :
  let w := fresh (fun _ => Fails (VendorError "overloaded")) in
  let settings := configure "sk-key" true true in
  let r := fst (perform_full_analysis settings example_str no_list_order
                  "p1" "The sky is green." "en" w) in
  "sk-key" <> EmptyString /\
  all_fail w /\
  processing_error r = None /\
  post_type (post_analysis r) = FACTUAL_CLAIM.
Proof.
  intros w settings r.
  assert (Hkey : "sk-key" <> EmptyString) by discriminate.
  assert (Hfail : all_fail w) by (intros n; eexists; reflexivity).
  split; [exact Hkey |]. split; [exact Hfail |].
  pose proof (api_failure_is_absorbed_by_the_gateway "sk-key" true true
                example_str no_list_order "p1" "The sky is green." "en" w
                Hkey Hfail) as H.
  split; [apply H | apply H].
Defined.

(** ** C8: the label tables are the same for both languages *)

(** C8.  The language argument of a mapping function does not change its
    value, for any label.  The English label and the German label at the
    same place of the two label sets of the configuration map to the same
    value: the post types, the political tendencies and the intents each
    in the order of their enumeration.  The veracity statuses have one
    table and no language argument. *)
Theorem label_mapping_is_language_symmetric
    (api_key : string) (veracity nuance : bool) (lang1 lang2 : string) :
  let settings := configure api_key veracity nuance in
  (forall label,
      _map_to_post_type label lang1 = _map_to_post_type label lang2 /\
      _map_to_political_tendency label lang1 = _map_to_political_tendency label lang2 /\
      _map_to_intent label lang1 = _map_to_intent label lang2) /\
  Forall2 (fun en de => _map_to_post_type (PyStr en) lang1 =
                        _map_to_post_type (PyStr de) lang2)
          (EN_POST_TYPES settings) (DE_POST_TYPES settings) /\
  map (fun en => _map_to_post_type (PyStr en) lang1) (EN_POST_TYPES settings) =
    [Ok FACTUAL_CLAIM; Ok OPINION; Ok QUESTION; Ok PERSONAL_UPDATE; Ok PROMOTION] /\
  Forall2 (fun en de => _map_to_political_tendency (PyStr en) lang1 =
                        _map_to_political_tendency (PyStr de) lang2)
          (EN_POLITICAL_LABELS settings) (DE_POLITICAL_LABELS settings) /\
  map (fun en => _map_to_political_tendency (PyStr en) lang1)
      (EN_POLITICAL_LABELS settings) =
    [Ok LEFT; Ok CENTER_LEFT; Ok CENTER; Ok CENTER_RIGHT; Ok RIGHT; Ok NEUTRAL] /\
  Forall2 (fun en de => _map_to_intent (PyStr en) lang1 =
                        _map_to_intent (PyStr de) lang2)
          (EN_INTENT_LABELS settings) (DE_INTENT_LABELS settings) /\
  map (fun en => _map_to_intent (PyStr en) lang1) (EN_INTENT_LABELS settings) =
    [Ok INFORMATIVE; Ok PERSUASIVE; Ok SATIRICAL; Ok PROVOCATIVE; Ok COMMERCIAL;
     Ok ENTERTAINING] /\
  map _map_veracity_status
      [PyStr "Factually Correct"; PyStr "Untruth"; PyStr "Misleading";
       PyStr "Unverifiable"] =
    [Ok FACTUALLY_CORRECT; Ok UNTRUTH; Ok MISLEADING; Ok UNVERIFIABLE].
Proof.
  intros settings.
  split; [intros label; repeat split |].
  repeat split; simpl; repeat constructor.
Qed.

(** ** C3: spam detection *)

Lemma eq_str_true (x : pyval) (label : string) :
  eq_str x label = true <-> x = PyStr label.
Proof.
  destruct x; simpl; split; intros H; try discriminate.
  - apply String.eqb_eq in H. subst. reflexivity.
  - injection H as H. subst. apply String.eqb_refl.
Qed.

(** A comparison with a float decides only on a number. *)
Lemma gt_float_number (list_gt : list pyval -> list pyval -> result bool)
    (v : pyval) (threshold : Q) (b : bool) :
  gt list_gt v (PyFloat (Finite threshold)) = Ok b ->
  exists number, as_num v = Some number /\ b = num_gt number (Flt (Finite threshold)).
Proof.
  unfold gt. destruct v; simpl; intros H; try discriminate;
    injection H as H; subst b; eexists; split; reflexivity.
Qed.

Lemma gt_float_finite (q threshold : Q) :
  num_gt (Flt (Finite q)) (Flt (Finite threshold)) = true <-> threshold < q.
Proof.
  unfold num_gt. simpl. rewrite negb_true_iff.
  split; intros H.
  - apply Qnot_le_lt. intros Hle. apply Qle_bool_iff in Hle. congruence.
  - destruct (Qle_bool q threshold) eqn:E; [| reflexivity].
    apply Qle_bool_iff in E. exfalso. exact (Qlt_not_le _ _ H E).
Qed.

Lemma detect_spam_spec (settings : Settings)
    (list_gt : list pyval -> list pyval -> result bool)
    (primary_label confidence : pyval) (spam : bool) :
  _detect_spam settings list_gt primary_label confidence = Ok spam ->
  exists number,
    as_num confidence = Some number /\
    (spam = true <->
     (primary_label = PyStr "Werbung / Spam" \/ primary_label = PyStr "Promotion") /\
     num_gt number (Flt (Finite (SPAM_CONFIDENCE_THRESHOLD settings))) = true).
Proof.
  unfold _detect_spam, rbind.
  destruct (gt list_gt confidence _) as [high |] eqn:E; [| discriminate].
  intros H. injection H as H.
  destruct (gt_float_number list_gt confidence _ high E) as [number [Hn Hb]].
  exists number. split; [exact Hn |].
  rewrite <- Hb. rewrite <- H. rewrite andb_true_iff.
  unfold SPAM_LABELS. simpl existsb.
  rewrite !orb_true_iff, !eq_str_true.
  intuition discriminate.
Qed.

(** C3 as stated fails: for the language "en" the model answers with the
    German label "Werbung / Spam" and confidence 0.9; the post is spam,
    and the label is not the Promotion label of the active language. *)
Lemma spam_of_other_language_counterexample :
  let settings := configure "sk-key" true true in
  let w := fresh (fun _ => classified "Werbung / Spam" (9 # 10)) in
  let r := fst (perform_full_analysis settings example_str no_list_order
                  "p1" "Jetzt kaufen!" "en" w) in
  promotion_labels settings "en" = ["Promotion"] /\
  (exists scores w',
      classify_post_type settings "Jetzt kaufen!" "en" w =
      (Ok (PyStr "Werbung / Spam", PyFloat (Finite (9 # 10)), scores), w')) /\
  is_spam (post_analysis r) = true /\
  ~ (is_spam (post_analysis r) = true <->
     In "Werbung / Spam" (promotion_labels settings "en") /\ 7 # 10 < 9 # 10).
Proof.
  split; [reflexivity |].
  split; [eexists; eexists; lazy; reflexivity |].
  split; [reflexivity |].
  intros [H _]. destruct (H eq_refl) as [[Hin | []] _]. discriminate Hin.
Qed.

(** C3, amended.  For every outcome of the triage, [is_spam] is true if
    and only if the primary label is one of the two labels of
    [SPAM_LABELS], "Werbung / Spam" or "Promotion", whatever the language
    of the request, and the confidence is a number strictly greater than
    0.7.  A confidence equal to 0.7 gives [is_spam] false. *)
Theorem spam_iff_promotion_label_and_high_confidence
    (api_key : string) (veracity nuance : bool)
    (list_gt : list pyval -> list pyval -> result bool)
    (text lang : string) (w w' : World) (pt : PostType) (spam : bool) :
  let settings := configure api_key veracity nuance in
  _run_triage settings list_gt text lang w = (Ok (pt, spam), w') ->
  exists primary_label confidence scores number,
    classify_post_type settings text lang w =
    (Ok (primary_label, confidence, scores), w') /\
    _detect_spam settings list_gt primary_label confidence = Ok spam /\
    as_num confidence = Some number /\
    (spam = true <->
     (primary_label = PyStr "Werbung / Spam" \/ primary_label = PyStr "Promotion") /\
     num_gt number (Flt (Finite (7 # 10))) = true) /\
    (forall q, confidence = PyFloat (Finite q) ->
               (spam = true <->
                (primary_label = PyStr "Werbung / Spam" \/
                 primary_label = PyStr "Promotion") /\ 7 # 10 < q)) /\
    (confidence = PyFloat (Finite (7 # 10)) -> spam = false).
Proof.
  intros settings H. unfold _run_triage, bind in H.
  destruct (classify_post_type settings text lang w)
    as [[[[primary_label confidence] scores] | e] w1]; [| discriminate].
  unfold lift in H.
  destruct (_detect_spam settings list_gt primary_label confidence)
    as [spam' |] eqn:Espam; [| discriminate].
  destruct (_map_to_post_type primary_label lang) as [pt' |]; [| discriminate].
  destruct (format_2f confidence); [| discriminate].
  unfold ret in H. injection H as Hpt Hspam Hw. subst pt' spam' w1.
  destruct (detect_spam_spec settings list_gt primary_label confidence spam Espam)
    as [number [Hn Hiff]].
  exists primary_label, confidence, scores, number.
  split; [reflexivity |]. split; [exact Espam |]. split; [exact Hn |].
  split; [exact Hiff |]. split.
  - intros q Hq. subst confidence. simpl in Hn. injection Hn as Hn. subst number.
    rewrite Hiff. rewrite gt_float_finite. reflexivity.
  - intros Hq. subst confidence. simpl in Hn. injection Hn as Hn. subst number.
    destruct spam; [| reflexivity].
    destruct Hiff as [Hiff _]. destruct (Hiff eq_refl) as [_ Hgt].
    vm_compute in Hgt. discriminate Hgt.
Qed.

(** C3, a run: the label "Promotion" with confidence 0.85. *)
Lemma spam_iff_promotion_label_and_high_confidence_witness :
  let settings := configure "sk-key" true true in
  let w := fresh (fun _ => classified "Promotion" (85 # 100)) in
  exists w',
    _run_triage settings no_list_order "Buy now!" "en" w = (Ok (PROMOTION, true), w') /\
    exists primary_label confidence scores,
      classify_post_type settings "Buy now!" "en" w =
      (Ok (primary_label, confidence, scores), w').
Proof.
  intros settings w.
  eexists. split; [lazy; reflexivity |].
  destruct (spam_iff_promotion_label_and_high_confidence "sk-key" true true
              no_list_order "Buy now!" "en" w _ PROMOTION true eq_refl)
    as [primary_label [confidence [scores [number [H _]]]]].
  exists primary_label, confidence, scores. exact H.
Defined.

(** ** The stages of a run that completes *)

Lemma stages_ok_inv (settings : Settings)
    (list_gt : list pyval -> list pyval -> result bool)
    (text lang : string) (w w' : World)
    (pt : PostType) (spam : bool)
    (va : option VeracityAnalysis) (na : option NuanceAnalysis) :
  stages settings list_gt text lang w = (Ok (pt, spam, va, na), w') ->
  exists w1 w2,
    _run_triage settings list_gt text lang w = (Ok (pt, spam), w1) /\
    _get_veracity_analysis settings pt spam text lang w1 = (Ok va, w2) /\
    _get_nuance_analysis settings list_gt spam text lang w2 = (Ok na, w').
Proof.
  unfold stages, bind. intros H.
  destruct (_run_triage settings list_gt text lang w)
    as [[[pt0 spam0] | e] w1] eqn:E1; [| discriminate].
  destruct (_get_veracity_analysis settings pt0 spam0 text lang w1)
    as [[va0 | e] w2] eqn:E2; [| discriminate].
  destruct (_get_nuance_analysis settings list_gt spam0 text lang w2)
    as [[na0 | e] w3] eqn:E3; [| discriminate].
  unfold ret in H. injection H as -> -> -> -> ->.
  exists w1, w2. split; [reflexivity |]. split; assumption.
Qed.

(** The gateway never raises out of [analyze_veracity]. *)
Lemma analyze_veracity_total (settings : Settings) (claim lang : string) (w : World) :
  exists st j m w1, analyze_veracity settings claim lang w = (Ok (st, j, m), w1).
Proof.
  unfold analyze_veracity. destruct (negb (enabled settings)).
  - do 4 eexists. reflexivity.
  - unfold try_except_Exception.
    destruct (bind _ _ w) as [[[[st j] m] | e] w1].
    + exists st, j, m, w1. reflexivity.
    + do 4 eexists. reflexivity.
Qed.

(** ** C5: the veracity gate *)

Lemma PostType_eqb_eq (a b : PostType) : PostType_eqb a b = true <-> a = b.
Proof. destruct a, b; simpl; split; intros H; try reflexivity; discriminate. Qed.

(** C5.  For every request, the veracity check runs if and only if the
    triage of the request said FactualClaim and not spam and the veracity
    flag is on.  When it does, [analyze_veracity] is called in the world
    that the triage left and the run goes on from the world that the call
    left; a run that then completes carries the veracity analysis made of
    its answer.  In every other case no request is sent for the check, the
    run goes on from the world of the triage, the result carries no
    veracity analysis, and the run completes exactly when the nuance step
    does: the absence is no error.  A triage that raises gives the safe
    default, without a veracity analysis.  So a result that carries a
    veracity analysis comes from a triage that said FactualClaim and not
    spam, with the flag on. *)
Theorem veracity_check_runs_iff_gate
    (api_key : string) (veracity nuance : bool) (str : exn -> string)
    (list_gt : list pyval -> list pyval -> result bool)
    (id text lang : string) (w : World) :
  let settings := configure api_key veracity nuance in
  let run := perform_full_analysis settings str list_gt id text lang w in
  let r := fst run in
  (forall pt spam,
      _should_perform_veracity_check settings pt spam = true <->
      pt = FACTUAL_CLAIM /\ spam = false /\ veracity = true) /\
  match _run_triage settings list_gt text lang w with
  | (Raise e, w1) =>
      run = (failure_response str id lang e w1, w1) /\ veracity_analysis r = None
  | (Ok (pt, spam), w1) =>
      let nuance_step := _get_nuance_analysis settings list_gt spam text lang in
      if _should_perform_veracity_check settings pt spam
      then
        exists st j m w2,
          analyze_veracity settings text lang w1 = (Ok (st, j, m), w2) /\
          match (s <- _map_veracity_status st ;;
                 VeracityAnalysis_init s j m [])%py with
          | Ok va =>
              snd run = snd (nuance_step w2) /\
              (processing_error r = None <-> exists na, fst (nuance_step w2) = Ok na) /\
              (processing_error r = None ->
               veracity_analysis r = Some va /\
               post_analysis r = {| post_type := FACTUAL_CLAIM; is_spam := false |})
          | Raise e => run = (failure_response str id lang e w2, w2)
          end
      else
        veracity_analysis r = None /\
        snd run = snd (nuance_step w1) /\
        (processing_error r = None <-> exists na, fst (nuance_step w1) = Ok na)
  end /\
  (forall va, veracity_analysis r = Some va ->
              veracity = true /\
              exists w1, _run_triage settings list_gt text lang w =
                         (Ok (FACTUAL_CLAIM, false), w1)).
Proof.
  intros settings run r.
  assert (Hgate : forall pt0 spam0,
             _should_perform_veracity_check settings pt0 spam0 = true <->
             pt0 = FACTUAL_CLAIM /\ spam0 = false /\ veracity = true).
  { intros pt0 spam0. unfold _should_perform_veracity_check. simpl.
    rewrite !andb_true_iff, negb_true_iff, PostType_eqb_eq. tauto. }
  split; [exact Hgate |]. split.
  - subst r run. unfold perform_full_analysis, stages, bind.
    destruct (_run_triage settings list_gt text lang w) as [[[pt spam] | e] w1];
      [| split; reflexivity].
    unfold _get_veracity_analysis.
    destruct (_should_perform_veracity_check settings pt spam) eqn:G;
      cbv beta iota delta [negb].
    + destruct (analyze_veracity_total settings text lang w1) as [st [j [m [w2 E]]]].
      exists st, j, m, w2. split; [exact E |].
      unfold bind. rewrite E. unfold lift, ret.
      apply Hgate in G. destruct G as [-> [-> _]].
      unfold rbind.
      destruct (_map_veracity_status st) as [s | e]; [| reflexivity].
      destruct (VeracityAnalysis_init s j m []) as [va | e]; [| reflexivity].
      destruct (_get_nuance_analysis settings list_gt false text lang w2)
        as [[na | e] w3]; simpl.
      * split; [reflexivity |]. split.
        -- split; [intros _; exists na; reflexivity | reflexivity].
        -- intros _. split; reflexivity.
      * split; [reflexivity |]. split.
        -- split; [intros H; discriminate H | intros [na H]; discriminate H].
        -- intros H. discriminate H.
    + unfold ret.
      destruct (_get_nuance_analysis settings list_gt spam text lang w1)
        as [[na | e] w3]; simpl.
      * split; [reflexivity |]. split; [reflexivity |].
        split; [intros _; exists na; reflexivity | reflexivity].
      * split; [reflexivity |]. split; [reflexivity |].
        split; [intros H; discriminate H | intros [na H]; discriminate H].
  - intros va Hva. subst r run.
    pose proof (perform_full_analysis_cases settings str list_gt id text lang w) as Hc.
    destruct (perform_full_analysis settings str list_gt id text lang w) as [r w'].
    simpl in Hva.
    destruct Hc as [[pt0 [spam0 [va0 [na0 [Hst Hr]]]]] | [e [_ Hr]]].
    + subst r. simpl in Hva. subst va0.
      destruct (stages_ok_inv _ _ _ _ _ _ _ _ _ _ Hst) as [w1 [w2 [Ht [Hv _]]]].
      unfold _get_veracity_analysis in Hv.
      destruct (_should_perform_veracity_check settings pt0 spam0) eqn:G.
      * apply Hgate in G. destruct G as [-> [-> Hflag]].
        split; [exact Hflag |]. exists w1. exact Ht.
      * simpl in Hv. unfold ret in Hv. discriminate Hv.
    + subst r. simpl in Hva. discriminate Hva.
Qed.

(** C5, a run: a factual claim that the model finds misleading; the check
    sends the second request of the run. *)
Lemma veracity_check_runs_iff_gate_witness :
  let settings := configure "sk-key" true false in
  let w := fresh (fun n => match n with
                           | O => classified "Factual Claim" (9 # 10)
                           | _ => Returns (Json (PyDict [("status", PyStr "Misleading")]))
                           end) in
  let run := perform_full_analysis settings example_str no_list_order
               "p1" "Water boils at 50 degrees." "en" w in
  veracity_analysis (fst run) =
    Some {| status := MISLEADING; justification := "No analysis available";
            verification_method := "No method specified"; sources := [] |} /\
  length (requests (snd run)) = 2%nat /\
  exists w1, _run_triage settings no_list_order "Water boils at 50 degrees." "en" w =
             (Ok (FACTUAL_CLAIM, false), w1).
Proof.
  intros settings w run.
  assert (H : veracity_analysis (fst run) =
              Some {| status := MISLEADING; justification := "No analysis available";
                      verification_method := "No method specified"; sources := [] |})
    by reflexivity.
  split; [exact H |]. split; [reflexivity |].
  pose proof (veracity_check_runs_iff_gate "sk-key" true false example_str
                no_list_order "p1" "Water boils at 50 degrees." "en" w) as T.
  destruct T as [_ [_ T]]. destruct (T _ H) as [_ T']. exact T'.
Defined.

(** ** C2: replies that do not parse *)

Lemma make_api_call_returns (p : prompt) (w : World) (t : response_text) :
  api w (length (requests w)) = Returns t ->
  _make_api_call p w = (Ok (Some t), after_request p w).
Proof.
  intros H. unfold _make_api_call, _make_api_call_with. simpl.
  unfold try_except_Exception, bind, messages_create. rewrite H. reflexivity.
Qed.

(** With the label sets of [config.py] no gateway operation raises,
    whatever the API does and whatever the reply holds. *)
Lemma classify_post_type_total (api_key : string) (veracity nuance : bool)
    (text lang : string) (w : World) :
  exists c w',
    classify_post_type (configure api_key veracity nuance) text lang w = (Ok c, w').
Proof.
  unfold classify_post_type.
  assert (Hd : exists c, _get_default_classification
                           (configure api_key veracity nuance) lang = Ok c).
  { unfold _get_default_classification, _get_post_type_labels.
    destruct (String.eqb lang "de"); eexists; reflexivity. }
  destruct Hd as [c Hd].
  destruct (negb (enabled (configure api_key veracity nuance))).
  - exists c, w. rewrite Hd. reflexivity.
  - unfold try_except_Exception.
    destruct (bind _ _ w) as [[c' | e] w1].
    + exists c', w1. reflexivity.
    + exists c, w1. rewrite Hd. reflexivity.
Qed.

Lemma analyze_political_tendency_total (settings : Settings)
    (text lang : string) (w : World) :
  exists s w', analyze_political_tendency settings text lang w = (Ok s, w').
Proof.
  unfold analyze_political_tendency. destruct (negb (enabled settings)).
  - do 2 eexists. reflexivity.
  - unfold try_except_Exception.
    destruct (bind _ _ w) as [[s | e] w1]; do 2 eexists; reflexivity.
Qed.

Lemma analyze_intents_total (settings : Settings) (text lang : string) (w : World) :
  exists s w', analyze_intents settings text lang w = (Ok s, w').
Proof.
  unfold analyze_intents. destruct (negb (enabled settings)).
  - do 2 eexists. reflexivity.
  - unfold try_except_Exception.
    destruct (bind _ _ w) as [[s | e] w1]; do 2 eexists; reflexivity.
Qed.

(** C2 as stated fails: on a reply that is not JSON, [classify_post_type]
    returns the confidence 0.5, not the [1.0 / 5] of the default without
    credentials, and [analyze_veracity] returns other fixed strings; on an
    object without the expected keys the scores are 0.0, not uniform. *)
Lemma parse_failure_default_counterexample :
  let settings := configure "sk-key" true true in
  let garbled := fresh (fun _ => Returns (Malformed "Sure! Here is the JSON:")) in
  let empty := fresh (fun _ => Returns (Json (PyDict []))) in
  fst (classify_post_type settings "A post." "en" garbled) =
    Ok (PyStr "Factual Claim", PyFloat (Finite (1 # 2)),
        uniform (EN_POST_TYPES settings)) /\
  _get_default_classification settings "en" =
    Ok (PyStr "Factual Claim", PyFloat (Finite (one_over 5)),
        uniform (EN_POST_TYPES settings)) /\
  fst (classify_post_type settings "A post." "en" garbled) <>
    _get_default_classification settings "en" /\
  fst (analyze_veracity settings "A post." "en" garbled) =
    Ok (PyStr "Unverifiable", PyStr "Error in analysis", PyStr "No method available") /\
  fst (analyze_veracity settings "A post." "en" garbled) <>
    _get_default_veracity_analysis "A post." "en" /\
  fst (analyze_intents settings "A post." "en" empty) =
    Ok (zero_scores (EN_INTENT_LABELS settings)) /\
  fst (analyze_intents settings "A post." "en" empty) <>
    _get_default_intent_analysis settings "en".
Proof.
  repeat split; try reflexivity; vm_compute; discriminate.
Qed.

Section AnsweringGateway.

Variable settings : Settings.
Hypothesis Henabled : enabled settings = true.

Variable w : World.
Variable t : response_text.
Hypothesis Hreply : api w (length (requests w)) = Returns t.

(** What an enabled operation makes of a reply: the parsed value, or the
    default when the parser raises. *)
Lemma classify_post_type_returns (text lang : string) :
  let labels := _get_post_type_labels settings lang in
  classify_post_type settings text lang w =
  (match _parse_classification_response (Some t) labels with
   | Ok c => Ok c
   | Raise _ => _get_default_classification settings lang
   end,
   after_request (ClassificationPrompt text labels lang) w).
Proof.
  intros labels. unfold classify_post_type. rewrite Henabled.
  unfold try_except_Exception, bind. cbn [negb]. cbv beta iota zeta.
  rewrite (make_api_call_returns _ w t Hreply). unfold lift. subst labels.
  destruct (_parse_classification_response (Some t) _); reflexivity.
Qed.

Lemma analyze_political_tendency_returns (text lang : string) :
  let labels := _get_political_labels settings lang in
  analyze_political_tendency settings text lang w =
  (match _parse_political_response (Some t) labels with
   | Ok s => Ok s
   | Raise _ => _get_default_political_analysis settings lang
   end,
   after_request (PoliticalPrompt text labels lang) w).
Proof.
  intros labels. unfold analyze_political_tendency. rewrite Henabled.
  unfold try_except_Exception, bind. cbn [negb]. cbv beta iota zeta.
  rewrite (make_api_call_returns _ w t Hreply). unfold lift. subst labels.
  destruct (_parse_political_response (Some t) _); reflexivity.
Qed.

Lemma analyze_intents_returns (text lang : string) :
  let labels := _get_intent_labels settings lang in
  analyze_intents settings text lang w =
  (match _parse_intent_response (Some t) labels with
   | Ok s => Ok s
   | Raise _ => _get_default_intent_analysis settings lang
   end,
   after_request (IntentPrompt text labels lang) w).
Proof.
  intros labels. unfold analyze_intents. rewrite Henabled.
  unfold try_except_Exception, bind. cbn [negb]. cbv beta iota zeta.
  rewrite (make_api_call_returns _ w t Hreply). unfold lift. subst labels.
  destruct (_parse_intent_response (Some t) _); reflexivity.
Qed.

Lemma analyze_veracity_returns (claim lang : string) :
  analyze_veracity settings claim lang w =
  (match _parse_veracity_response (Some t) with
   | Ok v => Ok v
   | Raise _ => _get_default_veracity_analysis claim lang
   end,
   after_request (VeracityPrompt claim lang) w).
Proof.
  unfold analyze_veracity. rewrite Henabled.
  unfold try_except_Exception, bind. cbn [negb]. cbv beta iota zeta.
  rewrite (make_api_call_returns _ w t Hreply). unfold lift.
  destruct (_parse_veracity_response (Some t)); reflexivity.
Qed.

End AnsweringGateway.

(** C2, amended.  No gateway operation lets a failure of the parser out as
    an exception, whatever the reply.  On a reply that is not JSON,
    [classify_post_type] returns the first label, the confidence 0.5 and
    the uniform scores [1.0 / len(labels)]; [analyze_political_tendency] and
    [analyze_intents] return the uniform scores, their default without
    credentials; [analyze_veracity] returns "Unverifiable", "Error in
    analysis", "No method available".  On a JSON object without the
    expected keys each key takes its own default: the first label, the
    confidence 0.5, the score 0.0 for every label, and "Unverifiable", "No
    analysis available", "No method specified". *)
Theorem parse_failure_is_absorbed
    (api_key : string) (veracity nuance : bool)
    (text lang : string) (w : World) (t : response_text) :
  api_key <> EmptyString ->
  api w (length (requests w)) = Returns t ->
  let settings := configure api_key veracity nuance in
  let post_types := _get_post_type_labels settings lang in
  let political := _get_political_labels settings lang in
  let intents := _get_intent_labels settings lang in
  ((exists c, fst (classify_post_type settings text lang w) = Ok c) /\
   (exists s, fst (analyze_political_tendency settings text lang w) = Ok s) /\
   (exists s, fst (analyze_intents settings text lang w) = Ok s) /\
   (exists v, fst (analyze_veracity settings text lang w) = Ok v)) /\
  (forall raw, t = Malformed raw ->
     (exists first,
         hd_error post_types = Some first /\
         fst (classify_post_type settings text lang w) =
         Ok (PyStr first, PyFloat (Finite (1 # 2)), uniform post_types)) /\
     fst (analyze_political_tendency settings text lang w) = Ok (uniform political) /\
     fst (analyze_political_tendency settings text lang w) =
       _get_default_political_analysis settings lang /\
     fst (analyze_intents settings text lang w) = Ok (uniform intents) /\
     fst (analyze_intents settings text lang w) =
       _get_default_intent_analysis settings lang /\
     fst (analyze_veracity settings text lang w) =
       Ok (PyStr "Unverifiable", PyStr "Error in analysis",
           PyStr "No method available")) /\
  (forall d, t = Json (PyDict d) ->
     lookup d "primary_label" = None ->
     lookup d "confidence" = None ->
     lookup d "scores" = None ->
     lookup d "status" = None ->
     lookup d "justification" = None ->
     lookup d "verification_method" = None ->
     (exists first,
         hd_error post_types = Some first /\
         fst (classify_post_type settings text lang w) =
         Ok (PyStr first, PyFloat (Finite (1 # 2)), zero_scores post_types)) /\
     fst (analyze_political_tendency settings text lang w) =
       Ok (zero_scores political) /\
     fst (analyze_intents settings text lang w) = Ok (zero_scores intents) /\
     fst (analyze_veracity settings text lang w) =
       Ok (PyStr "Unverifiable", PyStr "No analysis available",
           PyStr "No method specified")).
Proof.
  intros Hkey Hreply settings post_types political intents.
  pose proof (enabled_configure api_key veracity nuance Hkey) as Hen.
  fold settings in Hen.
  split; [| split].
  - split; [| split; [| split]].
    + destruct (classify_post_type_total api_key veracity nuance text lang w)
        as [c [w' E]]. exists c. fold settings in E. rewrite E. reflexivity.
    + destruct (analyze_political_tendency_total settings text lang w)
        as [s [w' E]]. exists s. rewrite E. reflexivity.
    + destruct (analyze_intents_total settings text lang w)
        as [s [w' E]]. exists s. rewrite E. reflexivity.
    + destruct (analyze_veracity_total settings text lang w)
        as [st [j [m [w' E]]]]. exists (st, j, m). rewrite E. reflexivity.
  - intros raw ->.
    rewrite (classify_post_type_returns settings Hen w _ Hreply).
    rewrite (analyze_political_tendency_returns settings Hen w _ Hreply).
    rewrite (analyze_intents_returns settings Hen w _ Hreply).
    rewrite (analyze_veracity_returns settings Hen w _ Hreply).
    subst post_types political intents.
    unfold _get_post_type_labels, _get_political_labels, _get_intent_labels,
      _get_default_political_analysis, _get_default_intent_analysis,
      _get_political_labels, _get_intent_labels.
    destruct (String.eqb lang "de"); simpl;
      (split; [eexists; split; reflexivity | repeat split]).
  - intros d -> H1 H2 H3 H4 H5 H6.
    rewrite (classify_post_type_returns settings Hen w _ Hreply).
    rewrite (analyze_political_tendency_returns settings Hen w _ Hreply).
    rewrite (analyze_intents_returns settings Hen w _ Hreply).
    rewrite (analyze_veracity_returns settings Hen w _ Hreply).
    subst post_types political intents.
    unfold _parse_classification_response, _parse_political_response,
      _parse_intent_response, _parse_veracity_response,
      _get_post_type_labels, _get_political_labels, _get_intent_labels.
    simpl. rewrite H1, H2, H3, H4, H5, H6.
    destruct (String.eqb lang "de"); simpl;
      (split; [eexists; split; reflexivity | repeat split]).
Qed.

(** C2, a run: the model answers with prose instead of JSON. *)
Lemma parse_failure_is_absorbed_witness :
  let settings := configure "sk-key" true true in
  let w := fresh (fun _ => Returns (Malformed "Sure! Here is the JSON:")) in
  "sk-key" <> EmptyString /\
  api w (length (requests w)) = Returns (Malformed "Sure! Here is the JSON:") /\
  fst (analyze_veracity settings "A post." "en" w) =
    Ok (PyStr "Unverifiable", PyStr "Error in analysis", PyStr "No method available").
Proof.
  intros settings w.
  assert (Hkey : "sk-key" <> EmptyString) by discriminate.
  assert (Hreply : api w (length (requests w)) =
                   Returns (Malformed "Sure! Here is the JSON:")) by reflexivity.
  split; [exact Hkey |]. split; [exact Hreply |].
  pose proof (parse_failure_is_absorbed "sk-key" true true "A post." "en" w _
                Hkey Hreply) as T.
  destruct T as [_ [T _]].
  apply (T "Sure! Here is the JSON:" eq_refl).
Defined.

(** ** The intents of a scores mapping *)

Lemma map_to_intent_str (label lang : string) :
  _map_to_intent (PyStr label) lang = Ok (intent_of label).
Proof. reflexivity. Qed.

Lemma map_intents_spec (detected : list string) (lang : string) :
  map_intents detected lang = Ok (map intent_of detected).
Proof.
  induction detected as [| label rest IH]; simpl.
  - reflexivity.
  - rewrite IH. reflexivity.
Qed.

Lemma above_threshold_spec (settings : Settings)
    (list_gt : list pyval -> list pyval -> result bool)
    (its : entries) (detected : list string) :
  above_threshold settings list_gt its = Ok detected ->
  detected =
  map fst (filter (fun kv => exceeds (INTENT_CONFIDENCE_THRESHOLD settings) (snd kv)) its).
Proof.
  revert detected. induction its as [| [intent score] rest IH]; simpl; intros detected H.
  - injection H as H. symmetry. exact H.
  - unfold rbind in H.
    destruct (gt list_gt score _) as [keep |] eqn:E; [| discriminate].
    destruct (above_threshold settings list_gt rest) as [kept |]; [| discriminate].
    injection H as H.
    destruct (gt_float_number list_gt score _ keep E) as [number [Hn Hk]].
    assert (Hx : exceeds (INTENT_CONFIDENCE_THRESHOLD settings) score = keep).
    { unfold exceeds. rewrite Hn. symmetry. exact Hk. }
    rewrite Hx. subst detected. rewrite (IH kept eq_refl).
    destruct keep; reflexivity.
Qed.

(** What [_build_intent_list] returns when it returns: the labels of the
    dict whose score exceeds the threshold, in the order of the dict, each
    mapped to its Intent. *)
Lemma build_intent_list_spec (settings : Settings)
    (list_gt : list pyval -> list pyval -> result bool)
    (scores : pyval) (lang : string) (l : list Intent) :
  _build_intent_list settings list_gt scores lang = Ok l ->
  exists d,
    scores = PyDict d /\
    l = map intent_of
          (map fst (filter (fun kv => exceeds (INTENT_CONFIDENCE_THRESHOLD settings)
                                              (snd kv))
                           (items d))).
Proof.
  unfold _build_intent_list, rbind. intros H.
  destruct scores; try discriminate. simpl in H.
  destruct (above_threshold settings list_gt (items entries0)) as [detected |] eqn:E;
    [| discriminate].
  rewrite map_intents_spec in H. injection H as H.
  exists entries0. split; [reflexivity |].
  rewrite <- (above_threshold_spec settings list_gt _ _ E). symmetry. exact H.
Qed.

Lemma NoDup_map_fst_filter {A B} (f : A * B -> bool) (l : list (A * B)) :
  NoDup (map fst l) -> NoDup (map fst (filter f l)).
Proof.
  induction l as [| x rest IH]; simpl; intros H.
  - constructor.
  - inversion H as [| k ks Hnot Hrest]; subst.
    destruct (f x); simpl.
    + constructor; [| apply IH; exact Hrest].
      intros Hin. apply Hnot.
      apply in_map_iff in Hin. destruct Hin as [y [Hy Hin]].
      apply filter_In in Hin. destruct Hin as [Hin _].
      apply in_map_iff. exists y. split; assumption.
    + apply IH. exact Hrest.
Qed.

Lemma NoDup_map_injective_on {A B} (f : A -> B) (l : list A) :
  (forall a b, In a l -> In b l -> f a = f b -> a = b) ->
  NoDup l -> NoDup (map f l).
Proof.
  induction l as [| x rest IH]; simpl; intros Hinj H.
  - constructor.
  - inversion H as [| k ks Hnot Hrest]; subst.
    constructor.
    + intros Hin. apply in_map_iff in Hin. destruct Hin as [y [Hy Hin]].
      assert (y = x) by (apply Hinj; [right; exact Hin | left; reflexivity | exact Hy]).
      subst y. contradiction.
    + apply IH; [| exact Hrest].
      intros a b Ha Hb. apply Hinj; right; assumption.
Qed.

(** Within the intent labels of one language no two labels stand for the
    same Intent. *)
Lemma intent_of_injective_on_labels (api_key : string) (veracity nuance : bool)
    (lang : string) (a b : string) :
  let labels := _get_intent_labels (configure api_key veracity nuance) lang in
  In a labels -> In b labels -> intent_of a = intent_of b -> a = b.
Proof.
  unfold _get_intent_labels. destruct (String.eqb lang "de"); simpl;
    intros Ha Hb H;
    repeat (destruct Ha as [Ha | Ha]; [subst a |]); try contradiction;
    repeat (destruct Hb as [Hb | Hb]; [subst b |]); try contradiction;
    try reflexivity; vm_compute in H; discriminate H.
Qed.

(** ** The nuance analysis of a run *)

Lemma get_nuance_analysis_inv (settings : Settings)
    (list_gt : list pyval -> list pyval -> result bool)
    (spam : bool) (text lang : string) (w w' : World) (o : option NuanceAnalysis) :
  _get_nuance_analysis settings list_gt spam text lang w = (Ok o, w') ->
  (spam || negb (ENABLE_NUANCE_ANALYSIS settings) = true /\ o = None /\ w' = w) \/
  (spam = false /\ ENABLE_NUANCE_ANALYSIS settings = true /\
   exists political_scores w1 intent_scores pa l,
     analyze_political_tendency settings text lang w = (Ok political_scores, w1) /\
     analyze_intents settings text lang w1 = (Ok intent_scores, w') /\
     _build_political_analysis list_gt political_scores lang = Ok pa /\
     _build_intent_list settings list_gt intent_scores lang = Ok l /\
     o = Some {| political_tendency := pa; detected_intents := l |}).
Proof.
  unfold _get_nuance_analysis. intros H.
  destruct (spam || negb (ENABLE_NUANCE_ANALYSIS settings)) eqn:G.
  - left. unfold ret in H. injection H as <- <-. repeat split.
  - right. apply orb_false_iff in G. destruct G as [Hs Hf].
    apply negb_false_iff in Hf.
    split; [exact Hs |]. split; [exact Hf |].
    unfold bind, lift, ret in H.
    destruct (analyze_political_tendency settings text lang w)
      as [[political_scores | e] w1] eqn:E1; [| discriminate].
    destruct (analyze_intents settings text lang w1)
      as [[intent_scores | e] w2] eqn:E2; [| discriminate].
    destruct (_build_political_analysis list_gt political_scores lang)
      as [pa |] eqn:E3; [| discriminate].
    destruct (_build_intent_list settings list_gt intent_scores lang)
      as [l |] eqn:E4; [| discriminate].
    injection H as <- <-.
    exists political_scores, w1, intent_scores, pa, l. repeat split; assumption.
Qed.

(** ** C4: the nuance analysis *)

(** C4 as stated fails: with the nuance flag off, a reply whose confidence
    is the string "high" makes the triage raise a TypeError; the handler
    answers with the safe default, whose nuance analysis is present. *)
Lemma nuance_present_with_flag_off_counterexample :
  let settings := configure "sk-key" true false in
  let reply := Returns (Json (PyDict [("primary_label", PyStr "Opinion");
                                      ("confidence", PyStr "high")])) in
  let w := fresh (fun _ => reply) in
  let r := fst (perform_full_analysis settings example_str no_list_order
                  "p1" "I think so." "en" w) in
  ENABLE_NUANCE_ANALYSIS settings = false /\
  fst (_run_triage settings no_list_order "I think so." "en" w) = Raise TypeError /\
  is_spam (post_analysis r) = false /\
  (exists na, nuance_analysis r = Some na /\ detected_intents na = [INFORMATIVE]) /\
  ~ (nuance_analysis r <> None <->
     is_spam (post_analysis r) = false /\ ENABLE_NUANCE_ANALYSIS settings = true).
Proof.
  split; [reflexivity |]. split; [reflexivity |]. split; [reflexivity |].
  split; [eexists; split; reflexivity |].
  intros [H _].
  assert (Hp : nuance_analysis
                 (fst (perform_full_analysis (configure "sk-key" true false)
                         example_str no_list_order "p1" "I think so." "en"
                         (fresh (fun _ =>
                            Returns (Json (PyDict [("primary_label", PyStr "Opinion");
                                                   ("confidence", PyStr "high")]))))))
               <> None) by (vm_compute; discriminate).
  destruct (H Hp) as [_ Hflag]. discriminate Hflag.
Qed.

(** C4, amended.  For every request whose analysis completes without a
    processing error, the nuance analysis is present if and only if the
    post is not spam and the nuance flag is on.  Its detected intents are
    then made of the mapping that [analyze_intents] returned in this run,
    called after the triage, the veracity step and
    [analyze_political_tendency] of the run: they are the labels of that
    mapping whose score is strictly greater than 0.3, in the order of the
    mapping, each mapped to its Intent.  A score equal to 0.3 is left out,
    and no detected intent at all is a valid outcome.  When the analysis
    ends with a processing error the nuance analysis is the fixed one of
    the safe default, with the one intent Informative, whatever the
    flag. *)
Theorem nuance_present_iff_not_spam_and_flag
    (api_key : string) (veracity nuance : bool) (str : exn -> string)
    (list_gt : list pyval -> list pyval -> result bool)
    (id text lang : string) (w : World) :
  let settings := configure api_key veracity nuance in
  let run := perform_full_analysis settings str list_gt id text lang w in
  let r := fst run in
  (processing_error r = None ->
   (nuance_analysis r <> None <-> is_spam (post_analysis r) = false /\ nuance = true) /\
   (forall na, nuance_analysis r = Some na ->
      exists pt va w1 w2 political_scores w3 d,
        _run_triage settings list_gt text lang w = (Ok (pt, false), w1) /\
        _get_veracity_analysis settings pt false text lang w1 = (Ok va, w2) /\
        analyze_political_tendency settings text lang w2 = (Ok political_scores, w3) /\
        analyze_intents settings text lang w3 = (Ok (PyDict d), snd run) /\
        detected_intents na =
        map intent_of
            (map fst (filter (fun kv => exceeds (3 # 10) (snd kv)) (items d))))) /\
  (forall q, exceeds (3 # 10) (PyFloat (Finite q)) = true <-> 3 # 10 < q) /\
  (forall label,
      _build_intent_list settings list_gt
        (PyDict [(label, PyFloat (Finite (3 # 10)))]) lang = Ok []) /\
  _build_intent_list settings list_gt (zero_scores (_get_intent_labels settings lang))
    lang = Ok [] /\
  (processing_error r <> None ->
   nuance_analysis r =
     Some {| political_tendency :=
               {| primary := NEUTRAL; scores := [("Neutral", Flt (Finite 1))] |};
             detected_intents := [INFORMATIVE] |}).
Proof.
  intros settings run r.
  pose proof (perform_full_analysis_cases settings str list_gt id text lang w) as Hc.
  subst r run.
  destruct (perform_full_analysis settings str list_gt id text lang w) as [r w'].
  cbn [fst snd].
  split; [| split; [| split; [| split]]].
  - intros Herr.
    destruct Hc as [[pt [spam [va [na [Hst Hr]]]]] | [e [_ Hr]]];
      [| subst r; discriminate Herr].
    subst r. unfold _build_analysis_response.
    cbn [nuance_analysis post_analysis is_spam].
    destruct (stages_ok_inv _ _ _ _ _ _ _ _ _ _ Hst) as [w1 [w2 [Ht [Hv Hn]]]].
    destruct (get_nuance_analysis_inv _ _ _ _ _ _ _ _ Hn)
      as [[G [Hna _]] | [Hs [Hf [ps [w3 [iscores [pa [l [Hp [Hi [_ [Hl Hna]]]]]]]]]]]].
    + subst na. split.
      * split; [intros H; contradiction |].
        intros [Hs Hf]. rewrite Hs in G. subst settings. simpl in G.
        rewrite Hf in G. discriminate G.
      * intros na H. discriminate H.
    + subst na spam. split.
      * split; [intros _; split; [reflexivity | exact Hf] | intros _; discriminate].
      * intros na H. injection H as <-. cbn [detected_intents].
        destruct (build_intent_list_spec settings list_gt iscores lang l Hl)
          as [d [-> Hd]].
        exists pt, va, w1, w2, ps, w3, d.
        split; [exact Ht |]. split; [exact Hv |]. split; [exact Hp |].
        split; [exact Hi | exact Hd].
  - intros q. unfold exceeds. cbn [as_num]. apply gt_float_finite.
  - intros label. reflexivity.
  - unfold _get_intent_labels. destruct (String.eqb lang "de"); reflexivity.
  - intros Herr.
    destruct Hc as [[pt [spam [va [na [_ Hr]]]]] | [e [_ Hr]]]; subst r.
    + exfalso. apply Herr. reflexivity.
    + reflexivity.
Qed.

(** C4, a run: an opinion with three intents scored 0.8, 0.3 and 0.31; the
    one at 0.3 is left out. *)
Lemma nuance_present_iff_not_spam_and_flag_witness :
  let settings := configure "sk-key" true true in
  let w := fresh (fun n => match n with
                           | O => classified "Opinion" (9 # 10)
                           | 1%nat => scored [("Left", 6 # 10); ("Center", 3 # 10)]
                           | _ => scored [("Persuasive", 8 # 10);
                                          ("Satirical", 3 # 10);
                                          ("Provocative", 31 # 100)]
                           end) in
  let r := fst (perform_full_analysis settings example_str no_list_order
                  "p1" "They are all wrong!" "en" w) in
  processing_error r = None /\
  (exists na, nuance_analysis r = Some na /\
              detected_intents na = [PERSUASIVE; PROVOCATIVE]) /\
  (nuance_analysis r <> None <->
   is_spam (post_analysis r) = false /\ ENABLE_NUANCE_ANALYSIS settings = true).
Proof.
  intros settings w r.
  assert (Herr : processing_error r = None) by reflexivity.
  split; [exact Herr |].
  split; [eexists; split; reflexivity |].
  destruct (nuance_present_iff_not_spam_and_flag "sk-key" true true example_str
              no_list_order "p1" "They are all wrong!" "en" w) as [T _].
  destruct (T Herr) as [T' _]. exact T'.
Defined.

(** ** C7: repeated intents *)

(** C7 as stated fails: the model scores the label "Informative" and a
    label outside the set, "Educational", above the threshold; the unknown
    label falls back to Informative, which is then detected twice. *)
Lemma detected_intents_repeat_counterexample :
  let settings := configure "sk-key" true true in
  let w := fresh (fun n => match n with
                           | O => classified "Opinion" (9 # 10)
                           | 1%nat => scored [("Neutral", 8 # 10)]
                           | _ => scored [("Informative", 8 # 10);
                                          ("Educational", 6 # 10)]
                           end) in
  let r := fst (perform_full_analysis settings example_str no_list_order
                  "p1" "Did you know?" "en" w) in
  processing_error r = None /\
  exists na,
    nuance_analysis r = Some na /\
    detected_intents na = [INFORMATIVE; INFORMATIVE] /\
    ~ NoDup (detected_intents na).
Proof.
  split; [reflexivity |].
  eexists. split; [reflexivity |]. split; [reflexivity |].
  simpl. intros H. inversion H as [| x l Hnot _]; subst.
  apply Hnot. left. reflexivity.
Qed.

(** C7, amended.  The detected intents of a nuance analysis, which
    [_build_intent_list] makes of the mapping returned by
    [analyze_intents], hold no Intent twice whenever the labels that the
    gateway scored above the threshold all belong to the intent label set
    of one language.  (Labels of the two languages, or labels outside the
    sets, can stand for the same Intent, which is then detected more than
    once.) *)
Theorem detected_intents_distinct_within_one_language
    (api_key : string) (veracity nuance : bool)
    (list_gt : list pyval -> list pyval -> result bool)
    (scores : pyval) (lang labels_lang : string) (l : list Intent) :
  let settings := configure api_key veracity nuance in
  _build_intent_list settings list_gt scores lang = Ok l ->
  (forall d label score,
      scores = PyDict d -> In (label, score) (items d) ->
      exceeds (3 # 10) score = true ->
      In label (_get_intent_labels settings labels_lang)) ->
  NoDup l.
Proof.
  intros settings Hl Hin.
  destruct (build_intent_list_spec settings list_gt scores lang l Hl) as [d [Hd ->]].
  apply NoDup_map_injective_on.
  - intros a b Ha Hb.
    apply (intent_of_injective_on_labels api_key veracity nuance labels_lang).
    + apply in_map_iff in Ha. destruct Ha as [[k v] [Hk Ha]]. simpl in Hk. subst k.
      apply filter_In in Ha. destruct Ha as [Ha Hx].
      apply (Hin d a v Hd Ha Hx).
    + apply in_map_iff in Hb. destruct Hb as [[k v] [Hk Hb]]. simpl in Hk. subst k.
      apply filter_In in Hb. destruct Hb as [Hb Hx].
      apply (Hin d b v Hd Hb Hx).
  - apply NoDup_map_fst_filter. apply keys_NoDup.
Qed.

(** C7, a run: German labels only, two of them above the threshold. *)
Lemma detected_intents_distinct_within_one_language_witness :
  let settings := configure "sk-key" true true in
  let scores := PyDict [("Informativ", PyFloat (Finite (8 # 10)));
                        ("Unterhaltend", PyFloat (Finite (5 # 10)));
                        ("Kommerziell", PyFloat (Finite (1 # 10)))] in
  _build_intent_list settings no_list_order scores "de" =
    Ok [INFORMATIVE; ENTERTAINING] /\
  NoDup [INFORMATIVE; ENTERTAINING].
Proof.
  intros settings scores.
  assert (H : _build_intent_list settings no_list_order scores "de" =
              Ok [INFORMATIVE; ENTERTAINING]) by reflexivity.
  split; [exact H |].
  apply (detected_intents_distinct_within_one_language "sk-key" true true
           no_list_order scores "de" "de" _ H).
  intros d label score Hd Hin Hx.
  injection Hd as <-. simpl in Hin.
  destruct Hin as [Hin | [Hin | [Hin | []]]]; injection Hin as <- <-.
  - simpl. tauto.
  - simpl. tauto.
  - vm_compute in Hx. discriminate Hx.
Defined.

(** ** C9: the timestamp of a result *)

Lemma has_plus_app (a b : string) : has_plus (a ++ b) = has_plus a || has_plus b.
Proof.
  induction a as [| c a IH]; simpl.
  - reflexivity.
  - rewrite IH. apply orb_assoc.
Qed.

Lemma digit_is_not_plus (c : ascii) : is_digit c = true -> Ascii.eqb c "+" = false.
Proof.
  intros H. destruct (Ascii.eqb c "+") eqn:E; [| reflexivity].
  apply Ascii.eqb_eq in E. subst c. vm_compute in H. discriminate H.
Qed.

Lemma shaped_keeps_plus (pattern s rest : string) :
  has_plus pattern = false ->
  shaped pattern s = Some rest ->
  has_plus s = has_plus rest.
Proof.
  revert s. induction pattern as [| p pattern IH]; simpl; intros s Hp H.
  - injection H as H. subst. reflexivity.
  - apply orb_false_iff in Hp. destruct Hp as [Hp Hps].
    destruct s as [| c s]; [discriminate |].
    destruct (Ascii.eqb p "d") eqn:Ed.
    + destruct (is_digit c) eqn:Hd; [| discriminate].
      simpl. rewrite (digit_is_not_plus c Hd). simpl. apply IH; assumption.
    + destruct (Ascii.eqb p c) eqn:Ec; [| discriminate].
      apply Ascii.eqb_eq in Ec. subst c.
      simpl. rewrite Hp. simpl. apply IH; assumption.
Qed.

Lemma fraction_then_Z_no_plus (s : string) :
  fraction_then_Z s = true -> has_plus s = false.
Proof.
  induction s as [| c rest IH]; simpl; intros H.
  - reflexivity.
  - apply andb_true_iff in H. destruct H as [Hd H].
    rewrite (digit_is_not_plus c Hd). simpl.
    apply orb_true_iff in H. destruct H as [H | H].
    + apply String.eqb_eq in H. subst rest. reflexivity.
    + apply IH. exact H.
Qed.

(** A well-formed timestamp holds no "+": Z is its only designator. *)
Lemma iso8601_utc_z_no_plus (s : string) :
  iso8601_utc_z s = true -> has_plus s = false.
Proof.
  unfold iso8601_utc_z. intros H.
  destruct (shaped "dddd-dd-ddTdd:dd:dd" s) as [rest |] eqn:E; [| discriminate].
  rewrite (shaped_keeps_plus "dddd-dd-ddTdd:dd:dd" s rest eq_refl E).
  apply orb_true_iff in H. destruct H as [H | H].
  - apply String.eqb_eq in H. subst rest. reflexivity.
  - destruct rest as [| c fraction]; [discriminate |].
    apply andb_true_iff in H. destruct H as [Hc Hf].
    apply Ascii.eqb_eq in Hc. subst c. simpl.
    apply fraction_then_Z_no_plus. exact Hf.
Qed.

Lemma append_assoc (a b c : string) : (a ++ b) ++ c = a ++ (b ++ c).
Proof.
  induction a as [| x a IH]; simpl.
  - reflexivity.
  - rewrite IH. reflexivity.
Qed.

Lemma isoformat_offset (t : datetime) :
  exists body, isoformat t = body ++ "+00:00".
Proof.
  unfold isoformat.
  exists (pad 4 (year t) ++ "-" ++ pad 2 (month t) ++ "-" ++ pad 2 (day t) ++ "T" ++
          pad 2 (hour t) ++ ":" ++ pad 2 (minute t) ++ ":" ++ pad 2 (second t) ++
          (if Nat.eqb (microsecond t) 0 then EmptyString
           else "." ++ pad 6 (microsecond t))).
  repeat rewrite append_assoc. reflexivity.
Qed.

(** C9.  The timestamp of every result, on the success path and on the
    failure path, is [isoformat()] of the clock followed by "Z".  Its last
    character is Z, but [isoformat()] of a datetime in UTC already ends
    with the offset "+00:00": the timestamp ends with "+00:00Z", which is
    not a well-formed ISO-8601 timestamp.  So it is for the health probe
    on ("health", "test", "en") at noon of 15 January 2024. *)
Theorem analysis_timestamp_has_offset_and_Z
    (settings : Settings) (str : exn -> string)
    (list_gt : list pyval -> list pyval -> result bool)
    (id text lang : string) (w : World) :
  let r := fst (perform_full_analysis settings str list_gt id text lang w) in
  analysis_timestamp r = isoformat (utcnow w) ++ "Z" /\
  (exists body, analysis_timestamp r = body ++ "+00:00" ++ "Z") /\
  iso8601_utc_z (analysis_timestamp r) = false /\
  analysis_timestamp
    (fst (perform_full_analysis default_settings example_str no_list_order
            "health" "test" "en" (fresh (fun _ => Fails (VendorError "offline"))))) =
  "2024-01-15T12:00:00+00:00Z" /\
  iso8601_utc_z "2024-01-15T12:00:00+00:00Z" = false /\
  iso8601_utc_z "2024-01-15T12:00:00Z" = true.
Proof.
  intros r.
  assert (Ht : analysis_timestamp r = isoformat (utcnow w) ++ "Z").
  { subst r.
    pose proof (perform_full_analysis_cases settings str list_gt id text lang w) as Hc.
    pose proof (frames_stages settings list_gt text lang w) as [_ Hclock].
    destruct (perform_full_analysis settings str list_gt id text lang w) as [r w'].
    simpl.
    destruct Hc as [[pt [spam [va [na [Hst Hr]]]]] | [e [Hst Hr]]];
      rewrite Hst in Hclock; simpl in Hclock; subst r; simpl;
      unfold timestamp; rewrite Hclock; reflexivity. }
  split; [exact Ht |].
  destruct (isoformat_offset (utcnow w)) as [body Hb].
  split; [| split; [| split; [| split]]].
  - exists body. rewrite Ht, Hb. apply append_assoc.
  - destruct (iso8601_utc_z (analysis_timestamp r)) eqn:E; [| reflexivity].
    apply iso8601_utc_z_no_plus in E.
    rewrite Ht, Hb in E. rewrite !has_plus_app in E. simpl in E.
    rewrite orb_true_r in E. discriminate E.
  - reflexivity.
  - reflexivity.
  - reflexivity.
Qed.

(** * Further properties of the code *)

Local Open Scope list_scope.

(** ** The retry loop of [_make_api_call] *)

Lemma retry_loop_step (p : prompt) (max_retries attempt : nat) (rest : list nat)
    (w : World) :
  retry_loop p max_retries (attempt :: rest) w =
  match api w (length (requests w)) with
  | Returns t => (Ok (Some t), after_request p w)
  | Fails e =>
      if (attempt <? max_retries - 1)%nat
      then retry_loop p max_retries rest
             (after_sleep (2 ^ Z.of_nat attempt) (after_request p w))
      else (Raise e, after_request p w)
  end.
Proof.
  simpl. unfold try_except_Exception, bind, messages_create.
  destruct (api w (length (requests w))); [| reflexivity].
  destruct (attempt <? max_retries - 1)%nat; reflexivity.
Qed.

Lemma after_attempts_one (p : prompt) (first : nat) (w : World) :
  after_attempts p first 1 w = after_request p w.
Proof.
  unfold after_attempts, after_request. simpl. rewrite app_nil_r. reflexivity.
Qed.

Lemma after_attempts_more (p : prompt) (first n : nat) (w : World) :
  after_attempts p (S first) (S n)
    (after_sleep (2 ^ Z.of_nat first) (after_request p w)) =
  after_attempts p first (S (S n)) w.
Proof.
  unfold after_attempts, after_sleep, after_request. simpl.
  rewrite Nat.sub_0_r. rewrite <- !app_assoc. reflexivity.
Qed.

(** The loop over the attempts [first, first + 1, ...] that remain. *)
Lemma retry_loop_spec (p : prompt) (max_retries : nat) :
  forall (remaining first : nat) (w : World),
    (first + remaining = max_retries)%nat ->
    exists n,
      (n <= remaining)%nat /\
      (1 <= remaining -> 1 <= n)%nat /\
      snd (retry_loop p max_retries (seq first remaining) w) =
        after_attempts p first n w /\
      (forall i, (i < n - 1)%nat ->
                 exists e, api w (length (requests w) + i) = Fails e) /\
      match fst (retry_loop p max_retries (seq first remaining) w) with
      | Ok (Some t) =>
          (1 <= n)%nat /\ api w (length (requests w) + (n - 1)) = Returns t
      | Ok None => remaining = 0%nat
      | Raise e =>
          n = remaining /\ (1 <= remaining)%nat /\
          api w (length (requests w) + (remaining - 1)) = Fails e
      end.
Proof.
  induction remaining as [| remaining IH]; intros first w Hsum.
  - exists 0%nat. simpl. split; [lia |]. split; [lia |]. split.
    + unfold after_attempts. simpl. rewrite !app_nil_r. destruct w; reflexivity.
    + split; [intros i Hi; lia | reflexivity].
  - change (seq first (S remaining)) with (first :: seq (S first) remaining).
    rewrite retry_loop_step.
    destruct (api w (length (requests w))) as [e | t] eqn:E.
    + destruct (first <? max_retries - 1)%nat eqn:L.
      * apply Nat.ltb_lt in L.
        set (w2 := after_sleep (2 ^ Z.of_nat first) (after_request p w)).
        destruct (IH (S first) w2 ltac:(lia)) as [n [Hle [Hpos [Hw [Hfail Hres]]]]].
        assert (Hn : (1 <= n)%nat) by (apply Hpos; lia).
        destruct n as [| n]; [lia |].
        assert (Hlen : length (requests w2) = S (length (requests w))).
        { unfold w2. simpl. rewrite length_app. simpl. lia. }
        exists (S (S n)). split; [lia |]. split; [lia |]. split.
        { rewrite Hw. unfold w2. apply after_attempts_more. }
        split.
        { intros i Hi. destruct i as [| i].
          - exists e. rewrite Nat.add_0_r. exact E.
          - destruct (Hfail i ltac:(lia)) as [e' He']. exists e'.
            rewrite Hlen in He'.
            replace (length (requests w) + S i)%nat
              with (S (length (requests w)) + i)%nat by lia.
            exact He'. }
        rewrite Hlen in Hres.
        destruct (fst (retry_loop p max_retries (seq (S first) remaining) w2))
          as [[t |] | e'].
        { destruct Hres as [_ Hres]. split; [lia |].
          replace (length (requests w) + (S (S n) - 1))%nat
            with (S (length (requests w)) + (S n - 1))%nat by lia.
          exact Hres. }
        { lia. }
        { destruct Hres as [Hn' [Hr Hres]]. split; [lia |]. split; [lia |].
          replace (length (requests w) + (S remaining - 1))%nat
            with (S (length (requests w)) + (remaining - 1))%nat by lia.
          exact Hres. }
      * apply Nat.ltb_ge in L.
        assert (remaining = 0%nat) by lia. subst remaining.
        exists 1%nat. split; [lia |]. split; [lia |]. split.
        { simpl. symmetry. apply after_attempts_one. }
        split; [intros i Hi; lia |].
        simpl. split; [reflexivity |]. split; [lia |].
        rewrite Nat.add_0_r. exact E.
    + exists 1%nat. split; [lia |]. split; [lia |]. split.
      { simpl. symmetry. apply after_attempts_one. }
      split; [intros i Hi; lia |].
      simpl. split; [lia |]. rewrite Nat.add_0_r. exact E.
Qed.

(** X1.  [_make_api_call] with [max_retries] attempts allowed stops at the
    first attempt that the API answers.  It sends [n] requests, at most
    [max_retries] and at least one when an attempt is allowed; the attempts
    before the [n]-th failed, and after the attempt numbered [k] of them it
    slept [2 ^ k] seconds.  It returns the text of the [n]-th attempt, or
    raises the exception of the last attempt when all of them failed.  It
    returns None only when no attempt is allowed, and then leaves the
    world as it is. *)
Theorem make_api_call_stops_at_first_answer
    (p : prompt) (max_retries : nat) (w : World) :
  exists n,
    (n <= max_retries)%nat /\
    (1 <= max_retries -> 1 <= n)%nat /\
    snd (_make_api_call_with p max_retries w) = after_attempts p 0 n w /\
    (forall i, (i < n - 1)%nat ->
               exists e, api w (length (requests w) + i) = Fails e) /\
    match fst (_make_api_call_with p max_retries w) with
    | Ok (Some t) =>
        (1 <= n)%nat /\ api w (length (requests w) + (n - 1)) = Returns t
    | Ok None =>
        max_retries = 0%nat /\ snd (_make_api_call_with p max_retries w) = w
    | Raise e =>
        n = max_retries /\ (1 <= max_retries)%nat /\
        api w (length (requests w) + (max_retries - 1)) = Fails e
    end.
Proof.
  unfold _make_api_call_with.
  destruct (retry_loop_spec p max_retries max_retries 0 w eq_refl)
    as [n [Hle [Hpos [Hw [Hfail Hres]]]]].
  exists n. split; [exact Hle |]. split; [exact Hpos |]. split; [exact Hw |].
  split; [exact Hfail |].
  destruct (fst (retry_loop p max_retries (seq 0 max_retries) w))
    as [[t |] | e] eqn:E; try exact Hres.
  split; [exact Hres |]. subst max_retries. reflexivity.
Qed.

(** ** The scores of a reply: labels that are missing get 0.0 *)

Lemma has_key_app (d e : entries) (k : string) :
  has_key (d ++ e) k = has_key d k || has_key e k.
Proof. unfold has_key. apply existsb_app. Qed.

Lemma lookup_app_one (d : entries) (l k : string) (v : pyval) :
  lookup (d ++ [(l, v)]) k = if String.eqb l k then Some v else lookup d k.
Proof.
  unfold lookup. rewrite rev_app_distr. simpl.
  destruct (String.eqb l k); reflexivity.
Qed.

Lemma has_key_differs (d : entries) (k l : string) :
  has_key d k = true -> has_key d l = false -> String.eqb l k = false.
Proof.
  intros Hk Hl. destruct (String.eqb l k) eqn:E; [| reflexivity].
  apply String.eqb_eq in E. subst l. congruence.
Qed.

(** The loop of the parsers on a dict: entries are only added, one with
    the score 0.0 for each label that is not a key yet; no score already
    there is changed. *)
Lemma fill_missing_dict (labels : list string) :
  forall d : entries,
  exists added : entries,
    fill_missing labels (PyDict d) = Ok (PyDict (d ++ added)) /\
    (forall label, In label labels -> has_key (d ++ added) label = true) /\
    (forall k v, In (k, v) added ->
                 In k labels /\ has_key d k = false /\ v = PyFloat (Finite 0)) /\
    (forall k, has_key d k = true -> lookup (d ++ added) k = lookup d k) /\
    (forall k, In k labels -> has_key d k = false ->
               lookup (d ++ added) k = Some (PyFloat (Finite 0))).
Proof.
  induction labels as [| label rest IH]; intros d.
  - exists []. rewrite app_nil_r. simpl. split; [reflexivity |].
    split; [intros label [] |]. split; [intros k v [] |].
    split; [reflexivity | intros k []].
  - simpl. destruct (has_key d label) eqn:Hl; simpl.
    + destruct (IH d) as [added [E [Hcov [Hadd [Hold Hnew]]]]].
      exists added. split; [exact E |]. split; [| split; [| split]].
      * intros l [<- | Hin]; [| apply Hcov; exact Hin].
        rewrite has_key_app, Hl. reflexivity.
      * intros k v Hin. destruct (Hadd k v Hin) as [H1 [H2 H3]].
        split; [right; exact H1 | split; assumption].
      * exact Hold.
      * intros k [<- | Hin] Hk; [congruence | apply Hnew; assumption].
    + destruct (IH (d ++ [(label, PyFloat (Finite 0))]))
        as [added [E [Hcov [Hadd [Hold Hnew]]]]].
      exists ((label, PyFloat (Finite 0)) :: added).
      assert (Happ : d ++ (label, PyFloat (Finite 0)) :: added =
                     (d ++ [(label, PyFloat (Finite 0))]) ++ added)
        by (rewrite <- app_assoc; reflexivity).
      rewrite Happ. split; [exact E |]. split; [| split; [| split]].
      * intros l [<- | Hin]; [| apply Hcov; exact Hin].
        rewrite !has_key_app. simpl. rewrite String.eqb_refl.
        rewrite orb_true_r. reflexivity.
      * intros k v [Heq | Hin].
        -- injection Heq as <- <-. split; [left; reflexivity | split; [exact Hl | reflexivity]].
        -- destruct (Hadd k v Hin) as [H1 [H2 H3]].
           split; [right; exact H1 |]. split; [| exact H3].
           rewrite has_key_app in H2. apply orb_false_iff in H2. apply H2.
      * intros k Hk. rewrite Hold.
        -- rewrite lookup_app_one. rewrite (has_key_differs d k label Hk Hl).
           reflexivity.
        -- rewrite has_key_app, Hk. reflexivity.
      * intros k [<- | Hin] Hk.
        -- rewrite Hold.
           ++ rewrite lookup_app_one, String.eqb_refl. reflexivity.
           ++ rewrite has_key_app. simpl. rewrite String.eqb_refl.
              rewrite orb_true_r. reflexivity.
        -- destruct (String.eqb label k) eqn:Ek.
           ++ apply String.eqb_eq in Ek. subst k. rewrite Hold.
              ** rewrite lookup_app_one, String.eqb_refl. reflexivity.
              ** rewrite has_key_app. simpl. rewrite String.eqb_refl.
                 rewrite orb_true_r. reflexivity.
           ++ apply Hnew; [exact Hin |].
              rewrite has_key_app, Hk. simpl. rewrite Ek. reflexivity.
Qed.

(** X2.  On a reply that is a JSON object whose "scores" is an object,
    the three parsers of scores return that object with entries added
    after its own: the score 0.0 for each label of the label set that is
    not a key of it.  Every label of the set is then a key, no score of
    the reply is changed (nothing is renormalised), and keys outside the
    label set are kept.  [_parse_classification_response] returns with it
    the primary label and the confidence of the reply as they are, or the
    first label and 0.5 when they are missing. *)
Theorem parsers_add_missing_labels_with_zero
    (labels : list string) (data reply_scores : entries) :
  lookup data "scores" = Some (PyDict reply_scores) ->
  exists added : entries,
    _parse_political_response (Some (Json (PyDict data))) labels =
      Ok (PyDict (reply_scores ++ added)) /\
    _parse_intent_response (Some (Json (PyDict data))) labels =
      Ok (PyDict (reply_scores ++ added)) /\
    (forall first rest,
        labels = first :: rest ->
        _parse_classification_response (Some (Json (PyDict data))) labels =
        Ok (get_or data "primary_label" (PyStr first),
            get_or data "confidence" (PyFloat (Finite (1 # 2))),
            PyDict (reply_scores ++ added))) /\
    (forall label, In label labels ->
                   has_key (reply_scores ++ added) label = true) /\
    (forall k v, In (k, v) added ->
                 In k labels /\ has_key reply_scores k = false /\
                 v = PyFloat (Finite 0)) /\
    (forall k, has_key reply_scores k = true ->
               lookup (reply_scores ++ added) k = lookup reply_scores k) /\
    (forall k, In k labels -> has_key reply_scores k = false ->
               lookup (reply_scores ++ added) k = Some (PyFloat (Finite 0))).
Proof.
  intros Hs.
  destruct (fill_missing_dict labels reply_scores)
    as [added [E [Hcov [Hadd [Hold Hnew]]]]].
  exists added.
  split; [| split; [| split; [| split; [| split; [| split]]]]];
    try assumption.
  - unfold _parse_political_response. simpl. rewrite Hs, E. reflexivity.
  - unfold _parse_intent_response. simpl. rewrite Hs, E. reflexivity.
  - intros first rest ->.
    unfold _parse_classification_response, get_or, try_except, json_loads,
      getattr_get, index0, rbind.
    cbv beta iota. rewrite Hs, E. reflexivity.
Qed.

(** X2, a run: the model scores one label of the set and one outside. *)
Lemma parsers_add_missing_labels_with_zero_witness :
  let data := [("scores", PyDict [("Right", PyFloat (Finite (9 # 10)));
                                  ("Libertarian", PyFloat (Finite (4 # 10)))])] in
  _parse_political_response (Some (Json (PyDict data)))
    (EN_POLITICAL_LABELS default_settings) =
  Ok (PyDict [("Right", PyFloat (Finite (9 # 10)));
              ("Libertarian", PyFloat (Finite (4 # 10)));
              ("Left", PyFloat (Finite 0));
              ("Center-Left", PyFloat (Finite 0));
              ("Center", PyFloat (Finite 0));
              ("Center-Right", PyFloat (Finite 0));
              ("Neutral", PyFloat (Finite 0))]) /\
  exists added : entries,
    _parse_political_response (Some (Json (PyDict data)))
      (EN_POLITICAL_LABELS default_settings) =
    Ok (PyDict ([("Right", PyFloat (Finite (9 # 10)));
                 ("Libertarian", PyFloat (Finite (4 # 10)))] ++ added)).
Proof.
  intros data. split; [reflexivity |].
  destruct (parsers_add_missing_labels_with_zero
              (EN_POLITICAL_LABELS default_settings) data
              [("Right", PyFloat (Finite (9 # 10)));
               ("Libertarian", PyFloat (Finite (4 # 10)))] eq_refl)
    as [added [H _]].
  exists added. exact H.
Defined.

(** ** Replies that are JSON but not what the parsers expect *)

Lemma parsers_reject_non_object (v : pyval) (labels : list string) :
  not_an_object v = true ->
  _parse_classification_response (Some (Json v)) labels = Raise AttributeError /\
  _parse_political_response (Some (Json v)) labels = Raise AttributeError /\
  _parse_intent_response (Some (Json v)) labels = Raise AttributeError /\
  _parse_veracity_response (Some (Json v)) = Raise AttributeError.
Proof. destruct v; simpl; intros H; try discriminate H; repeat split. Qed.

Lemma fill_missing_rejects (sc : pyval) (first : string) (rest : list string) :
  not_a_container sc = true ->
  fill_missing (first :: rest) sc = Raise TypeError.
Proof. destruct sc; simpl; intros H; try discriminate H; reflexivity. Qed.

Lemma parsers_reject_scores (data : entries) (sc : pyval)
    (first : string) (rest : list string) :
  lookup data "scores" = Some sc ->
  not_a_container sc = true ->
  _parse_classification_response (Some (Json (PyDict data))) (first :: rest) =
    Raise TypeError /\
  _parse_political_response (Some (Json (PyDict data))) (first :: rest) =
    Raise TypeError /\
  _parse_intent_response (Some (Json (PyDict data))) (first :: rest) =
    Raise TypeError.
Proof.
  intros Hs Hc.
  unfold _parse_classification_response, _parse_political_response,
    _parse_intent_response, try_except, json_loads, getattr_get, index0, rbind.
  cbv beta iota. rewrite Hs.
  rewrite (fill_missing_rejects sc first rest Hc). repeat split.
Qed.

(** X3.  A reply that is valid JSON but not an object (an array, a string,
    a number, null) is not handled by the parsers: each gateway operation
    catches the AttributeError and returns its default without
    credentials.  So does a score-bearing operation on an object whose
    "scores" is null, a boolean or a number: [classify_post_type] then
    drops the primary label and the confidence of the reply and answers
    with the first label and the confidence [1.0 / len(labels)]. *)
Theorem unexpected_json_gives_default_without_credentials
    (api_key : string) (veracity nuance : bool)
    (text lang : string) (w : World) (value : pyval) :
  api_key <> EmptyString ->
  api w (length (requests w)) = Returns (Json value) ->
  let settings := configure api_key veracity nuance in
  (not_an_object value = true ->
   fst (classify_post_type settings text lang w) =
     _get_default_classification settings lang /\
   fst (analyze_political_tendency settings text lang w) =
     _get_default_political_analysis settings lang /\
   fst (analyze_intents settings text lang w) =
     _get_default_intent_analysis settings lang /\
   fst (analyze_veracity settings text lang w) =
     _get_default_veracity_analysis text lang) /\
  (forall data sc,
      value = PyDict data ->
      lookup data "scores" = Some sc ->
      not_a_container sc = true ->
      fst (classify_post_type settings text lang w) =
        _get_default_classification settings lang /\
      (exists first, hd_error (_get_post_type_labels settings lang) = Some first /\
         _get_default_classification settings lang =
         Ok (PyStr first,
             PyFloat (Finite (one_over (Z.of_nat
               (length (_get_post_type_labels settings lang))))),
             uniform (_get_post_type_labels settings lang))) /\
      fst (analyze_political_tendency settings text lang w) =
        _get_default_political_analysis settings lang /\
      fst (analyze_intents settings text lang w) =
        _get_default_intent_analysis settings lang).
Proof.
  intros Hkey Hreply settings.
  pose proof (enabled_configure api_key veracity nuance Hkey) as Hen.
  fold settings in Hen.
  rewrite (classify_post_type_returns settings Hen w _ Hreply).
  rewrite (analyze_political_tendency_returns settings Hen w _ Hreply).
  rewrite (analyze_intents_returns settings Hen w _ Hreply).
  rewrite (analyze_veracity_returns settings Hen w _ Hreply).
  split.
  - intros Hv.
    destruct (parsers_reject_non_object value (_get_post_type_labels settings lang) Hv)
      as [-> _].
    destruct (parsers_reject_non_object value (_get_political_labels settings lang) Hv)
      as [_ [-> _]].
    destruct (parsers_reject_non_object value (_get_intent_labels settings lang) Hv)
      as [_ [_ [-> ->]]].
    repeat split.
  - intros data sc -> Hs Hc. simpl fst.
    assert (Hl : exists p1 r1 p2 r2 p3 r3,
               _get_post_type_labels settings lang = p1 :: r1 /\
               _get_political_labels settings lang = p2 :: r2 /\
               _get_intent_labels settings lang = p3 :: r3).
    { unfold _get_post_type_labels, _get_political_labels, _get_intent_labels.
      destruct (String.eqb lang "de"); simpl; do 6 eexists; repeat split. }
    destruct Hl as [p1 [r1 [p2 [r2 [p3 [r3 [E1 [E2 E3]]]]]]]].
    split; [| split; [| split]].
    + rewrite E1. destruct (parsers_reject_scores data sc p1 r1 Hs Hc) as [-> _].
      reflexivity.
    + exists p1. unfold _get_default_classification. rewrite E1.
      split; reflexivity.
    + rewrite E2. destruct (parsers_reject_scores data sc p2 r2 Hs Hc) as [_ [-> _]].
      reflexivity.
    + rewrite E3. destruct (parsers_reject_scores data sc p3 r3 Hs Hc) as [_ [_ ->]].
      reflexivity.
Qed.

(** X3, a run: the model answers with a JSON array. *)
Lemma unexpected_json_gives_default_without_credentials_witness :
  let settings := configure "sk-key" true true in
  let w := fresh (fun _ => Returns (Json (PyList [PyStr "Opinion"]))) in
  "sk-key" <> EmptyString /\
  api w (length (requests w)) = Returns (Json (PyList [PyStr "Opinion"])) /\
  fst (classify_post_type settings "A post." "en" w) =
    Ok (PyStr "Factual Claim", PyFloat (Finite (one_over 5)),
        uniform (EN_POST_TYPES settings)).
Proof.
  intros settings w.
  assert (Hkey : "sk-key" <> EmptyString) by discriminate.
  assert (Hreply : api w (length (requests w)) =
                   Returns (Json (PyList [PyStr "Opinion"]))) by reflexivity.
  split; [exact Hkey |]. split; [exact Hreply |].
  destruct (unexpected_json_gives_default_without_credentials "sk-key" true true
              "A post." "en" w _ Hkey Hreply) as [T _].
  destruct (T eq_refl) as [T1 _]. exact T1.
Defined.

(** ** The primary political tendency: the first maximum *)

Lemma gt_numbers (list_gt : list pyval -> list pyval -> result bool) (a b : pyval) :
  is_number a = true -> is_number b = true ->
  gt list_gt a b = Ok (greater a b).
Proof.
  unfold is_number, gt, greater.
  destruct (as_num a), (as_num b); intros Ha Hb; try discriminate; reflexivity.
Qed.

Lemma Qgt_bool_true (x y : Q) : negb (Qle_bool x y) = true <-> y < x.
Proof.
  rewrite negb_true_iff. split; intros H.
  - apply Qnot_le_lt. intros Hle. apply Qle_bool_iff in Hle. congruence.
  - destruct (Qle_bool x y) eqn:E; [| reflexivity].
    apply Qle_bool_iff in E. exfalso. exact (Qlt_not_le _ _ H E).
Qed.

Lemma Qgt_bool_false (x y : Q) : negb (Qle_bool x y) = false <-> x <= y.
Proof.
  rewrite negb_false_iff. apply Qle_bool_iff.
Qed.

Lemma float_gt_irrefl (a : float) : float_gt a a = false.
Proof.
  destruct a; simpl; try reflexivity.
  apply Qgt_bool_false. apply Qle_refl.
Qed.

(** What does not exceed [a] does not exceed what exceeds [a]. *)
Lemma float_gt_above (a b c : float) :
  float_gt b a = true -> float_gt c a = false -> float_gt c b = false.
Proof.
  destruct a, b, c; simpl; intros H1 H2;
    try reflexivity; try discriminate.
  apply Qgt_bool_true in H1. apply Qgt_bool_false in H2.
  apply Qgt_bool_false. apply Qlt_le_weak.
  apply (Qle_lt_trans _ _ _ H2 H1).
Qed.

(** What exceeds [a] exceeds every number, NaN apart, that does not. *)
Lemma float_gt_over (a b c : float) :
  float_gt b a = true -> float_gt c a = false -> c <> NaN ->
  float_gt b c = true.
Proof.
  destruct a, b, c; simpl; intros H1 H2 H3;
    try reflexivity; try discriminate; try contradiction.
  apply Qgt_bool_true in H1. apply Qgt_bool_false in H2.
  apply Qgt_bool_true. apply (Qle_lt_trans _ _ _ H2 H1).
Qed.

Lemma greater_irrefl (a : pyval) : greater a a = false.
Proof.
  unfold greater. destruct (as_num a); [| reflexivity].
  apply float_gt_irrefl.
Qed.

Lemma greater_above (a b c : pyval) :
  greater b a = true -> greater c a = false ->
  is_number a = true -> greater c b = false.
Proof.
  unfold greater, is_number.
  destruct (as_num a) as [x |], (as_num b) as [y |], (as_num c) as [z |];
    intros H1 H2 Ha; try reflexivity; try discriminate.
  apply (float_gt_above (to_float x)); assumption.
Qed.

Lemma greater_over (a b c : pyval) :
  greater b a = true -> greater c a = false ->
  is_ordered c = true -> greater b c = true.
Proof.
  unfold greater, is_ordered.
  destruct (as_num a) as [x |], (as_num b) as [y |], (as_num c) as [z |];
    intros H1 H2 Hc; try discriminate.
  apply (float_gt_over (to_float x)); try assumption.
  destruct z as [n | f]; simpl; [discriminate |].
  destruct f; try discriminate.
Qed.

(** The loop of [max]: [(maxitem, maxval)] is the best of the entries
    passed so far, [pre] those before it and [mid] those after it.  [O]
    stands for the hypothesis that no value is NaN. *)
Lemma max_loop_spec (list_gt : list pyval -> list pyval -> result bool) (O : Prop) :
  forall (rest pre : entries) (maxitem : string) (maxval : pyval) (mid : entries),
    Forall (fun x => is_number (snd x) = true)
           (pre ++ (maxitem, maxval) :: mid ++ rest) ->
    (O -> Forall (fun x => is_ordered (snd x) = true)
                 (pre ++ (maxitem, maxval) :: mid ++ rest)) ->
    (O -> Forall (fun x => greater maxval (snd x) = true) pre) ->
    Forall (fun x => greater (snd x) maxval = false)
           (pre ++ (maxitem, maxval) :: mid) ->
    exists k v pre' post',
      max_loop list_gt rest maxitem maxval = Ok k /\
      pre ++ (maxitem, maxval) :: mid ++ rest = pre' ++ (k, v) :: post' /\
      (O -> Forall (fun x => greater v (snd x) = true) pre') /\
      Forall (fun x => greater (snd x) v = false) (pre' ++ (k, v) :: post').
Proof.
  induction rest as [| [item val] rest IH];
    intros pre maxitem maxval mid Hnum Hord Hpre Hall.
  - exists maxitem, maxval, pre, mid. simpl. rewrite app_nil_r.
    repeat split; assumption.
  - assert (Hmax : is_number maxval = true).
    { rewrite Forall_forall in Hnum.
      apply (Hnum (maxitem, maxval)). apply in_or_app. right. left. reflexivity. }
    assert (Hval : is_number val = true).
    { rewrite Forall_forall in Hnum.
      apply (Hnum (item, val)). apply in_or_app. right. right.
      apply in_or_app. right. left. reflexivity. }
    simpl. rewrite (gt_numbers list_gt val maxval Hval Hmax). simpl.
    destruct (greater val maxval) eqn:G.
    + destruct (IH (pre ++ (maxitem, maxval) :: mid) item val []) as
        [k [v [pre' [post' [E [Hl [Hp Ha]]]]]]].
      * simpl. rewrite <- app_assoc. simpl. exact Hnum.
      * intros o. simpl. rewrite <- app_assoc. simpl. exact (Hord o).
      * intros o. specialize (Hord o).
        rewrite Forall_forall in *. intros x Hx.
        apply (greater_over maxval); [exact G | apply Hall; exact Hx |].
        apply Hord. apply in_app_or in Hx. apply in_or_app.
        destruct Hx as [Hx | [Hx | Hx]];
          [left; exact Hx | right; left; exact Hx |].
        right. right. apply in_or_app. left. exact Hx.
      * rewrite Forall_forall in *. intros x Hx.
        apply in_app_or in Hx. destruct Hx as [Hx | [Hx | []]].
        -- apply (greater_above maxval); [exact G | apply Hall; exact Hx | exact Hmax].
        -- subst x. apply greater_irrefl.
      * exists k, v, pre', post'.
        split; [exact E |]. split; [| split; assumption].
        rewrite <- Hl. simpl. rewrite <- app_assoc. reflexivity.
    + destruct (IH pre maxitem maxval (mid ++ [(item, val)])) as
        [k [v [pre' [post' [E [Hl [Hp Ha]]]]]]].
      * rewrite <- app_assoc. exact Hnum.
      * intros o. rewrite <- app_assoc. exact (Hord o).
      * exact Hpre.
      * rewrite Forall_forall in *. intros x Hx.
        apply in_app_or in Hx. destruct Hx as [Hx | [Hx | Hx]].
        -- apply Hall. apply in_or_app. left. exact Hx.
        -- apply Hall. apply in_or_app. right. left. exact Hx.
        -- apply in_app_or in Hx. destruct Hx as [Hx | [Hx | []]].
           ++ apply Hall. apply in_or_app. right. right. exact Hx.
           ++ subst x. exact G.
      * exists k, v, pre', post'.
        split; [exact E |]. split; [| split; assumption].
        rewrite <- Hl. rewrite <- app_assoc. reflexivity.
Qed.

Lemma max_by_value_ok
    (list_gt : list pyval -> list pyval -> result bool) (d : entries) :
  items d <> [] ->
  Forall (fun x => is_number (snd x) = true) (items d) ->
  exists k, max_by_value list_gt (PyDict d) = Ok k.
Proof.
  intros Hne Hnum. unfold max_by_value.
  destruct (items d) as [| [item val] rest]; [contradiction |].
  destruct (max_loop_spec list_gt False rest [] item val [])
    as [k [v [pre [post [Hk _]]]]].
  - exact Hnum.
  - intros [].
  - intros [].
  - constructor; [apply greater_irrefl | constructor].
  - exists k. exact Hk.
Qed.

(** X4.  On a dict of numbers that is not empty, [max(scores,
    key=scores.get)] returns a key whose value no value of the dict
    exceeds.  When no value is NaN it is the first such key in the order of
    the dict: its value is strictly greater than every value before it, so
    that among equal maxima the first one met wins. *)
Theorem max_by_value_is_first_maximum
    (list_gt : list pyval -> list pyval -> result bool) (d : entries) :
  items d <> [] ->
  Forall (fun x => is_number (snd x) = true) (items d) ->
  exists k v pre post,
    max_by_value list_gt (PyDict d) = Ok k /\
    items d = pre ++ (k, v) :: post /\
    Forall (fun x => greater (snd x) v = false) (items d) /\
    (Forall (fun x => is_ordered (snd x) = true) (items d) ->
     Forall (fun x => greater v (snd x) = true) pre).
Proof.
  intros Hne Hnum. unfold max_by_value.
  destruct (items d) as [| [item val] rest] eqn:E; [contradiction |].
  destruct (max_loop_spec list_gt
              (Forall (fun x => is_ordered (snd x) = true) ((item, val) :: rest))
              rest [] item val [])
    as [k [v [pre [post [Hk [Hl [Hp Ha]]]]]]].
  - exact Hnum.
  - intros o. exact o.
  - intros _. constructor.
  - constructor; [apply greater_irrefl | constructor].
  - exists k, v, pre, post. simpl in Hl.
    split; [exact Hk |]. split; [exact Hl |].
    split; [rewrite Hl; exact Ha | exact Hp].
Qed.

(** X4, a run: 0.4 comes twice and first for "Center"; 0.4 beats the
    integer 0 and the 0.0 of the labels that are filled in. *)
Lemma max_by_value_is_first_maximum_witness :
  let d := [("Left", PyInt 0); ("Center", PyFloat (Finite (4 # 10)));
            ("Right", PyFloat (Finite (4 # 10))); ("Neutral", PyFloat (Finite 0))] in
  max_by_value no_list_order (PyDict d) = Ok "Center" /\
  exists k v pre post,
    max_by_value no_list_order (PyDict d) = Ok k /\
    items d = pre ++ (k, v) :: post.
Proof.
  intros d. split; [reflexivity |].
  assert (Hne : items d <> []) by discriminate.
  assert (Hnum : Forall (fun x => is_number (snd x) = true) (items d))
    by (repeat constructor).
  destruct (max_by_value_is_first_maximum no_list_order d Hne Hnum)
    as [k [v [pre [post [Hk [Hl _]]]]]].
  exists k, v, pre, post. split; assumption.
Defined.

(** ** When the nuance analysis can be built *)

Lemma round_scores_spec (its : entries) (l : list (string * num)) :
  round_scores its = Ok l ->
  Forall2 rounded_from its l /\ Forall (fun x => is_number (snd x) = true) its.
Proof.
  revert l. induction its as [| [k v] rest IH]; simpl; intros l H.
  - injection H as <-. split; constructor.
  - unfold rbind, round_4 in H.
    destruct (as_num v) as [n |] eqn:En; [| discriminate].
    destruct (round_scores rest) as [rs |]; [| discriminate].
    injection H as <-. destruct (IH rs eq_refl) as [H2 Hn].
    split; constructor; try assumption.
    + split; [reflexivity |]. exists n. split; [exact En | reflexivity].
    + unfold is_number. simpl. rewrite En. reflexivity.
Qed.

Lemma round_scores_ok (its : entries) :
  Forall (fun x => is_number (snd x) = true) its ->
  exists l, round_scores its = Ok l.
Proof.
  induction its as [| [k v] rest IH]; simpl; intros H.
  - eexists. reflexivity.
  - pose proof (Forall_inv H) as Hv. pose proof (Forall_inv_tail H) as Hrest.
    destruct (IH Hrest) as [l El]. rewrite El.
    unfold is_number in Hv. simpl in Hv. unfold round_4.
    destruct (as_num v); [| discriminate]. eexists. reflexivity.
Qed.

Lemma above_threshold_ok (settings : Settings)
    (list_gt : list pyval -> list pyval -> result bool) (its : entries) :
  (exists detected, above_threshold settings list_gt its = Ok detected) <->
  Forall (fun x => is_number (snd x) = true) its.
Proof.
  induction its as [| [k v] rest IH]; simpl.
  - split; [intros _; constructor | intros _; eexists; reflexivity].
  - split.
    + intros [detected H]. unfold rbind in H.
      destruct (gt list_gt v _) as [keep |] eqn:E; [| discriminate].
      destruct (above_threshold settings list_gt rest) as [kept |] eqn:Er;
        [| discriminate].
      destruct (gt_float_number list_gt v _ keep E) as [n [Hn _]].
      constructor.
      * unfold is_number. simpl. rewrite Hn. reflexivity.
      * apply IH. exists kept. reflexivity.
    + intros H.
      pose proof (Forall_inv H) as Hv. pose proof (Forall_inv_tail H) as Hrest.
      apply IH in Hrest. destruct Hrest as [kept Ek]. rewrite Ek.
      simpl in Hv.
      rewrite (gt_numbers list_gt v (PyFloat (Finite _)) Hv eq_refl).
      eexists. reflexivity.
Qed.

(** X5.  [_build_political_analysis] returns exactly when the scores are a
    dict that is not empty and whose values are all numbers; otherwise it
    raises.  When it returns, the primary tendency is the one of the key
    found by [max], and the scores of the result have the keys of the
    dict, in its order, each with its value rounded to 4 places: labels
    outside the label set are kept too. *)
Theorem political_analysis_needs_a_dict_of_numbers
    (list_gt : list pyval -> list pyval -> result bool)
    (mapping : pyval) (lang : string) :
  ((exists pa, _build_political_analysis list_gt mapping lang = Ok pa) <->
   (exists d, mapping = PyDict d /\ items d <> [] /\
              Forall (fun x => is_number (snd x) = true) (items d))) /\
  (forall pa,
      _build_political_analysis list_gt mapping lang = Ok pa ->
      exists d k,
        mapping = PyDict d /\
        max_by_value list_gt mapping = Ok k /\
        _map_to_political_tendency (PyStr k) lang = Ok (primary pa) /\
        Forall2 rounded_from (items d) (scores pa) /\
        map fst (scores pa) = keys d).
Proof.
  assert (Hinv : forall pa,
             _build_political_analysis list_gt mapping lang = Ok pa ->
             exists d k,
               mapping = PyDict d /\
               max_by_value list_gt mapping = Ok k /\
               _map_to_political_tendency (PyStr k) lang = Ok (primary pa) /\
               Forall2 rounded_from (items d) (scores pa) /\
               Forall (fun x => is_number (snd x) = true) (items d) /\
               items d <> []).
  { intros pa H. unfold _build_political_analysis, rbind in H.
    destruct (max_by_value list_gt mapping) as [k |] eqn:Ek; [| discriminate].
    destruct (_map_to_political_tendency (PyStr k) lang) as [p |] eqn:Ep;
      [| discriminate].
    destruct mapping as [| | | | | | d]; try discriminate Ek.
    simpl in H.
    destruct (round_scores (items d)) as [rs |] eqn:Er; [| discriminate].
    injection H as <-. simpl.
    destruct (round_scores_spec _ _ Er) as [H2 Hn].
    exists d, k. repeat split; try assumption; try reflexivity.
    intros Hempty. unfold max_by_value in Ek. rewrite Hempty in Ek.
    discriminate Ek. }
  split; [split |].
  - intros [pa H]. destruct (Hinv pa H) as [d [k [Hd [_ [_ [_ [Hn Hne]]]]]]].
    exists d. repeat split; assumption.
  - intros [d [-> [Hne Hn]]].
    destruct (max_by_value_ok list_gt d Hne Hn) as [k Hk].
    destruct (round_scores_ok (items d) Hn) as [rs Hrs].
    unfold _build_political_analysis, rbind. rewrite Hk. simpl.
    rewrite Hrs. eexists. reflexivity.
  - intros pa H. destruct (Hinv pa H) as [d [k [Hd [Hk [Hp [H2 _]]]]]].
    exists d, k. repeat split; try assumption.
    unfold keys. clear - H2.
    induction H2 as [| x y its l [Hxy _] _ IH]; simpl; [reflexivity |].
    rewrite Hxy, IH. reflexivity.
Qed.

(** X6.  [_build_intent_list] returns exactly when the scores are a dict
    whose values are all numbers (an empty dict gives no intent).  One
    value that is not a number makes it raise, also at a key that is not
    a label of the set. *)
Theorem intent_list_needs_a_dict_of_numbers
    (settings : Settings) (list_gt : list pyval -> list pyval -> result bool)
    (mapping : pyval) (lang : string) :
  ((exists l, _build_intent_list settings list_gt mapping lang = Ok l) <->
   (exists d, mapping = PyDict d /\
              Forall (fun x => is_number (snd x) = true) (items d))) /\
  _build_intent_list settings list_gt (PyDict []) lang = Ok [].
Proof.
  split; [| reflexivity]. split.
  - intros [l H]. unfold _build_intent_list, rbind in H.
    destruct mapping as [| | | | | | d]; try discriminate H.
    simpl in H.
    destruct (above_threshold settings list_gt (items d)) as [detected |] eqn:E;
      [| discriminate].
    exists d. split; [reflexivity |].
    apply (above_threshold_ok settings list_gt). exists detected. exact E.
  - intros [d [-> Hn]].
    apply (above_threshold_ok settings list_gt) in Hn. destruct Hn as [detected E].
    unfold _build_intent_list, rbind. simpl. rewrite E.
    rewrite map_intents_spec. eexists. reflexivity.
Qed.

(** ** What a result never combines *)

Lemma run_triage_inv (settings : Settings)
    (list_gt : list pyval -> list pyval -> result bool)
    (text lang : string) (w w' : World) (pt : PostType) (spam : bool) :
  _run_triage settings list_gt text lang w = (Ok (pt, spam), w') ->
  exists primary_label confidence mapping,
    classify_post_type settings text lang w =
      (Ok (primary_label, confidence, mapping), w') /\
    _detect_spam settings list_gt primary_label confidence = Ok spam /\
    _map_to_post_type primary_label lang = Ok pt /\
    format_2f confidence = Ok tt.
Proof.
  intros H. unfold _run_triage, bind, lift, ret in H.
  destruct (classify_post_type settings text lang w)
    as [[[[primary_label confidence] mapping] | e] w1]; [| discriminate].
  destruct (_detect_spam settings list_gt primary_label confidence)
    as [spam' |] eqn:Es; [| discriminate].
  destruct (_map_to_post_type primary_label lang) as [pt' |] eqn:Ep; [| discriminate].
  destruct (format_2f confidence) as [[] |] eqn:Ef; [| discriminate].
  injection H as <- <- <-.
  exists primary_label, confidence, mapping. repeat split; assumption.
Qed.

Lemma get_veracity_analysis_inv (settings : Settings)
    (pt : PostType) (spam : bool) (text lang : string) (w w' : World)
    (o : option VeracityAnalysis) :
  _get_veracity_analysis settings pt spam text lang w = (Ok o, w') ->
  (_should_perform_veracity_check settings pt spam = false /\ o = None /\ w' = w) \/
  (_should_perform_veracity_check settings pt spam = true /\
   exists st j m s,
     analyze_veracity settings text lang w = (Ok (st, PyStr j, PyStr m), w') /\
     _map_veracity_status st = Ok s /\
     o = Some {| status := s; justification := j; verification_method := m;
                 sources := [] |}).
Proof.
  unfold _get_veracity_analysis. intros H.
  destruct (_should_perform_veracity_check settings pt spam).
  - right. split; [reflexivity |]. simpl in H. unfold bind, lift, ret in H.
    destruct (analyze_veracity settings text lang w)
      as [[[[st j] m] | e] w1]; [| discriminate].
    destruct (_map_veracity_status st) as [s |] eqn:Es; [| discriminate].
    unfold VeracityAnalysis_init, rbind, validate_str in H.
    destruct j; try discriminate. destruct m; try discriminate.
    injection H as <- <-. do 4 eexists. repeat split. exact Es.
  - left. simpl in H. unfold ret in H. injection H as <- <-. repeat split.
Qed.

(** X7.  A result that says spam has the post type Promotion, carries no
    veracity analysis, no nuance analysis and no processing error, and
    after the triage no gateway operation was called for it: the world is
    the one the triage left. *)
Theorem spam_result_is_promotion_and_ends_after_triage
    (settings : Settings) (str : exn -> string)
    (list_gt : list pyval -> list pyval -> result bool)
    (id text lang : string) (w : World) :
  let run := perform_full_analysis settings str list_gt id text lang w in
  is_spam (post_analysis (fst run)) = true ->
  post_type (post_analysis (fst run)) = PROMOTION /\
  veracity_analysis (fst run) = None /\
  nuance_analysis (fst run) = None /\
  processing_error (fst run) = None /\
  _run_triage settings list_gt text lang w = (Ok (PROMOTION, true), snd run).
Proof.
  intros run Hspam. subst run.
  pose proof (perform_full_analysis_cases settings str list_gt id text lang w) as Hc.
  destruct (perform_full_analysis settings str list_gt id text lang w) as [r w'].
  simpl in *.
  destruct Hc as [[pt [spam [va [na [Hst Hr]]]]] | [e [_ Hr]]];
    subst r; simpl in Hspam; [| discriminate Hspam].
  subst spam. simpl.
  destruct (stages_ok_inv _ _ _ _ _ _ _ _ _ _ Hst) as [w1 [w2 [Ht [Hv Hn]]]].
  destruct (run_triage_inv _ _ _ _ _ _ _ _ Ht) as [label [conf [m [_ [Hd [Hp _]]]]]].
  assert (Hpt : pt = PROMOTION).
  { destruct (detect_spam_spec settings list_gt label conf true Hd) as [n [_ Hiff]].
    destruct Hiff as [Hiff _]. destruct (Hiff eq_refl) as [[-> | ->] _];
      simpl in Hp; injection Hp as <-; reflexivity. }
  subst pt.
  destruct (get_veracity_analysis_inv _ _ _ _ _ _ _ _ Hv)
    as [[_ [-> ->]] | [G _]].
  - destruct (get_nuance_analysis_inv _ _ _ _ _ _ _ _ Hn)
      as [[_ [-> ->]] | [Hs _]]; [| discriminate Hs].
    repeat split. exact Ht.
  - unfold _should_perform_veracity_check in G. simpl in G. discriminate G.
Qed.

(** X7, a run: the German label with confidence 0.95. *)
Lemma spam_result_is_promotion_and_ends_after_triage_witness :
  let settings := configure "sk-key" true true in
  let w := fresh (fun _ => classified "Werbung / Spam" (95 # 100)) in
  let run := perform_full_analysis settings example_str no_list_order
               "p1" "Nur heute!" "de" w in
  is_spam (post_analysis (fst run)) = true /\
  post_type (post_analysis (fst run)) = PROMOTION /\
  length (requests (snd run)) = 1%nat.
Proof.
  intros settings w run.
  assert (H : is_spam (post_analysis (fst run)) = true) by reflexivity.
  split; [exact H |].
  destruct (spam_result_is_promotion_and_ends_after_triage settings example_str
              no_list_order "p1" "Nur heute!" "de" w H) as [Hp _].
  split; [exact Hp | reflexivity].
Defined.

(** X8.  A result that carries a veracity analysis has the post type
    FactualClaim, is not spam and has no processing error; the sources of
    the veracity analysis are empty, and its status, justification and
    verification method are those that [analyze_veracity] returned when it
    was called in the world that the triage of this run left, after a
    triage that said FactualClaim and not spam. *)
Theorem veracity_analysis_only_for_factual_claims
    (settings : Settings) (str : exn -> string)
    (list_gt : list pyval -> list pyval -> result bool)
    (id text lang : string) (w : World) (va : VeracityAnalysis) :
  let r := fst (perform_full_analysis settings str list_gt id text lang w) in
  veracity_analysis r = Some va ->
  post_analysis r = {| post_type := FACTUAL_CLAIM; is_spam := false |} /\
  processing_error r = None /\
  ENABLE_VERACITY_CHECK settings = true /\
  sources va = [] /\
  exists w1 w2 st,
    _run_triage settings list_gt text lang w = (Ok (FACTUAL_CLAIM, false), w1) /\
    analyze_veracity settings text lang w1 =
      (Ok (st, PyStr (justification va), PyStr (verification_method va)), w2) /\
    _map_veracity_status st = Ok (status va).
Proof.
  intros r Hva. subst r.
  pose proof (perform_full_analysis_cases settings str list_gt id text lang w) as Hc.
  destruct (perform_full_analysis settings str list_gt id text lang w) as [r w'].
  simpl in *.
  destruct Hc as [[pt [spam [va0 [na [Hst Hr]]]]] | [e [_ Hr]]];
    subst r; simpl in Hva; [| discriminate Hva].
  subst va0. simpl.
  destruct (stages_ok_inv _ _ _ _ _ _ _ _ _ _ Hst) as [w1 [w2 [Ht [Hv _]]]].
  destruct (get_veracity_analysis_inv _ _ _ _ _ _ _ _ Hv)
    as [[_ [Hnone _]] | [G [st [j [m [s [Ha [Hs Hsome]]]]]]]]; [discriminate Hnone |].
  injection Hsome as ->. simpl.
  unfold _should_perform_veracity_check in G.
  apply andb_true_iff in G. destruct G as [G Hflag].
  apply andb_true_iff in G. destruct G as [Hpt Hspam].
  apply PostType_eqb_eq in Hpt. apply negb_true_iff in Hspam. subst pt spam.
  repeat split; try assumption.
  exists w1, w2, st. split; [exact Ht |]. split; assumption.
Qed.

(** X8, a run: a factual claim that the model finds correct. *)
Lemma veracity_analysis_only_for_factual_claims_witness :
  let settings := configure "sk-key" true false in
  let w := fresh (fun n => match n with
                           | O => classified "Factual Claim" (8 # 10)
                           | _ => Returns (Json (PyDict
                                    [("status", PyStr "Factually Correct");
                                     ("justification", PyStr "Well known.")]))
                           end) in
  let r := fst (perform_full_analysis settings example_str no_list_order
                  "p1" "Ice floats on water." "en" w) in
  let va := {| status := FACTUALLY_CORRECT; justification := "Well known.";
               verification_method := "No method specified"; sources := [] |} in
  veracity_analysis r = Some va /\
  post_analysis r = {| post_type := FACTUAL_CLAIM; is_spam := false |}.
Proof.
  intros settings w r va.
  assert (H : veracity_analysis r = Some va) by reflexivity.
  split; [exact H |].
  destruct (veracity_analysis_only_for_factual_claims settings example_str
              no_list_order "p1" "Ice floats on water." "en" w va H) as [Hp _].
  exact Hp.
Defined.

(** ** What an analysis costs: requests and seconds of sleep *)

Lemma costs_ret {A} (a : A) : costs 0 0 (ret a).
Proof. intros w. simpl. lia. Qed.

Lemma costs_lift {A} (r : result A) : costs 0 0 (lift r).
Proof. intros w. simpl. lia. Qed.

Lemma costs_more {A} (n n' : nat) (s s' : Z) (m : M A) :
  (n <= n')%nat -> (s <= s')%Z -> costs n s m -> costs n' s' m.
Proof. intros Hn Hs H w. specialize (H w). lia. Qed.

Lemma costs_bind {A B} (n1 n2 : nat) (s1 s2 : Z) (m : M A) (k : A -> M B) :
  (0 <= s2)%Z ->
  costs n1 s1 m -> (forall a, costs n2 s2 (k a)) ->
  costs (n1 + n2) (s1 + s2) (bind m k).
Proof.
  intros Hs Hm Hk w. unfold bind. specialize (Hm w).
  destruct (m w) as [[a | e] w1]; simpl in *.
  - specialize (Hk a w1). lia.
  - lia.
Qed.

Lemma costs_try {A} (n1 n2 : nat) (s1 s2 : Z) (body : M A) (handler : exn -> M A) :
  (0 <= s2)%Z ->
  costs n1 s1 body -> (forall e, costs n2 s2 (handler e)) ->
  costs (n1 + n2) (s1 + s2) (try_except_Exception body handler).
Proof.
  intros Hs Hb Hh w. unfold try_except_Exception. specialize (Hb w).
  destruct (body w) as [[a | e] w1]; simpl in *.
  - lia.
  - specialize (Hh e w1). lia.
Qed.

Lemma slept_app (w : World) (more : list Z) (w' : World) :
  sleeps w' = sleeps w ++ more ->
  slept w' = (slept w + fold_right Z.add 0 more)%Z.
Proof.
  unfold slept. intros ->. induction (sleeps w) as [| x l IH]; simpl.
  - reflexivity.
  - rewrite IH. lia.
Qed.

(** One call of [_make_api_call]: at most 3 requests and 1 + 2 seconds. *)
Lemma costs_make_api_call (p : prompt) : costs 3 3 (_make_api_call p).
Proof.
  intros w. unfold _make_api_call, _make_api_call_with.
  destruct (retry_loop_spec p 3 3 0 w eq_refl) as [n [Hle [_ [Hw _]]]].
  rewrite Hw.
  rewrite (slept_app w (map (fun k => 2 ^ Z.of_nat k)%Z (seq 0 (n - 1)))
             (after_attempts p 0 n w) eq_refl).
  simpl requests. rewrite length_app, repeat_length.
  destruct n as [| [| [| [| n]]]]; simpl; lia.
Qed.

Section Costs.

Variable settings : Settings.
Variable str : exn -> string.
Variable list_gt : list pyval -> list pyval -> result bool.

Lemma costs_classify_post_type (text lang : string) :
  costs 3 3 (classify_post_type settings text lang).
Proof.
  unfold classify_post_type. destruct (negb (enabled settings)).
  - apply (costs_more 0 3 0 3); [lia | lia | apply costs_lift].
  - apply (costs_try 3 0 3 0); [lia | | intros e; apply costs_lift].
    apply (costs_bind 3 0 3 0); [lia | apply costs_make_api_call |].
    intros response. apply costs_lift.
Qed.

Lemma costs_analyze_political_tendency (text lang : string) :
  costs 3 3 (analyze_political_tendency settings text lang).
Proof.
  unfold analyze_political_tendency. destruct (negb (enabled settings)).
  - apply (costs_more 0 3 0 3); [lia | lia | apply costs_lift].
  - apply (costs_try 3 0 3 0); [lia | | intros e; apply costs_lift].
    apply (costs_bind 3 0 3 0); [lia | apply costs_make_api_call |].
    intros response. apply costs_lift.
Qed.

Lemma costs_analyze_intents (text lang : string) :
  costs 3 3 (analyze_intents settings text lang).
Proof.
  unfold analyze_intents. destruct (negb (enabled settings)).
  - apply (costs_more 0 3 0 3); [lia | lia | apply costs_lift].
  - apply (costs_try 3 0 3 0); [lia | | intros e; apply costs_lift].
    apply (costs_bind 3 0 3 0); [lia | apply costs_make_api_call |].
    intros response. apply costs_lift.
Qed.

Lemma costs_analyze_veracity (text lang : string) :
  costs 3 3 (analyze_veracity settings text lang).
Proof.
  unfold analyze_veracity. destruct (negb (enabled settings)).
  - apply (costs_more 0 3 0 3); [lia | lia | apply costs_lift].
  - apply (costs_try 3 0 3 0); [lia | | intros e; apply costs_lift].
    apply (costs_bind 3 0 3 0); [lia | apply costs_make_api_call |].
    intros response. apply costs_lift.
Qed.

Lemma costs_run_triage (text lang : string) :
  costs 3 3 (_run_triage settings list_gt text lang).
Proof.
  unfold _run_triage.
  apply (costs_bind 3 0 3 0); [lia | apply costs_classify_post_type |].
  intros [[primary_label confidence] mapping].
  apply (costs_bind 0 0 0 0); [lia | apply costs_lift | intros spam].
  apply (costs_bind 0 0 0 0); [lia | apply costs_lift | intros pt].
  apply (costs_bind 0 0 0 0); [lia | apply costs_lift | intros u].
  apply costs_ret.
Qed.

Lemma costs_get_veracity_analysis (pt : PostType) (spam : bool) (text lang : string) :
  costs 3 3 (_get_veracity_analysis settings pt spam text lang).
Proof.
  unfold _get_veracity_analysis.
  destruct (negb (_should_perform_veracity_check settings pt spam)).
  - apply (costs_more 0 3 0 3); [lia | lia | apply costs_ret].
  - apply (costs_bind 3 0 3 0); [lia | apply costs_analyze_veracity |].
    intros [[st j] m].
    apply (costs_bind 0 0 0 0); [lia | apply costs_lift | intros s].
    apply (costs_bind 0 0 0 0); [lia | apply costs_lift | intros va].
    apply costs_ret.
Qed.

Lemma costs_get_nuance_analysis (spam : bool) (text lang : string) :
  costs 6 6 (_get_nuance_analysis settings list_gt spam text lang).
Proof.
  unfold _get_nuance_analysis.
  destruct (spam || negb (ENABLE_NUANCE_ANALYSIS settings)).
  - apply (costs_more 0 6 0 6); [lia | lia | apply costs_ret].
  - apply (costs_bind 3 3 3 3); [lia | apply costs_analyze_political_tendency |].
    intros political_scores.
    apply (costs_bind 3 0 3 0); [lia | apply costs_analyze_intents |].
    intros intent_scores.
    apply (costs_bind 0 0 0 0); [lia | apply costs_lift | intros pa].
    apply (costs_bind 0 0 0 0); [lia | apply costs_lift | intros detected].
    apply costs_ret.
Qed.

Lemma costs_stages (text lang : string) :
  costs 12 12 (stages settings list_gt text lang).
Proof.
  unfold stages.
  apply (costs_bind 3 9 3 9); [lia | apply costs_run_triage |].
  intros [pt spam].
  apply (costs_bind 3 6 3 6); [lia | apply costs_get_veracity_analysis |].
  intros va.
  apply (costs_bind 6 0 6 0); [lia | apply costs_get_nuance_analysis |].
  intros na. apply costs_ret.
Qed.

End Costs.

(** X9.  One call of [perform_full_analysis] sends at most 12 requests to
    the API (four gateway operations of three attempts) and sleeps at most
    12 seconds between them (1 + 2 for each operation); it never takes a
    request or a sleep back.  The bound is met when a key is configured,
    both flags are on and every attempt fails. *)
Theorem analysis_sends_at_most_twelve_requests
    (settings : Settings) (str : exn -> string)
    (list_gt : list pyval -> list pyval -> result bool)
    (id text lang : string) (w : World) :
  let w' := snd (perform_full_analysis settings str list_gt id text lang w) in
  (length (requests w) <= length (requests w') <= length (requests w) + 12)%nat /\
  (slept w <= slept w' <= slept w + 12)%Z /\
  (let busy := snd (perform_full_analysis (configure "sk-key" true true)
                      example_str no_list_order "p1" "A post." "en"
                      (fresh (fun _ => Fails (VendorError "overloaded")))) in
   length (requests busy) = 12%nat /\ slept busy = 12%Z).
Proof.
  intros w'.
  assert (Hw : w' = snd (stages settings list_gt text lang w)).
  { subst w'. unfold perform_full_analysis.
    destruct (stages settings list_gt text lang w)
      as [[[[[pt spam] va] na] | e] w1]; reflexivity. }
  rewrite Hw.
  pose proof (costs_stages settings list_gt text lang w) as H.
  split; [apply H |]. split; [apply H |].
  vm_compute. split; reflexivity.
Qed.

(** ** Without an API key nothing is sent *)

Lemma constant_ret {A} (a : A) : constant (ret a).
Proof. exists (Ok a). intros w. reflexivity. Qed.

Lemma constant_lift {A} (r : result A) : constant (lift r).
Proof. exists r. intros w. reflexivity. Qed.

Lemma constant_bind {A B} (m : M A) (k : A -> M B) :
  constant m -> (forall a, constant (k a)) -> constant (bind m k).
Proof.
  intros [r Hm] Hk. destruct r as [a | e].
  - destruct (Hk a) as [r' Hk']. exists r'. intros w. unfold bind.
    rewrite Hm. apply Hk'.
  - exists (Raise e). intros w. unfold bind. rewrite Hm. reflexivity.
Qed.

Section WithoutKey.

Variable settings : Settings.
Hypothesis Hoff : enabled settings = false.
Variable list_gt : list pyval -> list pyval -> result bool.

Lemma classify_post_type_off (text lang : string) :
  classify_post_type settings text lang =
  lift (_get_default_classification settings lang).
Proof. unfold classify_post_type. rewrite Hoff. reflexivity. Qed.

Lemma analyze_political_tendency_off (text lang : string) :
  analyze_political_tendency settings text lang =
  lift (_get_default_political_analysis settings lang).
Proof. unfold analyze_political_tendency. rewrite Hoff. reflexivity. Qed.

Lemma analyze_intents_off (text lang : string) :
  analyze_intents settings text lang =
  lift (_get_default_intent_analysis settings lang).
Proof. unfold analyze_intents. rewrite Hoff. reflexivity. Qed.

Lemma analyze_veracity_off (text lang : string) :
  analyze_veracity settings text lang =
  lift (_get_default_veracity_analysis text lang).
Proof. unfold analyze_veracity. rewrite Hoff. reflexivity. Qed.

Lemma stages_off_any_text (text text' lang : string) :
  stages settings list_gt text lang = stages settings list_gt text' lang.
Proof.
  unfold stages, _run_triage, _get_veracity_analysis, _get_nuance_analysis.
  rewrite !classify_post_type_off, !analyze_veracity_off,
    !analyze_political_tendency_off, !analyze_intents_off.
  reflexivity.
Qed.

Lemma constant_stages (text lang : string) :
  constant (stages settings list_gt text lang).
Proof.
  unfold stages, _run_triage, _get_veracity_analysis, _get_nuance_analysis.
  rewrite classify_post_type_off, analyze_veracity_off,
    analyze_political_tendency_off, analyze_intents_off.
  apply constant_bind.
  - apply constant_bind; [apply constant_lift |].
    intros [[primary_label confidence] mapping].
    repeat (apply constant_bind; [apply constant_lift | intros ?]).
    apply constant_ret.
  - intros [pt spam]. apply constant_bind.
    + destruct (negb (_should_perform_veracity_check settings pt spam)).
      * apply constant_ret.
      * apply constant_bind; [apply constant_lift |].
        intros [[st j] m].
        repeat (apply constant_bind; [apply constant_lift | intros ?]).
        apply constant_ret.
    + intros va. apply constant_bind; [| intros na; apply constant_ret].
      destruct (spam || negb (ENABLE_NUANCE_ANALYSIS settings)).
      * apply constant_ret.
      * repeat (apply constant_bind; [apply constant_lift | intros ?]).
        apply constant_ret.
Qed.

End WithoutKey.

(** X10.  With an empty API key, whatever the label sets and the flags,
    [perform_full_analysis] returns the world as it found it: no request
    is sent and no second is slept, in whichever stage.  Its result is
    then the same for every post text and every behaviour of the API. *)
Theorem without_api_key_nothing_is_sent
    (settings : Settings) (str : exn -> string)
    (list_gt : list pyval -> list pyval -> result bool)
    (id text lang : string) (w : World) :
  ANTHROPIC_API_KEY settings = EmptyString ->
  snd (perform_full_analysis settings str list_gt id text lang w) = w /\
  (forall text' w',
      utcnow w' = utcnow w ->
      fst (perform_full_analysis settings str list_gt id text' lang w') =
      fst (perform_full_analysis settings str list_gt id text lang w)).
Proof.
  intros Hkey.
  assert (Hoff : enabled settings = false).
  { unfold enabled. rewrite Hkey. reflexivity. }
  destruct (constant_stages settings Hoff list_gt text lang) as [r Hr].
  split.
  - unfold perform_full_analysis. rewrite Hr.
    destruct r as [[[[pt spam] va] na] | e]; reflexivity.
  - intros text' w' Hclock. unfold perform_full_analysis.
    rewrite (stages_off_any_text settings Hoff list_gt text' text lang).
    rewrite !Hr.
    destruct r as [[[[pt spam] va] na] | e]; simpl;
      unfold _build_analysis_response, failure_response, timestamp;
      rewrite Hclock; reflexivity.
Qed.

(** X10, a run: the defaults of [config.py], which hold no API key. *)
Lemma without_api_key_nothing_is_sent_witness :
  let w := fresh (fun _ => Returns (Malformed "never asked")) in
  ANTHROPIC_API_KEY default_settings = EmptyString /\
  snd (perform_full_analysis default_settings example_str no_list_order
         "p1" "A post." "de" w) = w.
Proof.
  intros w.
  assert (H : ANTHROPIC_API_KEY default_settings = EmptyString) by reflexivity.
  split; [exact H |].
  apply (without_api_key_nothing_is_sent default_settings example_str
           no_list_order "p1" "A post." "de" w H).
Defined.

(** ** The nuance analysis of uniform scores *)

Lemma nuance_of_uniform_scores (api_key : string) (veracity nuance : bool)
    (list_gt : list pyval -> list pyval -> result bool) (lang : string) :
  let settings := configure api_key veracity nuance in
  _build_political_analysis list_gt (uniform (_get_political_labels settings lang)) lang =
    Ok (political_tendency (fallback_nuance_analysis settings lang)) /\
  _build_intent_list settings list_gt (uniform (_get_intent_labels settings lang)) lang =
    Ok [].
Proof.
  unfold fallback_nuance_analysis, _get_political_labels, _get_intent_labels.
  destruct (String.eqb lang "de"); split; reflexivity.
Qed.

Lemma get_nuance_analysis_falls_back_exact
    (api_key : string) (veracity nuance : bool)
    (list_gt : list pyval -> list pyval -> result bool)
    (text lang : string) (w : World) :
  let settings := configure api_key veracity nuance in
  falls_back settings w ->
  exists w',
    _get_nuance_analysis settings list_gt false text lang w =
    (Ok (if nuance then Some (fallback_nuance_analysis settings lang) else None), w') /\
    falls_back settings w'.
Proof.
  intros settings H. unfold _get_nuance_analysis.
  destruct nuance eqn:En; simpl.
  - destruct (analyze_political_tendency_falls_back settings text lang w H)
      as [w1 [E1 H1]].
    destruct (analyze_intents_falls_back settings text lang w1 H1) as [w2 [E2 H2]].
    exists w2. split; [| exact H2].
    unfold bind. fold settings. rewrite E1. simpl. rewrite E2.
    unfold _get_default_political_analysis, _get_default_intent_analysis, lift.
    destruct (nuance_of_uniform_scores api_key veracity true list_gt lang)
      as [Hp Hi].
    fold settings in Hp, Hi. rewrite Hp, Hi. reflexivity.
  - exists w. split; [reflexivity | exact H].
Qed.

(** X11.  When the gateway falls back at every step, because no key is
    configured or because every API call fails, the nuance analysis of the
    result, when the flag asks for one, is built from uniform scores: the
    primary political tendency is Left, the first label, by the tie-break
    of [max]; each political score is rounded to 0.1667; no intent is
    detected.  The post type is FactualClaim and the veracity analysis,
    when the flag asks for one, is Unverifiable. *)
Theorem fallback_result_reports_left
    (api_key : string) (veracity nuance : bool) (str : exn -> string)
    (list_gt : list pyval -> list pyval -> result bool)
    (id text lang : string) (w : World) :
  let settings := configure api_key veracity nuance in
  let run := perform_full_analysis settings str list_gt id text lang w in
  falls_back settings w ->
  fst run =
    _build_analysis_response id lang FACTUAL_CLAIM false
      (if veracity then Some default_veracity_analysis else None)
      (if nuance then Some (fallback_nuance_analysis settings lang) else None)
      None (snd run) /\
  primary (political_tendency (fallback_nuance_analysis settings lang)) = LEFT /\
  map snd (scores (political_tendency (fallback_nuance_analysis settings lang))) =
    repeat (Flt (Finite (1667 # 10000))) 6.
Proof.
  intros settings run H.
  destruct (run_triage_falls_back api_key veracity nuance list_gt text lang w H)
    as [w1 [E1 H1]].
  destruct (get_veracity_analysis_falls_back api_key veracity nuance text lang w1 H1)
    as [w2 [E2 H2]].
  destruct (get_nuance_analysis_falls_back_exact api_key veracity nuance list_gt
              text lang w2 H2) as [w3 [E3 H3]].
  cbv zeta in E1, E2, E3.
  split; [| split].
  - subst run. unfold perform_full_analysis, stages, bind. subst settings.
    rewrite E1, E2, E3. reflexivity.
  - reflexivity.
  - unfold fallback_nuance_analysis, _get_political_labels.
    destruct (String.eqb lang "de"); reflexivity.
Qed.

(** X11, a run: a key is configured, the API times out at every attempt. *)
Lemma fallback_result_reports_left_witness :
  let settings := configure "sk-key" false true in
  let w := fresh (fun _ => Fails (VendorError "timeout")) in
  let r := fst (perform_full_analysis settings example_str no_list_order
                  "p1" "Ein Beitrag." "de" w) in
  falls_back settings w /\
  nuance_analysis r = Some (fallback_nuance_analysis settings "de").
Proof.
  intros settings w r.
  assert (H : falls_back settings w).
  { right. split; [reflexivity |]. intros n. eexists. reflexivity. }
  split; [exact H |].
  destruct (fallback_result_reports_left "sk-key" false true example_str
              no_list_order "p1" "Ein Beitrag." "de" w H) as [E _].
  subst r settings. cbv zeta in E. rewrite E. reflexivity.
Defined.

(** ** A language other than "de" is English *)

Lemma agree_ret {A} (a : A) : agree (ret a) (ret a).
Proof. intros w1 w2 H. split; [reflexivity | exact H]. Qed.

Lemma agree_lift {A} (r : result A) : agree (lift r) (lift r).
Proof. intros w1 w2 H. split; [reflexivity | exact H]. Qed.

Lemma agree_bind {A B} (m1 m2 : M A) (k1 k2 : A -> M B) :
  agree m1 m2 -> (forall a, agree (k1 a) (k2 a)) ->
  agree (bind m1 k1) (bind m2 k2).
Proof.
  intros Hm Hk w1 w2 H. unfold bind. destruct (Hm w1 w2 H) as [Hv Hw].
  destruct (m1 w1) as [r1 w1'], (m2 w2) as [r2 w2']. simpl in Hv, Hw. subst r2.
  destruct r1 as [a | e].
  - apply Hk. exact Hw.
  - split; [reflexivity | exact Hw].
Qed.

Lemma agree_try {A} (b1 b2 : M A) (h1 h2 : exn -> M A) :
  agree b1 b2 -> (forall e, agree (h1 e) (h2 e)) ->
  agree (try_except_Exception b1 h1) (try_except_Exception b2 h2).
Proof.
  intros Hb Hh w1 w2 H. unfold try_except_Exception.
  destruct (Hb w1 w2 H) as [Hv Hw].
  destruct (b1 w1) as [r1 w1'], (b2 w2) as [r2 w2']. simpl in Hv, Hw. subst r2.
  destruct r1 as [a | e].
  - split; [reflexivity | exact Hw].
  - apply Hh. exact Hw.
Qed.

(** The reply does not depend on the prompt, only on its place. *)
Lemma agree_messages_create (p1 p2 : prompt) :
  agree (messages_create p1) (messages_create p2).
Proof.
  intros w1 w2 [Ha [Hl [Hs Hc]]]. unfold messages_create.
  rewrite Ha, Hl.
  destruct (api w2 (length (requests w2))); simpl;
    (split; [reflexivity |]); unfold alike; simpl;
    rewrite !length_app, Hl; repeat split; assumption.
Qed.

Lemma agree_time_sleep (s : Z) : agree (time_sleep s) (time_sleep s).
Proof.
  intros w1 w2 [Ha [Hl [Hs Hc]]]. unfold time_sleep. simpl.
  split; [reflexivity |]. unfold alike. simpl. rewrite Hs.
  repeat split; assumption.
Qed.

Lemma agree_retry_loop (p1 p2 : prompt) (max_retries : nat) (attempts : list nat) :
  agree (retry_loop p1 max_retries attempts) (retry_loop p2 max_retries attempts).
Proof.
  induction attempts as [| attempt rest IH]; simpl.
  - apply agree_ret.
  - apply agree_try.
    + apply agree_bind; [apply agree_messages_create |].
      intros t. apply agree_ret.
    + intros e. destruct (attempt <? max_retries - 1)%nat.
      * apply agree_bind; [apply agree_time_sleep | intros u; exact IH].
      * apply agree_lift.
Qed.

Lemma agree_make_api_call (p1 p2 : prompt) :
  agree (_make_api_call p1) (_make_api_call p2).
Proof. apply agree_retry_loop. Qed.

Lemma build_intent_list_any_language (settings : Settings)
    (list_gt : list pyval -> list pyval -> result bool)
    (mapping : pyval) (lang lang' : string) :
  _build_intent_list settings list_gt mapping lang =
  _build_intent_list settings list_gt mapping lang'.
Proof.
  unfold _build_intent_list, rbind.
  destruct (getattr_items mapping) as [its |]; [| reflexivity].
  destruct (above_threshold settings list_gt its) as [detected |]; [| reflexivity].
  rewrite !map_intents_spec. reflexivity.
Qed.

Section OtherLanguage.

Variable settings : Settings.
Variable list_gt : list pyval -> list pyval -> result bool.
Variable lang : string.
Hypothesis Hlang : String.eqb lang "de" = false.

Lemma labels_of_other_language :
  _get_post_type_labels settings lang = _get_post_type_labels settings "en" /\
  _get_political_labels settings lang = _get_political_labels settings "en" /\
  _get_intent_labels settings lang = _get_intent_labels settings "en".
Proof.
  unfold _get_post_type_labels, _get_political_labels, _get_intent_labels.
  rewrite Hlang. repeat split.
Qed.

Lemma agree_classify_post_type (text : string) :
  agree (classify_post_type settings text lang)
        (classify_post_type settings text "en").
Proof.
  destruct labels_of_other_language as [E _].
  unfold classify_post_type, _get_default_classification. rewrite E.
  destruct (negb (enabled settings)).
  - apply agree_lift.
  - apply agree_try.
    + apply agree_bind; [apply agree_make_api_call |].
      intros response. apply agree_lift.
    + intros e. apply agree_lift.
Qed.

Lemma agree_analyze_political_tendency (text : string) :
  agree (analyze_political_tendency settings text lang)
        (analyze_political_tendency settings text "en").
Proof.
  destruct labels_of_other_language as [_ [E _]].
  unfold analyze_political_tendency, _get_default_political_analysis. rewrite E.
  destruct (negb (enabled settings)).
  - apply agree_lift.
  - apply agree_try.
    + apply agree_bind; [apply agree_make_api_call |].
      intros response. apply agree_lift.
    + intros e. apply agree_lift.
Qed.

Lemma agree_analyze_intents (text : string) :
  agree (analyze_intents settings text lang)
        (analyze_intents settings text "en").
Proof.
  destruct labels_of_other_language as [_ [_ E]].
  unfold analyze_intents, _get_default_intent_analysis. rewrite E.
  destruct (negb (enabled settings)).
  - apply agree_lift.
  - apply agree_try.
    + apply agree_bind; [apply agree_make_api_call |].
      intros response. apply agree_lift.
    + intros e. apply agree_lift.
Qed.

Lemma agree_analyze_veracity (text : string) :
  agree (analyze_veracity settings text lang)
        (analyze_veracity settings text "en").
Proof.
  unfold analyze_veracity.
  destruct (negb (enabled settings)).
  - apply agree_lift.
  - apply agree_try.
    + apply agree_bind; [apply agree_make_api_call |].
      intros response. apply agree_lift.
    + intros e. apply agree_lift.
Qed.

Lemma agree_stages (text : string) :
  agree (stages settings list_gt text lang) (stages settings list_gt text "en").
Proof.
  unfold stages. apply agree_bind.
  - unfold _run_triage. apply agree_bind; [apply agree_classify_post_type |].
    intros [[primary_label confidence] mapping].
    apply agree_bind; [apply agree_lift | intros spam].
    apply agree_bind; [apply agree_lift | intros pt].
    apply agree_bind; [apply agree_lift | intros u].
    apply agree_ret.
  - intros [pt spam]. apply agree_bind.
    + unfold _get_veracity_analysis.
      destruct (negb (_should_perform_veracity_check settings pt spam)).
      * apply agree_ret.
      * apply agree_bind; [apply agree_analyze_veracity |].
        intros [[st j] m].
        apply agree_bind; [apply agree_lift | intros s].
        apply agree_bind; [apply agree_lift | intros va].
        apply agree_ret.
    + intros va. apply agree_bind; [| intros na; apply agree_ret].
      unfold _get_nuance_analysis.
      destruct (spam || negb (ENABLE_NUANCE_ANALYSIS settings)).
      * apply agree_ret.
      * apply agree_bind; [apply agree_analyze_political_tendency | intros ps].
        apply agree_bind; [apply agree_analyze_intents | intros iscores].
        apply agree_bind; [apply agree_lift | intros pa].
        rewrite (build_intent_list_any_language settings list_gt iscores lang "en").
        apply agree_bind; [apply agree_lift | intros detected].
        apply agree_ret.
Qed.

End OtherLanguage.

Lemma alike_refl (w : World) : alike w w.
Proof. repeat split. Qed.

(** X12.  Every language other than "de", such as "fr", "DE" or the empty
    string, is handled as English: the English label sets are used, and
    against the same replies of the API the result is the one for "en" in
    every field but [language], which repeats the language of the
    request. *)
Theorem other_languages_are_handled_as_english
    (settings : Settings) (str : exn -> string)
    (list_gt : list pyval -> list pyval -> result bool)
    (id text lang : string) (w : World) :
  lang <> "de" ->
  let r := fst (perform_full_analysis settings str list_gt id text lang w) in
  let en := fst (perform_full_analysis settings str list_gt id text "en" w) in
  _get_post_type_labels settings lang = EN_POST_TYPES settings /\
  _get_political_labels settings lang = EN_POLITICAL_LABELS settings /\
  _get_intent_labels settings lang = EN_INTENT_LABELS settings /\
  post_analysis r = post_analysis en /\
  veracity_analysis r = veracity_analysis en /\
  nuance_analysis r = nuance_analysis en /\
  processing_error r = processing_error en /\
  analysis_timestamp r = analysis_timestamp en /\
  language r = lang.
Proof.
  intros Hne r en.
  assert (Hlang : String.eqb lang "de" = false).
  { destruct (String.eqb lang "de") eqn:E; [| reflexivity].
    apply String.eqb_eq in E. contradiction. }
  destruct (labels_of_other_language settings lang Hlang) as [E1 [E2 E3]].
  split; [exact E1 |]. split; [exact E2 |]. split; [exact E3 |].
  destruct (agree_stages settings list_gt lang Hlang text w w (alike_refl w))
    as [Hv [_ [_ [_ Hc]]]].
  subst r en. unfold perform_full_analysis.
  destruct (stages settings list_gt text lang w) as [r1 w1].
  destruct (stages settings list_gt text "en" w) as [r2 w2].
  simpl in Hv, Hc. subst r2.
  destruct r1 as [[[[pt spam] va] na] | e]; simpl;
    unfold timestamp; rewrite Hc; repeat split.
Qed.

(** X12, a run: a French post, answered as an English one would be. *)
Lemma other_languages_are_handled_as_english_witness :
  let settings := configure "sk-key" true true in
  let w := fresh (fun _ => classified "Question" (9 # 10)) in
  "fr" <> "de" /\
  post_analysis (fst (perform_full_analysis settings example_str no_list_order
                        "p1" "Pourquoi ?" "fr" w)) =
  post_analysis (fst (perform_full_analysis settings example_str no_list_order
                        "p1" "Pourquoi ?" "en" w)).
Proof.
  intros settings w.
  assert (H : "fr" <> "de") by discriminate.
  split; [exact H |].
  apply (other_languages_are_handled_as_english settings example_str
           no_list_order "p1" "Pourquoi ?" "fr" w H).
Defined.

(** ** When the triage raises *)

(** X13.  The gateway hands the primary label and the confidence of the
    reply to the triage unchecked, and the triage returns exactly when the
    confidence is a number, the primary label is neither a list nor a
    dict, and the confidence, if an int, is small enough for a float.  It
    raises a TypeError on a confidence that is not a number (a string,
    null, a list) or on a label that cannot be hashed, and an
    OverflowError, from formatting the log line, on a huge int.  A label
    that is not a string (a number, null) is accepted and gives the post
    type Opinion. *)
Theorem triage_raises_on_untyped_reply
    (settings : Settings) (list_gt : list pyval -> list pyval -> result bool)
    (text lang : string) (w w' : World) (primary_label confidence mapping : pyval) :
  classify_post_type settings text lang w =
    (Ok (primary_label, confidence, mapping), w') ->
  let triage := fst (_run_triage settings list_gt text lang w) in
  ((exists pt spam, triage = Ok (pt, spam)) <->
   is_number confidence && hashable primary_label && fits_float confidence = true) /\
  (is_number confidence = false -> triage = Raise TypeError) /\
  (is_number confidence = true -> hashable primary_label = false ->
   triage = Raise TypeError) /\
  (is_number confidence = true -> hashable primary_label = true ->
   fits_float confidence = false -> triage = Raise OverflowError) /\
  (is_number confidence = true -> fits_float confidence = true ->
   (forall s, primary_label <> PyStr s) -> hashable primary_label = true ->
   exists spam, triage = Ok (OPINION, spam)).
Proof.
  intros Hc triage. subst triage. unfold _run_triage, bind, lift, ret.
  rewrite Hc. unfold _detect_spam, rbind.
  assert (Hgt : gt list_gt confidence
                  (PyFloat (Finite (SPAM_CONFIDENCE_THRESHOLD settings))) =
                if is_number confidence
                then Ok (greater confidence
                           (PyFloat (Finite (SPAM_CONFIDENCE_THRESHOLD settings))))
                else Raise TypeError).
  { destruct (is_number confidence) eqn:En.
    - apply gt_numbers; [exact En | reflexivity].
    - unfold is_number in En. unfold gt.
      destruct confidence; simpl in *; try discriminate En; reflexivity. }
  rewrite Hgt.
  destruct (is_number confidence) eqn:En; simpl.
  - assert (Hfmt : format_2f confidence =
                   if fits_float confidence then Ok tt else Raise OverflowError).
    { unfold is_number in En.
      destruct confidence; simpl in *; try discriminate En; reflexivity. }
    rewrite Hfmt.
    destruct (fits_float confidence); destruct primary_label; simpl;
      (split; [split; [intros [pt [spam H]]; first [congruence | reflexivity]
                      | intros H; first [congruence | do 2 eexists; reflexivity]] |]);
      (split; [intros H; congruence |]);
      (split; [intros H1 H2; first [congruence | reflexivity] |]);
      (split; [intros H1 H2 H3; first [congruence | reflexivity] |]);
      intros H1 H2 Hs Hh;
      first [congruence
            | eexists; reflexivity
            | exfalso; eapply Hs; reflexivity].
  - split; [split; [intros [pt [spam H]]; discriminate H | intros H; discriminate H] |].
    split; [intros _; reflexivity |].
    split; [intros H; discriminate H |].
    split; [intros H; discriminate H |].
    intros H. discriminate H.
Qed.

(** X13, a run: the model gives its confidence in words. *)
Lemma triage_raises_on_untyped_reply_witness :
  let settings := configure "sk-key" true true in
  let w := fresh (fun _ => Returns (Json (PyDict
                    [("primary_label", PyStr "Question");
                     ("confidence", PyStr "very high")]))) in
  (exists mapping w',
      classify_post_type settings "Why?" "en" w =
      (Ok (PyStr "Question", PyStr "very high", mapping), w')) /\
  fst (_run_triage settings no_list_order "Why?" "en" w) = Raise TypeError.
Proof.
  intros settings w.
  assert (H : classify_post_type settings "Why?" "en" w =
              (Ok (PyStr "Question", PyStr "very high",
                   snd (match fst (classify_post_type settings "Why?" "en" w) with
                        | Ok c => c
                        | Raise _ => (PyNone, PyNone, PyNone)
                        end)),
               snd (classify_post_type settings "Why?" "en" w)))
    by reflexivity.
  split; [do 2 eexists; exact H |].
  destruct (triage_raises_on_untyped_reply settings no_list_order "Why?" "en"
              w _ _ _ _ H) as [_ [T _]].
  apply T. reflexivity.
Defined.

(** ** A model that never answers with JSON *)

Lemma after_request_later (p : prompt) (w : World) :
  all_malformed w -> one_request_later w (after_request p w).
Proof.
  intros H. split; [intros n; exact (H n) |].
  split; [| reflexivity].
  simpl. rewrite length_app. simpl. lia.
Qed.

Lemma classify_post_type_unparsed (api_key : string) (veracity nuance : bool)
    (text lang : string) (w : World) :
  api_key <> EmptyString ->
  all_malformed w ->
  exists first w',
    hd_error (_get_post_type_labels (configure api_key veracity nuance) lang) = Some first /\
    classify_post_type (configure api_key veracity nuance) text lang w =
    (Ok (PyStr first, PyFloat (Finite (1 # 2)),
         uniform (_get_post_type_labels (configure api_key veracity nuance) lang)), w') /\
    one_request_later w w'.
Proof.
  intros Hkey H. destruct (H (length (requests w))) as [raw Hr].
  rewrite (classify_post_type_returns (configure api_key veracity nuance)
             (enabled_configure api_key veracity nuance Hkey) w _ Hr).
  unfold _get_post_type_labels.
  destruct (String.eqb lang "de"); do 2 eexists;
    (split; [reflexivity |]); (split; [reflexivity |]);
    apply after_request_later; exact H.
Qed.

Lemma analyze_political_tendency_unparsed (api_key : string) (veracity nuance : bool)
    (text lang : string) (w : World) :
  api_key <> EmptyString ->
  all_malformed w ->
  exists w',
    analyze_political_tendency (configure api_key veracity nuance) text lang w =
    (Ok (uniform (_get_political_labels (configure api_key veracity nuance) lang)), w') /\
    one_request_later w w'.
Proof.
  intros Hkey H. destruct (H (length (requests w))) as [raw Hr].
  rewrite (analyze_political_tendency_returns (configure api_key veracity nuance)
             (enabled_configure api_key veracity nuance Hkey) w _ Hr).
  eexists. split; [reflexivity |]. apply after_request_later. exact H.
Qed.

Lemma analyze_intents_unparsed (api_key : string) (veracity nuance : bool)
    (text lang : string) (w : World) :
  api_key <> EmptyString ->
  all_malformed w ->
  exists w',
    analyze_intents (configure api_key veracity nuance) text lang w =
    (Ok (uniform (_get_intent_labels (configure api_key veracity nuance) lang)), w') /\
    one_request_later w w'.
Proof.
  intros Hkey H. destruct (H (length (requests w))) as [raw Hr].
  rewrite (analyze_intents_returns (configure api_key veracity nuance)
             (enabled_configure api_key veracity nuance Hkey) w _ Hr).
  eexists. split; [reflexivity |]. apply after_request_later. exact H.
Qed.

Lemma analyze_veracity_unparsed (api_key : string) (veracity nuance : bool)
    (text lang : string) (w : World) :
  api_key <> EmptyString ->
  all_malformed w ->
  exists w',
    analyze_veracity (configure api_key veracity nuance) text lang w =
    (Ok (PyStr "Unverifiable", PyStr "Error in analysis",
         PyStr "No method available"), w') /\
    one_request_later w w'.
Proof.
  intros Hkey H. destruct (H (length (requests w))) as [raw Hr].
  rewrite (analyze_veracity_returns (configure api_key veracity nuance)
             (enabled_configure api_key veracity nuance Hkey) w _ Hr).
  eexists. split; [reflexivity |]. apply after_request_later. exact H.
Qed.

Lemma stages_unparsed (api_key : string) (veracity nuance : bool)
    (list_gt : list pyval -> list pyval -> result bool)
    (text lang : string) (w : World) :
  api_key <> EmptyString ->
  all_malformed w ->
  exists w',
    stages (configure api_key veracity nuance) list_gt text lang w =
    (Ok (FACTUAL_CLAIM, false,
         (if veracity then Some unparsed_veracity_analysis else None),
         (if nuance then Some (fallback_nuance_analysis (configure api_key veracity nuance) lang) else None)),
     w') /\
    length (requests w') =
      (length (requests w) + 1 + (if veracity then 1 else 0) +
       (if nuance then 2 else 0))%nat /\
    sleeps w' = sleeps w.
Proof.
  intros Hkey H.
  destruct (classify_post_type_unparsed api_key veracity nuance text lang w Hkey H)
    as [first [w1 [Hfirst [E1 [H1 [L1 S1]]]]]].
  assert (Et : _run_triage (configure api_key veracity nuance) list_gt text lang w =
               (Ok (FACTUAL_CLAIM, false), w1)).
  { unfold _run_triage, bind. rewrite E1. revert Hfirst.
    unfold _get_post_type_labels.
    destruct (String.eqb lang "de"); simpl; intros Hf; injection Hf as <-;
      reflexivity. }
  assert (Ev : exists w2,
             _get_veracity_analysis (configure api_key veracity nuance) FACTUAL_CLAIM false text lang w1 =
             (Ok (if veracity then Some unparsed_veracity_analysis else None), w2) /\
             all_malformed w2 /\
             length (requests w2) =
               (length (requests w1) + (if veracity then 1 else 0))%nat /\
             sleeps w2 = sleeps w1).
  { unfold _get_veracity_analysis, _should_perform_veracity_check.
    destruct veracity; simpl.
    - destruct (analyze_veracity_unparsed api_key true nuance text lang w1 Hkey H1) as [w2 [E2 [H2 [L2 S2]]]].
      exists w2. unfold bind. rewrite E2.
      split; [reflexivity |]. split; [exact H2 |]. split; [lia | exact S2].
    - exists w1. split; [reflexivity |]. split; [exact H1 |]. split; [lia | reflexivity]. }
  destruct Ev as [w2 [E2 [H2 [L2 S2]]]].
  assert (En : exists w3,
             _get_nuance_analysis (configure api_key veracity nuance) list_gt false text lang w2 =
             (Ok (if nuance then Some (fallback_nuance_analysis (configure api_key veracity nuance) lang)
                  else None), w3) /\
             length (requests w3) =
               (length (requests w2) + (if nuance then 2 else 0))%nat /\
             sleeps w3 = sleeps w2).
  { unfold _get_nuance_analysis. destruct nuance; simpl.
    - destruct (analyze_political_tendency_unparsed api_key veracity true text lang w2 Hkey H2)
        as [w3 [E3 [H3 [L3 S3]]]].
      destruct (analyze_intents_unparsed api_key veracity true text lang w3 Hkey H3) as [w4 [E4 [H4 [L4 S4]]]].
      exists w4. unfold bind. rewrite E3. simpl. rewrite E4. unfold lift.
      destruct (nuance_of_uniform_scores api_key veracity true list_gt lang)
        as [Hp Hi].
      cbv zeta in Hp, Hi. rewrite Hp, Hi.
      split; [reflexivity |]. split; [lia | congruence].
    - exists w2. split; [reflexivity |]. split; [lia | reflexivity]. }
  destruct En as [w3 [E3 [L3 S3]]].
  exists w3. unfold stages, bind. rewrite Et, E2, E3.
  split; [reflexivity |]. split; [lia | congruence].
Qed.

(** X14.  When a key is configured and the model answers every prompt
    with text that is not JSON, the result carries no processing error:
    the post is a FactualClaim and not spam; the veracity analysis, when
    the flag asks for one, is Unverifiable with the strings "Error in
    analysis" and "No method available"; the nuance analysis, when the
    flag asks for one, is the one of uniform scores, with the primary
    tendency Left and no intent.  One request is sent for each gateway
    operation, none is repeated and no second is slept. *)
Theorem unparsed_replies_give_a_factual_claim
    (api_key : string) (veracity nuance : bool) (str : exn -> string)
    (list_gt : list pyval -> list pyval -> result bool)
    (id text lang : string) (w : World) :
  api_key <> EmptyString ->
  all_malformed w ->
  let settings := configure api_key veracity nuance in
  let run := perform_full_analysis settings str list_gt id text lang w in
  fst run =
    _build_analysis_response id lang FACTUAL_CLAIM false
      (if veracity then Some unparsed_veracity_analysis else None)
      (if nuance then Some (fallback_nuance_analysis settings lang) else None)
      None (snd run) /\
  length (requests (snd run)) =
    (length (requests w) + 1 + (if veracity then 1 else 0) +
     (if nuance then 2 else 0))%nat /\
  sleeps (snd run) = sleeps w.
Proof.
  intros Hkey H settings run.
  destruct (stages_unparsed api_key veracity nuance list_gt text lang w Hkey H)
    as [w' [E [L S]]].
  subst run. unfold perform_full_analysis. subst settings. rewrite E.
  simpl. split; [reflexivity |]. split; assumption.
Qed.

(** X14, a run: the model answers in prose. *)
Lemma unparsed_replies_give_a_factual_claim_witness :
  let w := fresh (fun _ => Returns (Malformed "I cannot answer with JSON.")) in
  let run := perform_full_analysis (configure "sk-key" true true) example_str
               no_list_order "p1" "A post." "en" w in
  "sk-key" <> EmptyString /\
  all_malformed w /\
  veracity_analysis (fst run) = Some unparsed_veracity_analysis /\
  length (requests (snd run)) = 4%nat.
Proof.
  intros w run.
  assert (Hkey : "sk-key" <> EmptyString) by discriminate.
  assert (H : all_malformed w) by (intros n; eexists; reflexivity).
  split; [exact Hkey |]. split; [exact H |].
  destruct (unparsed_replies_give_a_factual_claim "sk-key" true true example_str
              no_list_order "p1" "A post." "en" w Hkey H) as [E [L _]].
  split; [| exact L].
  subst run. cbv zeta in E. rewrite E. reflexivity.
Defined.

(** ** The two tables of the spam rule *)

(** X15.  The labels of [SPAM_LABELS] are exactly the labels that
    [_map_to_post_type] maps to Promotion, for every string and whatever
    the language: the list of the spam rule and the table of the post
    types name the same two labels.  A label is matched as it is written;
    "promotion" in lower case is neither. *)
Theorem spam_labels_are_the_promotion_labels (label lang : string) :
  (In label SPAM_LABELS <-> _map_to_post_type (PyStr label) lang = Ok PROMOTION) /\
  ~ In "promotion" SPAM_LABELS /\
  _map_to_post_type (PyStr "promotion") lang = Ok OPINION.
Proof.
  split; [| split; [intros [H | [H | []]]; discriminate H | reflexivity]].
  split.
  - intros [<- | [<- | []]]; reflexivity.
  - unfold SPAM_LABELS, _map_to_post_type, mapping_get.
    cbn [find fst snd].
    repeat match goal with
           | |- context [String.eqb ?a label] =>
               let E := fresh "E" in
               destruct (String.eqb a label) eqn:E;
               [apply String.eqb_eq in E | clear E]
           end;
      cbn [find fst snd In]; intros H; try discriminate H; tauto.
Qed.

(** ** A configuration with an empty label set *)

Lemma parse_classification_needs_a_label (response : option response_text) :
  exists e, _parse_classification_response response [] = Raise e.
Proof.
  destruct response as [[raw | v] |]; simpl.
  - eexists. reflexivity.
  - destruct v; simpl; eexists; reflexivity.
  - eexists. reflexivity.
Qed.

(** X16.  Whatever the settings and whatever the API does,
    [analyze_political_tendency], [analyze_intents] and [analyze_veracity]
    never raise.  [classify_post_type] does not raise either when the
    post-type label set of the language has a label; when that set is
    empty it raises an IndexError in every case, from [labels[0]] in its
    own fallback, and [perform_full_analysis] then ends with a processing
    error. *)
Theorem gateway_raises_only_without_post_type_labels
    (settings : Settings) (str : exn -> string)
    (list_gt : list pyval -> list pyval -> result bool)
    (id text lang : string) (w : World) :
  (exists s, fst (analyze_political_tendency settings text lang w) = Ok s) /\
  (exists s, fst (analyze_intents settings text lang w) = Ok s) /\
  (exists v, fst (analyze_veracity settings text lang w) = Ok v) /\
  (_get_post_type_labels settings lang <> [] ->
   exists c, fst (classify_post_type settings text lang w) = Ok c) /\
  (_get_post_type_labels settings lang = [] ->
   fst (classify_post_type settings text lang w) = Raise IndexError /\
   processing_error (fst (perform_full_analysis settings str list_gt id text lang w)) =
     Some ("Analysis failed: " ++ str IndexError)%string).
Proof.
  split; [| split; [| split; [| split]]].
  - destruct (analyze_political_tendency_total settings text lang w) as [s [w' E]].
    exists s. rewrite E. reflexivity.
  - destruct (analyze_intents_total settings text lang w) as [s [w' E]].
    exists s. rewrite E. reflexivity.
  - destruct (analyze_veracity_total settings text lang w) as [st [j [m [w' E]]]].
    exists (st, j, m). rewrite E. reflexivity.
  - intros Hne. unfold classify_post_type.
    assert (Hd : exists c, _get_default_classification settings lang = Ok c).
    { unfold _get_default_classification.
      destruct (_get_post_type_labels settings lang); [contradiction |].
      eexists. reflexivity. }
    destruct Hd as [c Hd]. rewrite Hd.
    destruct (negb (enabled settings)); [exists c; reflexivity |].
    unfold try_except_Exception.
    destruct (bind _ _ w) as [[c' | e] w1]; eexists; reflexivity.
  - intros Hempty.
    assert (Hc : forall w0, fst (classify_post_type settings text lang w0) =
                            Raise IndexError).
    { intros w0. unfold classify_post_type, _get_default_classification.
      rewrite Hempty. simpl.
      destruct (negb (enabled settings)); [reflexivity |].
      unfold try_except_Exception, bind.
      destruct (_make_api_call _ w0) as [[response | e] w1]; [| reflexivity].
      destruct (parse_classification_needs_a_label response) as [e He].
      unfold lift. rewrite He. reflexivity. }
    split; [apply Hc |].
    unfold perform_full_analysis, stages, _run_triage, bind.
    specialize (Hc w).
    destruct (classify_post_type settings text lang w) as [r w1].
    simpl in Hc. subst r. reflexivity.
Qed.

(** X16, a run: a configuration whose English post types were emptied. *)
Lemma gateway_raises_only_without_post_type_labels_witness :
  let settings :=
    {| ANTHROPIC_API_KEY := EmptyString;
       CLAUDE_MODEL := CLAUDE_MODEL default_settings;
       ENABLE_VERACITY_CHECK := true;
       ENABLE_NUANCE_ANALYSIS := true;
       EN_POST_TYPES := [];
       DE_POST_TYPES := DE_POST_TYPES default_settings;
       EN_POLITICAL_LABELS := EN_POLITICAL_LABELS default_settings;
       DE_POLITICAL_LABELS := DE_POLITICAL_LABELS default_settings;
       EN_INTENT_LABELS := EN_INTENT_LABELS default_settings;
       DE_INTENT_LABELS := DE_INTENT_LABELS default_settings;
       INTENT_CONFIDENCE_THRESHOLD := 3 # 10;
       SPAM_CONFIDENCE_THRESHOLD := 7 # 10 |} in
  let w := fresh (fun _ => Fails (VendorError "offline")) in
  _get_post_type_labels settings "en" = [] /\
  fst (classify_post_type settings "A post." "en" w) = Raise IndexError /\
  exists c, fst (classify_post_type settings "Ein Beitrag." "de" w) = Ok c.
Proof.
  intros settings w.
  assert (H : _get_post_type_labels settings "en" = []) by reflexivity.
  split; [exact H |].
  destruct (gateway_raises_only_without_post_type_labels settings example_str
              no_list_order "p1" "A post." "en" w) as [_ [_ [_ [_ T]]]].
  split; [apply (T H) |].
  destruct (gateway_raises_only_without_post_type_labels settings example_str
              no_list_order "p1" "Ein Beitrag." "de" w) as [_ [_ [_ [T' _]]]].
  apply T'. discriminate.
Defined.
